(** * Enhanced Fiddler bridge: ingestion, buffers, risk assessment, search,
      content extraction

    A shallow embedding of [EnhancedFiddlerRealtimeBridge] from
    [enhanced-bridge.py].  Python values decoded from JSON are an inductive
    type, dictionaries are association lists, the Python float is the
    binary64 instance of [spec_float], exceptions are an error monad, and
    the two [deque(maxlen=...)] buffers are lists with their capacity.
    Strings are modelled over 8-bit characters. *)

From Stdlib Require Import ZArith List String Ascii Bool Lia.
From Stdlib Require Import Floats.SpecFloat.
Import ListNotations.

Local Open Scope string_scope.
Local Open Scope Z_scope.

(** ** Exceptions *)

Module Exc.

(** The exception classes that the modelled code can meet.  All of them
    derive from [Exception]; [ReError] is [re.error]. *)
Inductive exn : Type :=
| TypeError
| AttributeError
| ValueError
| KeyError
| OverflowError
| OSError
| ReError.

Inductive result (A : Type) : Type :=
| Ok (a : A)
| Raise (e : exn).

Arguments Ok {A} a.
Arguments Raise {A} e.

Definition bind {A B : Type} (m : result A) (k : A -> result B) : result B :=
  match m with
  | Ok a => k a
  | Raise e => Raise e
  end.

(** [try: m  except Exception as e: h e] *)
Definition try_except {A : Type} (m : result A) (h : exn -> result A) : result A :=
  match m with
  | Ok a => Ok a
  | Raise e => h e
  end.

(** [try: m  except (ValueError, TypeError): h] *)
Definition is_value_or_type_error (e : exn) : bool :=
  match e with
  | ValueError | TypeError => true
  | _ => false
  end.

Definition except_value_type {A : Type} (m : result A) (h : result A) : result A :=
  match m with
  | Ok a => Ok a
  | Raise e => if is_value_or_type_error e then h else Raise e
  end.

Definition is_ok {A : Type} (m : result A) : bool :=
  match m with Ok _ => true | Raise _ => false end.

End Exc.

Import Exc.

Declare Scope py_scope.
Notation "x <- m ;; k" := (bind m (fun x => k))
  (at level 61, m at next level, right associativity) : py_scope.
Notation "m ;;; k" := (bind m (fun _ => k))
  (at level 61, right associativity) : py_scope.
Local Open Scope py_scope.

(** ** Python strings *)

Module PyStr.

Definition len (s : string) : Z := Z.of_nat (String.length s).

(** [str.lower] on the ASCII letters. *)
Definition lower_char (c : ascii) : ascii :=
  let n := nat_of_ascii c in
  if andb (Nat.leb 65 n) (Nat.leb n 90) then ascii_of_nat (n + 32) else c.

Fixpoint lower (s : string) : string :=
  match s with
  | EmptyString => EmptyString
  | String c r => String (lower_char c) (lower r)
  end.

(** [str.upper] on the ASCII letters. *)
Definition upper_char (c : ascii) : ascii :=
  let n := nat_of_ascii c in
  if andb (Nat.leb 97 n) (Nat.leb n 122) then ascii_of_nat (n - 32) else c.

Fixpoint upper (s : string) : string :=
  match s with
  | EmptyString => EmptyString
  | String c r => String (upper_char c) (upper r)
  end.

(** The characters [str.strip] removes: tab, line feed, vertical tab, form
    feed, carriage return, the four separators 28..31 and the space. *)
Definition is_space (c : ascii) : bool :=
  let n := nat_of_ascii c in
  orb (andb (Nat.leb 9 n) (Nat.leb n 13))
      (orb (andb (Nat.leb 28 n) (Nat.leb n 31)) (Nat.eqb n 32)).

Fixpoint lstrip (s : string) : string :=
  match s with
  | EmptyString => EmptyString
  | String c r => if is_space c then lstrip r else s
  end.

(** [rstrip] keeps a character when it is not a space or when something
    is kept after it. *)
Fixpoint rstrip (s : string) : string :=
  match s with
  | EmptyString => EmptyString
  | String c r =>
      match rstrip r with
      | EmptyString => if is_space c then EmptyString else String c EmptyString
      | r' => String c r'
      end
  end.

Definition strip (s : string) : string := rstrip (lstrip s).

Fixpoint take (n : nat) (s : string) : string :=
  match n, s with
  | O, _ => EmptyString
  | _, EmptyString => EmptyString
  | S n', String c r => String c (take n' r)
  end.

Fixpoint drop (n : nat) (s : string) : string :=
  match n, s with
  | O, _ => s
  | _, EmptyString => EmptyString
  | S n', String _ r => drop n' r
  end.

(** A slice bound as Python clamps it: a negative index counts from the
    end, and the result stays within [0, len s]. *)
Definition clamp (s : string) (i : Z) : Z :=
  let n := len s in
  if i <? 0 then Z.max 0 (i + n) else Z.min i n.

(** [s[lo:hi]]; [None] is an omitted bound. *)
Definition slice (s : string) (lo hi : option Z) : string :=
  let a := match lo with Some i => clamp s i | None => 0 end in
  let b := match hi with Some i => clamp s i | None => len s end in
  take (Z.to_nat (b - a)) (drop (Z.to_nat a) s).

Definition startswith (s p : string) : bool := String.prefix p s.

(** [sub in s] *)
Fixpoint contains (sub s : string) : bool :=
  if String.prefix sub s then true
  else match s with
       | EmptyString => false
       | String _ r => contains sub r
       end.

(** Lowest index [i >= from] of [s], seen as starting at position [pos],
    at which [sub] occurs wholly before [stop]. *)
Fixpoint find_aux (sub s : string) (pos from stop : Z) : Z :=
  if andb (andb (from <=? pos) (pos + len sub <=? stop)) (String.prefix sub s) then pos
  else match s with
       | EmptyString => -1
       | String _ r => find_aux sub r (pos + 1) from stop
       end.

(** [s.find(sub, start, end)] *)
Definition find (s sub : string) (start stop : Z) : Z :=
  find_aux sub s 0 (clamp s start) (clamp s stop).

(** Highest such index, or [-1]. *)
Fixpoint rfind_aux (sub s : string) (pos from stop : Z) : Z :=
  let later := match s with
               | EmptyString => -1
               | String _ r => rfind_aux sub r (pos + 1) from stop
               end in
  if 0 <=? later then later
  else if andb (andb (from <=? pos) (pos + len sub <=? stop)) (String.prefix sub s)
       then pos else -1.

(** [s.rfind(sub, start, end)] *)
Definition rfind (s sub : string) (start stop : Z) : Z :=
  rfind_aux sub s 0 (clamp s start) (clamp s stop).

(** [sep.join(parts)] *)
Fixpoint join (sep : string) (parts : list string) : string :=
  match parts with
  | [] => EmptyString
  | [p] => p
  | p :: rest => p ++ sep ++ join sep rest
  end.

(** The text before the first character that satisfies [stop]. *)
Fixpoint take_until (stop : ascii -> bool) (s : string) : string :=
  match s with
  | EmptyString => EmptyString
  | String c r => if stop c then EmptyString else String c (take_until stop r)
  end.

(** [str(n)] for an integer: the decimal digits, produced from the last
    one; the number of binary digits is enough fuel. *)
Definition digit_char (d : Z) : ascii := ascii_of_nat (48 + Z.to_nat d).

Fixpoint digits_of (fuel : nat) (n : Z) (acc : string) : string :=
  match fuel with
  | O => acc
  | S f =>
      let acc' := String (digit_char (n mod 10)) acc in
      if n <? 10 then acc' else digits_of f (n / 10) acc'
  end.

Definition of_Z (z : Z) : string :=
  if z <? 0
  then String "-"%char (digits_of (S (Z.to_nat (Z.log2 (- z)))) (- z) EmptyString)
  else digits_of (S (Z.to_nat (Z.log2 z))) z EmptyString.

Definition nl : string := String (ascii_of_nat 10) EmptyString.

End PyStr.

(** ** Python floats *)

Module PyFloat.

(** binary64 *)
Definition prec : Z := 53.
Definition emax : Z := 1024.

Definition pyfloat : Type := spec_float.

(** The float nearest to an integer; infinite when out of range. *)
Definition nearest (z : Z) : pyfloat := binary_normalize prec emax z 0 false.

Definition is_finite (f : pyfloat) : bool :=
  match f with
  | S754_zero _ | S754_finite _ _ _ => true
  | S754_infinity _ | S754_nan => false
  end.

(** [float(z)] for a Python integer raises when [z] is too large. *)
Definition of_int (z : Z) : result pyfloat :=
  let f := nearest z in
  if is_finite f then Ok f else Raise OverflowError.

(** A decimal literal [n / 10^k] such as [0.85], correctly rounded. *)
Definition decimal (n : Z) (k : Z) : pyfloat :=
  SFdiv prec emax (nearest n) (nearest (10 ^ k)).

Definition ltb (a b : pyfloat) : bool := SFltb a b.
Definition div (a b : pyfloat) : pyfloat := SFdiv prec emax a b.

(** [max(a, b)]: the first argument unless the second is greater. *)
Definition max (a b : pyfloat) : pyfloat := if ltb a b then b else a.

(** [bool(f)]: zero is false, everything else (NaN too) is true. *)
Definition truthy (f : pyfloat) : bool :=
  match f with S754_zero _ => false | _ => true end.

(** [int(f)]: truncation toward zero; infinities and NaN raise. *)
Definition to_int (f : pyfloat) : result Z :=
  match f with
  | S754_zero _ => Ok 0
  | S754_finite s m e =>
      let a := if 0 <=? e then Zpos m * 2 ^ e else Zpos m / 2 ^ (- e) in
      Ok (if s then - a else a)
  | S754_infinity _ => Raise OverflowError
  | S754_nan => Raise ValueError
  end.

(** An integer compared with a float, exactly, as Python does:
    [z > f]. *)
Definition int_gt (z : Z) (f : pyfloat) : bool :=
  match f with
  | S754_zero _ => 0 <? z
  | S754_finite s m e =>
      let num := if s then - Zpos m else Zpos m in
      if 0 <=? e then num * 2 ^ e <? z else num <? z * 2 ^ (- e)
  | S754_infinity s => s
  | S754_nan => false
  end.

(** [z < f] for an integer and a float. *)
Definition int_lt (z : Z) (f : pyfloat) : bool :=
  match f with
  | S754_zero _ => z <? 0
  | S754_finite s m e =>
      let num := if s then - Zpos m else Zpos m in
      if 0 <=? e then z <? num * 2 ^ e else z * 2 ^ (- e) <? num
  | S754_infinity s => negb s
  | S754_nan => false
  end.

Definition mul (a b : pyfloat) : pyfloat := SFmul prec emax a b.
Definition sub (a b : pyfloat) : pyfloat := SFsub prec emax a b.

Definition zero : pyfloat := S754_zero false.
Definition one : pyfloat := nearest 1.

(** [int(t * 1000)], the millisecond stamp of a clock reading. *)
Definition millis (t : pyfloat) : result Z := to_int (mul t (nearest 1000)).

End PyFloat.

Definition pyfloat : Type := PyFloat.pyfloat.

(** ** Python values decoded from JSON *)

#[local] Set Warnings "-register-all".

Inductive pyval : Type :=
| VNone
| VBool (b : bool)
| VInt (z : Z)
| VFloat (f : pyfloat)
| VStr (s : string)
| VList (l : list pyval)
| VDict (kvs : list (string * pyval)).

(** A dictionary with string keys, in insertion order.  A decoded JSON
    object has each key once; [lookup] takes the first binding. *)
Definition pydict : Type := list (string * pyval).

Fixpoint lookup (k : string) (d : pydict) : option pyval :=
  match d with
  | [] => None
  | (k', v) :: r => if String.eqb k k' then Some v else lookup k r
  end.

Module Py.

(** [bool(v)] *)
Definition truthy (v : pyval) : bool :=
  match v with
  | VNone => false
  | VBool b => b
  | VInt z => negb (z =? 0)
  | VFloat f => PyFloat.truthy f
  | VStr s => negb (String.eqb s "")
  | VList l => match l with [] => false | _ => true end
  | VDict d => match d with [] => false | _ => true end
  end.

(** [a or b] *)
Definition or (a b : pyval) : pyval := if truthy a then a else b.

(** [v is not None] *)
Definition is_not_none (v : pyval) : bool :=
  match v with VNone => false | _ => true end.

(** [d.get(k)] and [d.get(k, default)] on a dictionary. *)
Definition dget (d : pydict) (k : string) : pyval :=
  match lookup k d with Some v => v | None => VNone end.

Definition dget_default (d : pydict) (k : string) (dflt : pyval) : pyval :=
  match lookup k d with Some v => v | None => dflt end.

(** [v.get(k, default)] on any value: only a dictionary has [get]. *)
Definition get_default (v : pyval) (k : string) (dflt : pyval) : result pyval :=
  match v with
  | VDict d => Ok (dget_default d k dflt)
  | _ => Raise AttributeError
  end.

Definition get (v : pyval) (k : string) : result pyval := get_default v k VNone.

(** [x == "k"] for a decoded value [x] and a string. *)
Definition eq_str (v : pyval) (k : string) : bool :=
  match v with VStr s => String.eqb s k | _ => false end.

(** ["k" in v] *)
Definition contains_key (k : string) (v : pyval) : result bool :=
  match v with
  | VDict d => Ok (match lookup k d with Some _ => true | None => false end)
  | VList l => Ok (existsb (fun x => eq_str x k) l)
  | VStr s => Ok (PyStr.contains k s)
  | VNone | VBool _ | VInt _ | VFloat _ => Raise TypeError
  end.

(** [v["k"]] with a string subscript. *)
Definition getitem (v : pyval) (k : string) : result pyval :=
  match v with
  | VDict d => match lookup k d with Some x => Ok x | None => Raise KeyError end
  | _ => Raise TypeError
  end.

End Py.

(** ** The Python runtime

    Library functions whose results the bridge only passes on.  A failing
    call is a [Raise]. *)

Record parsed_url : Type := {
  hostname : option string;   (* [None] when the URL has no host *)
  url_scheme : string
}.

Record Runtime : Type := {
  (* [str(f)] of a float and [str(v)] of a list or dictionary *)
  str_float : pyfloat -> string;
  str_container : pyval -> string;
  (* [str(e)] of a caught exception *)
  exc_str : exn -> string;
  (* [int(s)] and [float(s)] of a string; [None] is [ValueError] *)
  int_of_str : string -> option Z;
  float_of_str : string -> option pyfloat;
  (* [urllib.parse.urlparse] on a string *)
  urlparse : string -> result parsed_url;
  (* [base64.b64decode(v).decode("utf-8", errors="replace")] *)
  b64decode_utf8 : pyval -> result string;
  (* [datetime.fromisoformat(s).timestamp()] *)
  iso_timestamp : string -> result pyfloat;
  (* [datetime.utcfromtimestamp(t).isoformat()] *)
  utcfromtimestamp_iso : pyfloat -> result string;
  (* [datetime.fromtimestamp(t).strftime("%H:%M:%S")] *)
  fromtimestamp_hms : pyfloat -> result string;
  (* [re.compile(p, re.I)] succeeds; [re.compile(p, re.I).search(s)] finds
     a match; the matches of [re.finditer(p, s, re.IGNORECASE)] as
     (start, end) pairs in source order *)
  re_valid : string -> bool;
  re_search : string -> string -> bool;
  re_finditer : string -> string -> list (Z * Z)
}.

(** The clock readings of one request: [time.time()] read in the body of
    [normalize_session], twice in its handler, and the two
    [datetime.utcnow().isoformat()] readings of the handler. *)
Record clock : Type := {
  t_now : pyfloat;
  t_exc_id : pyfloat;
  t_exc_recv : pyfloat;
  utcnow_a : string;
  utcnow_b : string
}.

Section WithRuntime.

Variable R : Runtime.

(** [str(v)] *)
Definition py_str (v : pyval) : string :=
  match v with
  | VNone => "None"
  | VBool true => "True"
  | VBool false => "False"
  | VInt z => PyStr.of_Z z
  | VFloat f => str_float R f
  | VStr s => s
  | VList _ | VDict _ => str_container R v
  end.

(** [int(v)] *)
Definition py_int (v : pyval) : result Z :=
  match v with
  | VInt z => Ok z
  | VBool b => Ok (if b then 1 else 0)
  | VFloat f => PyFloat.to_int f
  | VStr s => match int_of_str R s with Some z => Ok z | None => Raise ValueError end
  | VNone | VList _ | VDict _ => Raise TypeError
  end.

(** [v.strip()], [v.lower()]: only strings have these methods. *)
Definition py_strip (v : pyval) : result string :=
  match v with VStr s => Ok (PyStr.strip s) | _ => Raise AttributeError end.

Definition py_lower (v : pyval) : result string :=
  match v with VStr s => Ok (PyStr.lower s) | _ => Raise AttributeError end.

(** [v[:n]]: strings and lists can be sliced. *)
Definition py_slice_to (v : pyval) (n : Z) : result pyval :=
  match v with
  | VStr s => Ok (VStr (PyStr.slice s None (Some n)))
  | VList l => Ok (VList (firstn (Z.to_nat n) l))
  | _ => Raise TypeError
  end.

(** [urlparse(v)] of a truthy value: a non-string has no [decode]. *)
Definition py_urlparse (v : pyval) : result parsed_url :=
  match v with
  | VStr s => urlparse R s
  | _ => Raise AttributeError
  end.

Definition hostname_val (p : parsed_url) : pyval :=
  match hostname p with Some h => VStr h | None => VNone end.

(** [s.replace("Z", "+00:00")] *)
Fixpoint replace_Z (s : string) : string :=
  match s with
  | EmptyString => EmptyString
  | String c r =>
      if Ascii.eqb c "Z"%char then "+00:00" ++ replace_Z r else String c (replace_Z r)
  end.

(** ** [_coerce_timestamp] *)

Definition e12 : pyfloat := PyFloat.nearest (10 ^ 12).
Definition f1000 : pyfloat := PyFloat.nearest 1000.

Definition _coerce_timestamp (value : pyval) (default_epoch : pyfloat) : result pyfloat :=
  match value with
  | VNone => Ok default_epoch
  | VBool b => Ok (if b then PyFloat.one else PyFloat.zero)
  | VInt z =>
      if PyFloat.int_gt z e12
      then f <- PyFloat.of_int z ;; Ok (PyFloat.div f f1000)
      else PyFloat.of_int z
  | VFloat f =>
      if PyFloat.ltb e12 f then Ok (PyFloat.div f f1000) else Ok f
  | VStr s =>
      let value := PyStr.strip s in
      if String.eqb value "" then Ok default_epoch
      else
        match iso_timestamp R (replace_Z value) with
        | Ok t => Ok t
        | Raise ValueError =>
            match float_of_str R value with
            | Some f => Ok f
            | None => Ok default_epoch
            end
        | Raise e => Raise e
        end
  | VList _ | VDict _ => Ok default_epoch
  end.

(** ** [normalize_session] *)

(** [k in d and d[k] is not None] *)
Definition has_alias (d : pyval) (k : string) : result bool :=
  present <- Py.contains_key k d ;;
  if present then v <- Py.getitem d k ;; Ok (Py.is_not_none v) else Ok false.

(** The [if]/[elif] chain of the body. *)
Definition alias_chain (d : pyval) : result (option string) :=
  c1 <- has_alias d "id" ;;
  if c1 then v <- Py.getitem d "id" ;; Ok (Some (py_str v))
  else
    c2 <- has_alias d "session_id" ;;
    if c2 then v <- Py.getitem d "session_id" ;; Ok (Some (py_str v))
    else
      c3 <- has_alias d "fiddler_session_id" ;;
      if c3 then v <- Py.getitem d "fiddler_session_id" ;; Ok (Some (py_str v))
      else Ok None.

(** The [for key in [...]] loop of the handler, leaving at the first hit. *)
Fixpoint alias_loop (d : pyval) (keys : list string) : result (option string) :=
  match keys with
  | [] => Ok None
  | key :: rest =>
      c <- has_alias d key ;;
      if c then v <- Py.getitem d key ;; Ok (Some (py_str v))
      else alias_loop d rest
  end.

Definition id_aliases : list string := ["id"; "session_id"; "fiddler_session_id"].

(** [d.get(k1) or d.get(k2)]: the second value is returned as it is when
    the first is falsy. *)
Definition get_or2 (d : pyval) (k1 k2 : string) : result pyval :=
  a <- Py.get d k1 ;;
  if Py.truthy a then Ok a else Py.get d k2.

(** [d.get(k1) or d.get(k2) or d.get(k3)] *)
Definition get_or3 (d : pyval) (k1 k2 k3 : string) : result pyval :=
  a <- get_or2 d k1 k2 ;;
  if Py.truthy a then Ok a else Py.get d k3.

(** [d.get(k1) or d.get(k2) or dflt] *)
Definition get_or (d : pyval) (k1 k2 : string) (dflt : pyval) : result pyval :=
  a <- get_or2 d k1 k2 ;; Ok (Py.or a dflt).

Definition get_or1 (d : pyval) (k : string) (dflt : pyval) : result pyval :=
  a <- Py.get d k ;; Ok (Py.or a dflt).

(** [int(d.get(k1, d.get(k2, 0)) or 0)] guarded by
    [except (ValueError, TypeError)]. *)
Definition int_field (d : pyval) (k1 k2 : string) : result Z :=
  inner <- Py.get_default d k2 (VInt 0) ;;
  outer <- Py.get_default d k1 inner ;;
  except_value_type (py_int (Py.or outer (VInt 0))) (Ok 0).

Definition normalize_body (c : clock) (d : pyval) : result pydict :=
  let now_epoch := t_now c in
  found <- alias_chain d ;;
  sid <- match found with
         | Some s => Ok s
         | None =>
             u <- Py.get_default d "url" (VStr "unknown") ;;
             py_slice_to u 100 ;;;
             ms <- PyFloat.millis now_epoch ;;
             Ok ("missing-id-" ++ PyStr.of_Z ms)
         end ;;
  url <- get_or1 d "url" (VStr "") ;;
  parsed <- (if Py.truthy url then p <- py_urlparse url ;; Ok (Some p) else Ok None) ;;
  h <- Py.get d "host" ;;
  let host := Py.or h (match parsed with Some p => hostname_val p | None => VStr "" end) in
  method <- get_or d "method" "RequestMethod" (VStr "") ;;
  code <- int_field d "statusCode" "status" ;;
  ctype <- get_or d "contentType" "mime" (VStr "") ;;
  clen <- int_field d "contentLength" "body_length" ;;
  body0 <- get_or1 d "responseBody" (VStr "") ;;
  body_text <- (if Py.truthy body0 then Ok body0
                else
                  b64 <- get_or2 d "responseBodyBase64" "response_body_base64" ;;
                  if Py.truthy b64
                  then try_except (s <- b64decode_utf8 R b64 ;; Ok (VStr s))
                                  (fun _ => Ok (VStr ""))
                  else Ok body0) ;;
  timestamp_raw <- get_or3 d "received_at" "timestamp" "StartedDateTime" ;;
  received_at <- _coerce_timestamp timestamp_raw now_epoch ;;
  scheme0 <- get_or2 d "scheme" "protocol" ;;
  let scheme1 := match parsed with
                 | Some p => if Py.truthy scheme0 then scheme0 else VStr (url_scheme p)
                 | None => scheme0
                 end in
  scheme <- py_lower (Py.or scheme1 (VStr "http")) ;;
  request_headers <- get_or d "requestHeaders" "request_headers" (VDict []) ;;
  response_headers <- get_or d "responseHeaders" "response_headers" (VDict []) ;;
  request_body <- get_or d "requestBody" "request_body" (VStr "") ;;
  iso1 <- utcfromtimestamp_iso R received_at ;;
  comments <- get_or1 d "ekfiddleComments" (VStr "") ;;
  flags <- get_or1 d "ekfiddleFlags" (VStr "") ;;
  session_flags <- get_or1 d "sessionFlags" (VStr "") ;;
  iso2 <- utcfromtimestamp_iso R received_at ;;
  fsid <- get_or1 d "fiddler_session_id" (VStr sid) ;;
  Ok [ ("id", VStr sid);
       ("url", url);
       ("host", host);
       ("method", method);
       ("scheme", VStr scheme);
       ("statusCode", VInt code);
       ("contentType", ctype);
       ("contentLength", VInt clen);
       ("requestHeaders", request_headers);
       ("responseHeaders", response_headers);
       ("responseBody", body_text);
       ("requestBody", request_body);
       ("received_at", VFloat received_at);
       ("received_at_iso", VStr (iso1 ++ "Z"));
       ("ekfiddleComments", comments);
       ("ekfiddleFlags", flags);
       ("sessionFlags", session_flags);
       ("timestamp", VStr (iso2 ++ "Z"));
       ("fiddler_session_id", fsid) ].

Definition normalize_handler (c : clock) (d : pyval) (e : exn) : result pydict :=
  found <- alias_loop d id_aliases ;;
  error_sid <- match found with
               | Some s => Ok s
               | None =>
                   ms <- PyFloat.millis (t_exc_id c) ;;
                   Ok ("error-" ++ PyStr.of_Z ms)
               end ;;
  u <- Py.get_default d "url" (VStr "") ;;
  h <- Py.get_default d "host" (VStr "") ;;
  m <- Py.get_default d "method" (VStr "GET") ;;
  Ok [ ("id", VStr error_sid);
       ("url", VStr (py_str u));
       ("host", VStr (py_str h));
       ("method", VStr (py_str m));
       ("statusCode", VInt 0);
       ("contentType", VStr "");
       ("contentLength", VInt 0);
       ("requestHeaders", VDict []);
       ("responseHeaders", VDict []);
       ("responseBody", VStr "");
       ("requestBody", VStr "");
       ("received_at", VFloat (t_exc_recv c));
       ("received_at_iso", VStr (utcnow_a c ++ "Z"));
       ("ekfiddleComments", VStr ("normalization_error: " ++ exc_str R e));
       ("ekfiddleFlags", VStr "");
       ("sessionFlags", VStr "");
       ("timestamp", VStr (utcnow_b c ++ "Z"));
       ("fiddler_session_id", VStr error_sid) ].

Definition normalize_session (c : clock) (d : pyval) : result pydict :=
  try_except (normalize_body c d) (normalize_handler c d).

End WithRuntime.

(** ** [_extract_intelligent_content] *)

Record snippet : Type := {
  sn_pattern : string;
  sn_code : string;
  sn_position : Z
}.

Record extraction_sizes : Type := {
  head_size : Z;
  tail_size : Z;
  patterns_size : Z;
  total_extracted : Z
}.

Record metadata : Type := {
  original_size : Z;
  content_type : pyval;
  extraction_method : string;
  patterns_found : list string;
  patterns_count : option Z;          (* set only when a snippet was kept *)
  sizes : option extraction_sizes     (* set only on the long path *)
}.

Record extraction : Type := {
  head : string;
  tail : string;
  suspicious_patterns : string;
  meta : metadata
}.

Definition dq : string := String (ascii_of_nat 34) EmptyString.

(** The catalogue, as (regular expression, name) pairs in its order. *)
Definition security_patterns : list (string * string) :=
  [ ("eval\s*\(", "eval()");
    ("Function\s*\(", "Function()");
    ("new\s+Function\s*\(", "new Function()");
    ("setTimeout\s*\([^)]*[" ++ dq ++ "\']", "setTimeout with string");
    ("setInterval\s*\([^)]*[" ++ dq ++ "\']", "setInterval with string");
    ("document\.write\s*\(", "document.write()");
    ("innerHTML\s*=", "innerHTML assignment");
    ("outerHTML\s*=", "outerHTML assignment");
    ("insertAdjacentHTML\s*\(", "insertAdjacentHTML()");
    ("window\.location\s*=", "window.location redirect");
    ("document\.location\s*=", "document.location redirect");
    ("location\.href\s*=", "location.href redirect");
    ("location\.replace\s*\(", "location.replace()");
    ("createElement\s*\(\s*[" ++ dq ++ "\']script", "createElement script");
    ("createElement\s*\(\s*[" ++ dq ++ "\']iframe", "createElement iframe");
    ("appendChild\s*\(", "appendChild()");
    ("\\x[0-9a-fA-F]{2}", "hex escape sequences");
    ("\\u[0-9a-fA-F]{4}", "unicode escapes");
    ("fromCharCode\s*\(", "fromCharCode()");
    ("charCodeAt\s*\(", "charCodeAt()");
    ("atob\s*\(", "atob() base64 decode");
    ("btoa\s*\(", "btoa() base64 encode");
    ("XMLHttpRequest", "XMLHttpRequest");
    ("fetch\s*\(", "fetch()");
    ("sendBeacon\s*\(", "sendBeacon()");
    ("localStorage\s*[\.\[]", "localStorage access");
    ("sessionStorage\s*[\.\[]", "sessionStorage access");
    ("document\.cookie", "cookie access");
    ("debugger\s*;", "debugger statement");
    ("console\s*\.\s*clear\s*\(", "console.clear()") ].

Definition context_chars : Z := 150.

(** The state of the two loops. *)
Record scan : Type := {
  suspicious_snippets : list snippet;
  found : list string;
  bytes_used : Z
}.

(** The text cut around one match and stripped. *)
Definition snippet_text (middle_section : string) (m : Z * Z) : string :=
  let (m_start, m_end) := m in
  let start := Z.max 0 (m_start - context_chars) in
  let stop := Z.min (PyStr.len middle_section) (m_end + context_chars) in
  let line_start :=
    let i := PyStr.rfind middle_section PyStr.nl (start - 50) m_start in
    if i =? -1 then start else i + 1 in
  let line_end :=
    let i := PyStr.find middle_section PyStr.nl m_end (stop + 50) in
    if i =? -1 then stop else i in
  PyStr.strip (PyStr.slice middle_section (Some line_start) (Some line_end)).

(** The body of the inner loop for one match. *)
Definition scan_match (middle_section : string) (middle_start : Z)
  (pattern_name : string) (st : scan) (m : Z * Z) : scan :=
  let code := snippet_text middle_section m in
  if andb (negb (String.eqb code "")) (PyStr.len code <? 500)
  then
    if existsb (fun s => String.eqb code (sn_code s)) (suspicious_snippets st)
    then st
    else {| suspicious_snippets :=
              (suspicious_snippets st ++
               [ {| sn_pattern := pattern_name;
                    sn_code := code;
                    sn_position := middle_start + fst m |} ])%list;
            found := if existsb (String.eqb pattern_name) (found st) then found st
                     else (found st ++ [pattern_name])%list;
            bytes_used := bytes_used st + (PyStr.len code + 50) |}
  else st.

(** The inner loop: it is left once the budget is used up. *)
Fixpoint scan_matches (middle_section : string) (middle_start pattern_budget : Z)
  (pattern_name : string) (ms : list (Z * Z)) (st : scan) : scan :=
  match ms with
  | [] => st
  | m :: rest =>
      if pattern_budget <=? bytes_used st then st
      else scan_matches middle_section middle_start pattern_budget pattern_name rest
             (scan_match middle_section middle_start pattern_name st m)
  end.

(** The outer loop over the catalogue; a pattern that [re] refuses is
    passed over. *)
Fixpoint scan_patterns (R : Runtime) (middle_section : string)
  (middle_start pattern_budget : Z) (patterns : list (string * string)) (st : scan)
  : scan :=
  match patterns with
  | [] => st
  | (pattern_regex, pattern_name) :: rest =>
      if pattern_budget <=? bytes_used st then st
      else
        scan_patterns R middle_section middle_start pattern_budget rest
          (if re_valid R pattern_regex
           then scan_matches middle_section middle_start pattern_budget pattern_name
                  (re_finditer R pattern_regex middle_section) st
           else st)
  end.

(** ["[i] pattern (position ~p):\ncode"] *)
Definition format_snippet (i : Z) (s : snippet) : string :=
  "[" ++ PyStr.of_Z i ++ "] " ++ sn_pattern s ++ " (position ~"
  ++ PyStr.of_Z (sn_position s) ++ "):" ++ PyStr.nl ++ sn_code s.

(** [enumerate(l, i)] mapped through [format_snippet]. *)
Fixpoint format_from (i : Z) (l : list snippet) : list string :=
  match l with
  | [] => []
  | s :: r => format_snippet i s :: format_from (i + 1) r
  end.

Definition format_patterns (l : list snippet) : string :=
  PyStr.join (PyStr.nl ++ PyStr.nl) (format_from 1 (firstn 20 l)).

Definition _extract_intelligent_content (R : Runtime) (body_text : string)
  (content_type : pyval) (max_total : Z) : extraction :=
  let md := {| original_size := PyStr.len body_text;
               content_type := content_type;
               extraction_method := "intelligent";
               patterns_found := [];
               patterns_count := None;
               sizes := None |} in
  if String.eqb body_text "" then
    {| head := ""; tail := ""; suspicious_patterns := ""; meta := md |}
  else
    let body_size := PyStr.len body_text in
    if body_size <=? max_total then
      {| head := body_text; tail := ""; suspicious_patterns := "";
         meta := {| original_size := body_size;
                    content_type := content_type;
                    extraction_method := "full_content";
                    patterns_found := [];
                    patterns_count := None;
                    sizes := None |} |}
    else
      let head_size := Z.min 8000 body_size in
      let tail_size := Z.min 4000 (Z.max 0 (body_size - head_size)) in
      let pattern_budget := max_total - head_size - tail_size in
      let head := PyStr.slice body_text None (Some head_size) in
      let tail :=
        if head_size + tail_size <? body_size
        then PyStr.slice body_text (Some (- tail_size)) None
        else if head_size <? body_size
             then PyStr.slice body_text (Some head_size) None
             else "" in
      let middle_start := head_size in
      let middle_end :=
        if head_size + tail_size <? body_size then body_size - tail_size else body_size in
      let middle_section := PyStr.slice body_text (Some middle_start) (Some middle_end) in
      let st :=
        if andb (negb (String.eqb middle_section "")) (0 <? pattern_budget)
        then scan_patterns R middle_section middle_start pattern_budget security_patterns
               {| suspicious_snippets := []; found := []; bytes_used := 0 |}
        else {| suspicious_snippets := []; found := []; bytes_used := 0 |} in
      let kept := suspicious_snippets st in
      let patterns := match kept with [] => "" | _ => format_patterns kept end in
      {| head := head; tail := tail; suspicious_patterns := patterns;
         meta := {| original_size := body_size;
                    content_type := content_type;
                    extraction_method := "intelligent";
                    patterns_found := match kept with [] => [] | _ => found st end;
                    patterns_count := match kept with
                                      | [] => None
                                      | _ => Some (Z.of_nat (List.length kept))
                                      end;
                    sizes := Some {| head_size := PyStr.len head;
                                     tail_size := PyStr.len tail;
                                     patterns_size := PyStr.len patterns;
                                     total_extracted :=
                                       PyStr.len head + PyStr.len tail
                                       + PyStr.len patterns |} |} |}.

(** ** [_quick_risk_assessment] *)

Record assessment : Type := {
  score : pyfloat;
  level : string;
  flag : option string;      (* [None] is Python's [None] *)
  reasons : list string
}.

Definition s_0_0 : pyfloat := PyFloat.zero.
Definition s_0_4 : pyfloat := PyFloat.decimal 4 1.
Definition s_0_5 : pyfloat := PyFloat.decimal 5 1.
Definition s_0_65 : pyfloat := PyFloat.decimal 65 2.
Definition s_0_85 : pyfloat := PyFloat.decimal 85 2.
Definition s_1_0 : pyfloat := PyFloat.one.

(** [any(pattern in text for pattern in patterns)] *)
Definition any_in (patterns : list string) (text : string) : bool :=
  existsb (fun pattern => PyStr.contains pattern text) patterns.

(** [text.startswith(token + ":") or token in text[:20]] *)
Definition leading (token : string) (text : string) : bool :=
  orb (PyStr.startswith text (token ++ ":"))
      (PyStr.contains token (PyStr.slice text None (Some 20))).

(** [(session.get("ekfiddleComments") or session.get("sessionFlags") or
     session.get("ekfiddleFlags") or "").strip()] *)
Definition ekfiddle_text (session : pydict) : result string :=
  py_strip
    (Py.or (Py.or (Py.or (Py.dget session "ekfiddleComments")
                         (Py.dget session "sessionFlags"))
                  (Py.dget session "ekfiddleFlags"))
           (VStr "")).

(** The severity parsed from the start of the lowered annotation. *)
Definition severity_of (ekfiddle_lower : string) : pyfloat * string :=
  if leading "critical" ekfiddle_lower then (s_1_0, "CRITICAL")
  else if leading "high" ekfiddle_lower then (s_0_85, "HIGH")
  else if leading "medium" ekfiddle_lower then (s_0_65, "MEDIUM")
  else if leading "low" ekfiddle_lower then (s_0_4, "MEDIUM")
  else (s_0_5, "MEDIUM").

(** The threat-keyword scan that follows. *)
Definition keyword_scan (ekfiddle_lower : string) (sl : pyfloat * string)
  : pyfloat * string :=
  let (risk_score, risk_level) := sl in
  if any_in ["exploit"; "malware"; "trojan"; "backdoor"; "ransomware"] ekfiddle_lower
  then (PyFloat.max risk_score s_1_0, "CRITICAL")
  else if any_in ["phishing"; "credential"; "socgholish"; "fake update"] ekfiddle_lower
  then (PyFloat.max risk_score s_0_85, "HIGH")
  else if any_in ["suspicious"; "obfuscated"; "encoded"; "eval"] ekfiddle_lower
  then (PyFloat.max risk_score s_0_65,
        if andb (String.eqb risk_level "MEDIUM")
                (PyStr.contains "high" (PyStr.slice ekfiddle_lower None (Some 20)))
        then "HIGH" else risk_level)
  else (risk_score, risk_level).

(** [status = session.get("statusCode") or 0], then [int(status)] with
    [except (ValueError, TypeError): status = 0]. *)
Definition session_status (R : Runtime) (session : pydict) : result Z :=
  except_value_type (py_int R (Py.or (Py.dget session "statusCode") (VInt 0))) (Ok 0).

Definition _quick_risk_assessment (R : Runtime) (session : pydict) : result assessment :=
  status <- session_status R session ;;
  ekfiddle <- ekfiddle_text session ;;
  if negb (String.eqb ekfiddle "")
  then
    let ekfiddle_lower := PyStr.lower ekfiddle in
    let (risk_score, risk_level) := keyword_scan ekfiddle_lower (severity_of ekfiddle_lower) in
    Ok {| score := risk_score;
          level := risk_level;
          flag := Some "ekfiddle_alert";
          reasons := ["EKFiddle: " ++ ekfiddle] |}
  else
    if 400 <=? status
    then Ok {| score := s_0_0;
               level := "LOW";
               flag := Some "error_status";
               reasons := ["HTTP error status " ++ PyStr.of_Z status
                           ++ " (informational only)"] |}
    else Ok {| score := s_0_0; level := "LOW"; flag := None; reasons := [] |}.

(** ** [is_immediately_suspicious] *)

Definition is_immediately_suspicious (R : Runtime) (session : pydict) : bool :=
  let body :=
    ekfiddle <- ekfiddle_text session ;;
    if negb (String.eqb ekfiddle "") then Ok true
    else
      status <- except_value_type
                  (py_int R (Py.dget_default session "statusCode" (VInt 200))) (Ok 200) ;;
      Ok (400 <=? status) in
  match body with
  | Ok b => b
  | Raise _ => false
  end.

(** ** The two buffers *)

(** [deque(maxlen=n).append(x)]: the new element goes to the right end and,
    when the deque was full, the leftmost one is dropped. *)
Definition deque_append {A : Type} (maxlen : nat) (q : list A) (x : A) : list A :=
  let q' := (q ++ [x])%list in
  skipn (List.length q' - maxlen) q'.

Definition LIVE_MAXLEN : nat := 5000.
Definition SUSPICIOUS_MAXLEN : nat := 1000.

Record bridge : Type := {
  live_sessions : list pydict;
  suspicious_sessions : list pydict
}.

(** [__init__] *)
Definition init : bridge := {| live_sessions := []; suspicious_sessions := [] |}.

(** The HTTP status of a reply. *)
Definition http_status : Type := Z.

(** ** [receive_session]

    [data] is the decoded request body, [None] when it is not JSON.  The
    reply carries the stored id. *)
Definition receive_session (R : Runtime) (c : clock) (data : option pyval) (b : bridge)
  : bridge * (http_status * option pyval) :=
  match data with
  | None => (b, (400, None))
  | Some data =>
      if negb (Py.truthy data) then (b, (400, None))
      else
        match normalize_session R c data with
        | Raise _ => (b, (500, None))
        | Ok sess =>
            let live := deque_append LIVE_MAXLEN (live_sessions b) sess in
            let susp := if is_immediately_suspicious R sess
                        then deque_append SUSPICIOUS_MAXLEN (suspicious_sessions b) sess
                        else suspicious_sessions b in
            ({| live_sessions := live; suspicious_sessions := susp |},
             (201, lookup "id" sess))
        end
  end.

(** ** [clear_sessions]

    [body] is the result of [request.get_json()], [None] when that call
    raises.  The reply carries the two counts. *)
Definition clear_sessions (body : option pyval) (b : bridge)
  : bridge * (http_status * option (Z * Z)) :=
  match body with
  | None => (b, (500, None))
  | Some body =>
      let data := Py.or body (VDict []) in
      match Py.get_default data "clear_suspicious" (VBool false) with
      | Raise _ => (b, (500, None))
      | Ok clear_suspicious =>
          let sessions_cleared := Z.of_nat (List.length (live_sessions b)) in
          if Py.truthy clear_suspicious
          then ({| live_sessions := []; suspicious_sessions := [] |},
                (200, Some (sessions_cleared,
                            Z.of_nat (List.length (suspicious_sessions b)))))
          else ({| live_sessions := []; suspicious_sessions := suspicious_sessions b |},
                (200, Some (sessions_cleared, 0)))
      end
  end.

(** ** Lookups by id *)

(** [for session in reversed(self.live_sessions):
       if str(session.get('id', '')) == str(session_id): ...] leaving at the
    first hit. *)
Definition id_matches (R : Runtime) (session_id : string) (session : pydict) : bool :=
  String.eqb (py_str R (Py.dget_default session "id" (VStr ""))) session_id.

Definition find_session (R : Runtime) (b : bridge) (session_id : string) : option pydict :=
  find (id_matches R session_id) (rev (live_sessions b)).

(** ** [_format_session_overview]

    The readings of a read-only request: [time.time()], taken as one value
    for the whole request, and [datetime.utcnow().strftime("%H:%M:%S")]. *)
Record view_clock : Type := {
  v_now : pyfloat;
  v_utcnow_hms : string
}.

Definition opt_str (o : option string) : pyval :=
  match o with Some s => VStr s | None => VNone end.

(** [text.split(";")[0]] *)
Definition before_semicolon (s : string) : string :=
  PyStr.take_until (fun c => Ascii.eqb c ";"%char) s.

(** [(v or "").split(";")[0]] *)
Definition py_before_semicolon (v : pyval) : result string :=
  match Py.or v (VStr "") with
  | VStr s => Ok (before_semicolon s)
  | _ => Raise AttributeError
  end.

(** [datetime.fromtimestamp(v).strftime("%H:%M:%S")] *)
Definition py_fromtimestamp_hms (R : Runtime) (v : pyval) : result string :=
  match v with
  | VFloat f => fromtimestamp_hms R f
  | VInt z => f <- PyFloat.of_int z ;; fromtimestamp_hms R f
  | VBool b => fromtimestamp_hms R (if b then PyFloat.one else PyFloat.zero)
  | VNone | VStr _ | VList _ | VDict _ => Raise TypeError
  end.

Definition is_value_or_os_error (e : exn) : bool :=
  match e with ValueError | OSError => true | _ => false end.

Definition _format_session_overview (R : Runtime) (vc : view_clock) (session : pydict)
  : result pydict :=
  a <- _quick_risk_assessment R session ;;
  let received_at := Py.dget_default session "received_at" (VFloat (v_now vc)) in
  display_time <- match py_fromtimestamp_hms R received_at with
                  | Ok s => Ok s
                  | Raise e => if is_value_or_os_error e then Ok (v_utcnow_hms vc)
                               else Raise e
                  end ;;
  content_type <- py_before_semicolon (Py.dget session "contentType") ;;
  scheme <- py_lower (Py.or (Py.dget session "scheme") (VStr "")) ;;
  Ok [ ("id", Py.dget session "id");
       ("time", VStr display_time);
       ("method", Py.dget_default session "method" (VStr "GET"));
       ("url", Py.dget_default session "url" (VStr ""));
       ("host", Py.dget_default session "host" (VStr ""));
       ("status", VStr (py_str R (Py.dget_default session "statusCode" (VStr ""))));
       ("statusCode", Py.dget session "statusCode");
       ("content_type", VStr content_type);
       ("size", Py.dget_default session "contentLength" (VInt 0));
       ("is_https", VBool (String.eqb scheme "https"));
       ("risk_flag", opt_str (flag a));
       ("risk_score", VFloat (score a));
       ("risk_level", VStr (level a));
       ("risk_reasons", VList (map VStr (reasons a)));
       ("received_at", received_at);
       ("received_at_iso", Py.dget session "received_at_iso") ].

(** ** [parse_ekfiddle_comments], the indicators it returns *)

(** [text.split("\n")] *)
Fixpoint split_lines (s : string) : list string :=
  match s with
  | EmptyString => [EmptyString]
  | String c r =>
      if Ascii.eqb c (ascii_of_nat 10) then EmptyString :: split_lines r
      else match split_lines r with
           | l :: ls => String c l :: ls
           | [] => [String c EmptyString]
           end
  end.

(** A value without [lower] leaves the handler of the function with no
    indicator collected. *)
Definition ekfiddle_indicators (ekfiddle_data : pyval) : list string :=
  match ekfiddle_data with
  | VStr s =>
      if String.eqb s "" then []
      else filter (fun line => andb (negb (String.eqb line "")) (5 <? PyStr.len line))
                  (map PyStr.strip (split_lines s))
  | _ => []
  end.

(** ** [_build_session_detail] *)

Definition classification_map : list (string * string) :=
  [ ("potential_fake_update", "FAKE_UPDATE");
    ("suspicious_download", "MALWARE_DOWNLOAD");
    ("error_status", "ERROR_TRAFFIC");
    ("suspicious_domain", "SUSPICIOUS_DOMAIN");
    ("ekfiddle_alert", "EKFIDDLE") ].

Fixpoint assoc (k : string) (l : list (string * string)) : option string :=
  match l with
  | [] => None
  | (k', v) :: r => if String.eqb k k' then Some v else assoc k r
  end.

Definition flag_is (a : assessment) (f : string) : bool :=
  match flag a with Some g => String.eqb g f | None => false end.

Definition _build_session_detail (R : Runtime) (vc : view_clock) (session : pydict)
  : result pydict :=
  overview <- _format_session_overview R vc session ;;
  a <- _quick_risk_assessment R session ;;
  let classification :=
    match flag a with
    | Some f => match assoc f classification_map with Some c => c | None => "NORMAL" end
    | None => "NORMAL"
    end in
  let indicators :=
    (reasons a ++
     (if Py.truthy (Py.dget session "ekfiddleComments")
      then ekfiddle_indicators (Py.dget session "ekfiddleComments") else []))%list in
  let recommendations :=
    ((if flag_is a "potential_fake_update"
      then ["Block domain and warn user about fake update lure"] else []) ++
     (if flag_is a "suspicious_download"
      then ["Detonate or scan downloaded file before execution"] else []) ++
     (if flag_is a "ekfiddle_alert"
      then ["Review EKFiddle findings for exploitation activity"] else []))%list in
  Ok [ ("session",
        VDict [ ("id", Py.dget overview "id");
                ("url", Py.dget session "url");
                ("host", Py.dget session "host");
                ("method", Py.dget_default session "method" (VStr "GET"));
                ("statusCode", Py.dget session "statusCode");
                ("contentType", Py.dget session "contentType");
                ("contentLength", Py.dget session "contentLength");
                ("scheme", Py.dget session "scheme");
                ("received_at", Py.dget session "received_at");
                ("received_at_iso", Py.dget session "received_at_iso");
                ("requestHeaders", Py.dget_default session "requestHeaders" (VDict []));
                ("responseHeaders", Py.dget_default session "responseHeaders" (VDict []));
                ("ekfiddleComments", Py.dget session "ekfiddleComments");
                ("sessionFlags", Py.dget session "sessionFlags") ]);
       ("analysis",
        VDict [ ("risk_score", VFloat (score a));
                ("risk_level", VStr (level a));
                ("classification", VStr classification);
                ("indicators", VList (map VStr indicators));
                ("reasons", VList (map VStr (reasons a)));
                ("recommendations", VList (map VStr recommendations));
                ("risk_flag", opt_str (flag a)) ]) ].

(** ** The three lookups by id *)

(** [request.args]: the query parameters, each a string. *)
Definition query : Type := list (string * string).

Fixpoint qget (q : query) (k : string) : option string :=
  match q with
  | [] => None
  | (k', v) :: r => if String.eqb k k' then Some v else qget r k
  end.

(** [get_session_details]: the detail of the record found, with
    ["success"] and ["found"] added. *)
Definition get_session_details (R : Runtime) (vc : view_clock) (b : bridge)
  (session_id : string) : http_status * option pydict :=
  match find_session R b session_id with
  | Some session =>
      match _build_session_detail R vc session with
      | Ok detail =>
          (200, Some (detail ++ [("success", VBool true); ("found", VBool true)])%list)
      | Raise _ => (500, None)
      end
  | None => (404, None)
  end.

(** [get_session_headers] *)
Definition get_session_headers (R : Runtime) (b : bridge) (session_id : string)
  : http_status * option pydict :=
  match find_session R b session_id with
  | Some session =>
      (200, Some [ ("success", VBool true);
                   ("session_id", VStr session_id);
                   ("request_headers",
                    Py.dget_default session "requestHeaders" (VDict []));
                   ("response_headers",
                    Py.dget_default session "responseHeaders" (VDict []));
                   ("found", VBool true) ])
  | None => (404, None)
  end.

(** [get_session_body] *)

Definition MAX_BODY_PREVIEW_BYTES : Z := 50000.

(** [len(v)] *)
Definition py_len (v : pyval) : result Z :=
  match v with
  | VStr s => Ok (PyStr.len s)
  | VList l => Ok (Z.of_nat (List.length l))
  | VDict d => Ok (Z.of_nat (List.length d))
  | VNone | VBool _ | VInt _ | VFloat _ => Raise TypeError
  end.

(** [v + text] for a string [text] *)
Definition py_add_str (v : pyval) (text : string) : result pyval :=
  match v with
  | VStr s => Ok (VStr (s ++ text))
  | _ => Raise TypeError
  end.

(** The digits of [f"{n:,}"], last digit first, a comma after each group
    of three. *)
Fixpoint group3 (rev_digits : list ascii) (k : nat) : list ascii :=
  match rev_digits with
  | [] => []
  | d :: r =>
      if Nat.eqb k 3 then ","%char :: d :: group3 r 1
      else d :: group3 r (S k)
  end.

Definition with_commas (n : Z) : string :=
  string_of_list_ascii (rev (group3 (rev (list_ascii_of_string (PyStr.of_Z n))) 0)).

Definition truncation_note (what : string) (size : Z) : string :=
  PyStr.nl ++ PyStr.nl ++ "... [TRUNCATED: " ++ what ++ " was " ++ with_commas size
  ++ " bytes; showing first " ++ with_commas MAX_BODY_PREVIEW_BYTES ++ " bytes] ...".

(** [args.get(k, 'false').lower() == 'true'] *)
Definition qflag (q : query) (k : string) : bool :=
  String.eqb (PyStr.lower (match qget q k with Some v => v | None => "false" end)) "true".

(** The outcome of the extraction asked for with [smart_extract]: absent
    when it was not asked for or the body is short, an error text when it
    raised. *)
Inductive smart_result : Type :=
| SmartNone
| SmartError (msg : string)
| SmartOk (e : extraction).

Record body_reply : Type := {
  br_found : bool;
  br_content_type : pyval;
  br_content_length : pyval;
  br_response_body : pyval;
  br_request_body : pyval;
  br_response_truncated : bool;
  br_request_truncated : bool;
  br_full_size : Z * Z;
  br_ekfiddle : pyval * pyval * pyval;
  br_smart : smart_result
}.

Definition body_not_found : body_reply := {|
  br_found := false;
  br_content_type := VNone;
  br_content_length := VNone;
  br_response_body := VStr "";
  br_request_body := VNone;
  br_response_truncated := false;
  br_request_truncated := false;
  br_full_size := (0, 0);
  br_ekfiddle := (VNone, VNone, VNone);
  br_smart := SmartNone
|}.

(** The handler once the record is chosen.  It has no [try]: a [Raise] is
    an exception that leaves it. *)
Definition body_of_session (R : Runtime) (q : query) (sess : pydict) : result body_reply :=
  let response_body_full := Py.or (Py.dget sess "responseBody") (VStr "") in
  let request_body_full := Py.dget_default sess "requestBody" (VStr "") in
  response_size <- py_len response_body_full ;;
  request_size <- py_len request_body_full ;;
  let raw := qflag q "raw" in
  let smart_extract := qflag q "smart_extract" in
  let response_truncated := MAX_BODY_PREVIEW_BYTES <? response_size in
  let request_truncated := MAX_BODY_PREVIEW_BYTES <? request_size in
  response_body_preview <-
    (if andb response_truncated (negb raw)
     then cut <- py_slice_to response_body_full MAX_BODY_PREVIEW_BYTES ;;
          py_add_str cut (truncation_note "Response" response_size)
     else Ok response_body_full) ;;
  request_body_preview <-
    (if andb request_truncated (negb raw)
     then cut <- py_slice_to request_body_full MAX_BODY_PREVIEW_BYTES ;;
          py_add_str cut (truncation_note "Request" request_size)
     else Ok request_body_full) ;;
  let smart :=
    if andb smart_extract (MAX_BODY_PREVIEW_BYTES <? response_size)
    then match response_body_full with
         | VStr body_text =>
             SmartOk (_extract_intelligent_content R body_text
                        (Py.or (Py.dget sess "contentType") (VStr "")) 24000)
         | _ => SmartError (exc_str R TypeError)
         end
    else SmartNone in
  Ok {| br_found := true;
        br_content_type := Py.dget sess "contentType";
        br_content_length := Py.dget sess "contentLength";
        br_response_body := response_body_preview;
        br_request_body := request_body_preview;
        br_response_truncated := andb response_truncated (negb raw);
        br_request_truncated := andb request_truncated (negb raw);
        br_full_size := (response_size, request_size);
        br_ekfiddle := (Py.or (Py.dget sess "ekfiddleComments") (VStr ""),
                        Py.or (Py.dget sess "ekfiddleFlags") (VStr ""),
                        Py.or (Py.dget sess "sessionFlags") (VStr ""));
        br_smart := smart |}.

(** An empty dictionary counts as not found. *)
Definition get_session_body (R : Runtime) (q : query) (b : bridge) (session_id : string)
  : result body_reply :=
  match find_session R b session_id with
  | Some sess =>
      if negb (Py.truthy (VDict sess)) then Ok body_not_found
      else body_of_session R q sess
  | None => Ok body_not_found
  end.

(** ** [search_sessions] *)

(** [q.get(k1) or q.get(k2) or ""] *)
Definition qget_or (q : query) (k1 k2 : string) : string :=
  match qget q k1 with
  | Some (String c r) => String c r
  | _ => match qget q k2 with Some s => s | None => "" end
  end.

(** [int(q.get(k) or dflt)] *)
Definition qint (R : Runtime) (q : query) (k : string) (dflt : Z) : result Z :=
  match qget q k with
  | Some (String c r) =>
      match int_of_str R (String c r) with Some z => Ok z | None => Raise ValueError end
  | _ => Ok dflt
  end.

(** [re.compile(pat, re.I) if pat else None]; the compiled pattern is kept
    as its source. *)
Definition compile_filter (R : Runtime) (pat : string) : result (option string) :=
  if String.eqb pat "" then Ok None
  else if re_valid R pat then Ok (Some pat) else Raise ReError.

(** [rx and not rx.search(v)]: the record is skipped. *)
Definition rx_rejects (R : Runtime) (rx : option string) (v : pyval) : result bool :=
  match rx with
  | None => Ok false
  | Some pat =>
      match v with
      | VStr s => Ok (negb (re_search R pat s))
      | _ => Raise TypeError
      end
  end.

Definition py_upper (v : pyval) : result string :=
  match v with VStr s => Ok (PyStr.upper s) | _ => Raise AttributeError end.

(** [received_at < cutoff_ts] *)
Definition py_lt_float (v : pyval) (f : pyfloat) : result bool :=
  match v with
  | VFloat g => Ok (PyFloat.ltb g f)
  | VInt z => Ok (PyFloat.int_lt z f)
  | VBool b => Ok (PyFloat.int_lt (if b then 1 else 0) f)
  | VNone | VStr _ | VList _ | VDict _ => Raise TypeError
  end.

Definition ctype_groups : list (string * list string) :=
  [ ("javascript",
     ["application/javascript"; "text/javascript"; "application/x-javascript"]);
    ("html", ["text/html"]);
    ("json", ["application/json"; "text/json"]);
    ("css", ["text/css"]);
    ("plain", ["text/plain"]) ].

Fixpoint group_of (want : string) (groups : list (string * list string)) : list string :=
  match groups with
  | [] => []
  | (g, members) :: r => if String.eqb want g then members else group_of want r
  end.

Definition ctype_matches (ct : pyval) (want : option string) : result bool :=
  match want with
  | None | Some EmptyString => Ok true
  | Some want =>
      match Py.or ct (VStr "") with
      | VStr s =>
          let base := PyStr.lower (PyStr.strip (before_semicolon s)) in
          Ok (orb (existsb (String.eqb base) (group_of want ctype_groups))
                  (String.eqb base (PyStr.lower want)))
      | _ => Raise AttributeError
      end
  end.

(** [d.update({k: v})]: an existing key keeps its place. *)
Fixpoint dict_set (k : string) (v : pyval) (d : pydict) : pydict :=
  match d with
  | [] => [(k, v)]
  | (k', v') :: r => if String.eqb k k' then (k, v) :: r else (k', v') :: dict_set k v r
  end.

Record search_filters : Type := {
  host_rx : option string;
  url_rx : option string;
  f_method : option string;
  ctype_want : option string;
  status_min : Z;
  status_max : Z;
  min_size : Z;
  max_size : Z;
  limit : Z;
  cutoff_ts : option pyfloat
}.

(** One turn of the loop: [None] when the record is skipped, otherwise its
    overview. *)
Definition search_one (R : Runtime) (vc : view_clock) (f : search_filters) (s : pydict)
  : result (option pydict) :=
  let url := Py.or (Py.dget s "url") (VStr "") in
  let host0 := Py.or (Py.dget s "host") (VStr "") in
  host <- (if andb (negb (Py.truthy host0)) (Py.truthy url)
           then p <- py_urlparse R url ;; Ok (Py.or (hostname_val p) (VStr ""))
           else Ok host0) ;;
  meth <- py_upper (Py.or (Py.dget s "method") (VStr "")) ;;
  code <- py_int R (Py.or (Py.or (Py.dget s "statusCode") (Py.dget s "status")) (VInt 0)) ;;
  let ctype := Py.or (Py.or (Py.dget s "contentType") (Py.dget s "mime")) (VStr "") in
  size <- py_int R (Py.or (Py.or (Py.dget s "contentLength") (Py.dget s "body_length"))
                          (VInt 0)) ;;
  let received_at := Py.or (Py.dget s "received_at") (VInt 0) in
  too_old <- match cutoff_ts f with
             | Some c => py_lt_float received_at c
             | None => Ok false
             end ;;
  if too_old then Ok None
  else
    no_host <- rx_rejects R (host_rx f) host ;;
    if no_host then Ok None
    else
      no_url <- rx_rejects R (url_rx f) url ;;
      if no_url then Ok None
      else if match f_method f with
              | Some m => negb (String.eqb meth m)
              | None => false
              end then Ok None
      else if negb (andb (status_min f <=? code) (code <=? status_max f)) then Ok None
      else if negb (andb (min_size f <=? size) (size <=? max_size f)) then Ok None
      else
        ct_ok <- ctype_matches ctype (ctype_want f) ;;
        if negb ct_ok then Ok None
        else
          overview <- _format_session_overview R vc s ;;
          Ok (Some (dict_set "contentLength" (VInt size)
                      (dict_set "content_type_full" ctype
                         (dict_set "method" (VStr meth) overview)))).

(** The loop over the records, newest first, leaving once [limit] records
    are collected; [out] is kept newest first as well. *)
Fixpoint search_loop (R : Runtime) (vc : view_clock) (f : search_filters)
  (sessions : list pydict) (out : list pydict) (matched_total : Z)
  : result (list pydict * Z) :=
  match sessions with
  | [] => Ok (out, matched_total)
  | s :: rest =>
      r <- search_one R vc f s ;;
      match r with
      | None => search_loop R vc f rest out matched_total
      | Some overview =>
          let out' := (out ++ [overview])%list in
          if limit f <=? Z.of_nat (List.length out') then Ok (out', matched_total + 1)
          else search_loop R vc f rest out' (matched_total + 1)
      end
  end.

Definition parse_filters (R : Runtime) (vc : view_clock) (q : query)
  : result search_filters :=
  let host_pat := qget_or q "host" "host_pattern" in
  let url_pat := qget_or q "url" "url_pattern" in
  let method := match PyStr.upper (match qget q "method" with Some m => m | None => "" end)
                with
                | EmptyString => None
                | m => Some m
                end in
  let ctype_want := qget q "content_type" in
  status_min <- qint R q "status_min" 0 ;;
  status_max <- qint R q "status_max" 999 ;;
  min_size <- qint R q "min_size" 0 ;;
  max_size <- qint R q "max_size" 1000000000 ;;
  lim <- qint R q "limit" 50 ;;
  let limit := Z.max 1 (Z.min lim 500) in
  let since_raw := qget_or q "since_minutes" "minutes" in
  since_minutes <- (if String.eqb since_raw "" then Ok None
                    else match int_of_str R since_raw with
                         | Some z => Ok (Some z)
                         | None => Raise ValueError
                         end) ;;
  let since_minutes := match since_minutes with
                       | Some z => if andb (negb (z =? 0)) (360 <? z) then Some 360
                                   else Some z
                       | None => None
                       end in
  cutoff_ts <- match since_minutes with
               | Some z =>
                   if z =? 0 then Ok None
                   else secs <- PyFloat.of_int (z * 60) ;;
                        Ok (Some (PyFloat.sub (v_now vc) secs))
               | None => Ok None
               end ;;
  host_rx <- compile_filter R host_pat ;;
  url_rx <- compile_filter R url_pat ;;
  Ok {| host_rx := host_rx; url_rx := url_rx; f_method := method;
        ctype_want := ctype_want; status_min := status_min; status_max := status_max;
        min_size := min_size; max_size := max_size; limit := limit;
        cutoff_ts := cutoff_ts |}.

Record search_reply : Type := {
  success : bool;
  total_matched : Z;
  sessions : list pydict;
  error : option string
}.

(** Every reply, the one of the handler too, goes out with status 200. *)
Definition search_sessions (R : Runtime) (vc : view_clock) (q : query) (b : bridge)
  : http_status * search_reply :=
  let body :=
    f <- parse_filters R vc q ;;
    search_loop R vc f (rev (live_sessions b)) [] 0 in
  match body with
  | Ok (out, matched_total) =>
      (200, {| success := true; total_matched := matched_total;
               sessions := out; error := None |})
  | Raise e =>
      (200, {| success := false; total_matched := 0;
               sessions := []; error := Some (exc_str R e) |})
  end.

(** ** Runs of the bridge

    The lock makes each request one step; a run is the sequence of the
    steps taken so far. *)

Inductive request : Type :=
| Ingest (c : clock) (data : option pyval)      (* POST /live-session *)
| Clear (body : option pyval).                  (* POST /api/clear *)

Definition step (R : Runtime) (b : bridge) (r : request) : bridge :=
  match r with
  | Ingest c data => fst (receive_session R c data b)
  | Clear body => fst (clear_sessions body b)
  end.

Definition run (R : Runtime) (rs : list request) : bridge :=
  fold_left (step R) rs init.

(** The record that an ingest stores, if it stores one. *)
Definition accepted (R : Runtime) (c : clock) (data : option pyval) : option pydict :=
  match data with
  | Some d =>
      if Py.truthy d
      then match normalize_session R c d with Ok sess => Some sess | Raise _ => None end
      else None
  | None => None
  end.

(** The records stored by a sequence of ingests, oldest first. *)
Fixpoint ingested (R : Runtime) (events : list (clock * option pyval)) : list pydict :=
  match events with
  | [] => []
  | (c, data) :: rest =>
      match accepted R c data with
      | Some sess => sess :: ingested R rest
      | None => ingested R rest
      end
  end.

Definition ingest_all (R : Runtime) (events : list (clock * option pyval)) : bridge :=
  run R (map (fun e => Ingest (fst e) (snd e)) events).

(** The last [n] elements of a list. *)
Definition lastn {A : Type} (n : nat) (l : list A) : list A :=
  skipn (List.length l - n) l.

(** What a clear request asks for, read off its body as the handler reads
    it: [None] when the handler fails before touching the buffers. *)
Definition clear_request (body : option pyval) : option bool :=
  match body with
  | None => None
  | Some body =>
      match Py.get_default (Py.or body (VDict [])) "clear_suspicious" (VBool false) with
      | Ok v => Some (Py.truthy v)
      | Raise _ => None
      end
  end.

(** The records stored since both buffers were last empty together, oldest
    first; [None] once [live_sessions] alone has been cleared since then. *)
Definition since_reset_step (R : Runtime) (h : option (list pydict)) (r : request)
  : option (list pydict) :=
  match r with
  | Ingest c data =>
      match accepted R c data with
      | Some sess => option_map (fun l => (l ++ [sess])%list) h
      | None => h
      end
  | Clear body =>
      match clear_request body with
      | Some true => Some []
      | Some false => None
      | None => h
      end
  end.

Definition since_reset (R : Runtime) (rs : list request) : option (list pydict) :=
  fold_left (since_reset_step R) rs (Some []).

(** ** The id that a payload supplies

    Stated apart from the code: the value under the first of the aliases
    [id], [session_id], [fiddler_session_id] that is present and not
    [None]. *)

Definition alias_value (kvs : pydict) (k : string) : option pyval :=
  match lookup k kvs with
  | Some VNone => None
  | o => o
  end.

Fixpoint first_alias (kvs : pydict) (keys : list string) : option pyval :=
  match keys with
  | [] => None
  | k :: rest =>
      match alias_value kvs k with
      | Some v => Some v
      | None => first_alias kvs rest
      end
  end.

Definition supplied_id (kvs : pydict) : option pyval := first_alias kvs id_aliases.

(** ** What the proofs ask of the clock and of the runtime *)

(** The readings taken in the handler are ordinary times: the stamp
    [int(time.time() * 1000)] exists and the reading stored as
    [received_at] is finite. *)
Definition clock_ok (c : clock) : bool :=
  andb (is_ok (PyFloat.millis (t_exc_id c))) (PyFloat.is_finite (t_exc_recv c)).

(** [datetime.utcfromtimestamp] raises on an infinity and on NaN. *)
Definition utc_conversion_checks (R : Runtime) : Prop :=
  forall t s, utcfromtimestamp_iso R t = Ok s -> PyFloat.is_finite t = true.

(** A match starts within the searched text. *)
Definition finditer_in_range (R : Runtime) : Prop :=
  forall p s m, In m (re_finditer R p s) -> 0 <= fst m <= PyStr.len s.

(** A pattern that is given and that [re.compile] refuses. *)
Definition malformed (R : Runtime) (pat : string) : bool :=
  andb (negb (String.eqb pat "")) (negb (re_valid R pat)).

(** What the scan keeps of a snippet: a code shorter than 500 characters,
    a name of the catalogue, a position within given bounds. *)
Definition snippet_ok (lo hi : Z) (s : snippet) : Prop :=
  PyStr.len (sn_code s) < 500
  /\ PyStr.len (sn_pattern s) <= 26
  /\ lo <= sn_position s <= hi.

(** The greatest length of a Python string, [sys.maxsize] of a 64-bit
    build. *)
Definition PY_SSIZE_T_MAX : Z := 2 ^ 63 - 1.

(** ** A runtime for the examples

    Each function agrees with CPython on the arguments the examples below
    hand to it (a host whose local time is UTC); outside of them it is a
    stand-in, as said at each field. *)

Module Ref.

(** Decimal digits with an optional sign; the other spellings that [int]
    accepts (underscores, surrounding blanks) are refused here. *)
Fixpoint digits_value (s : string) (acc : Z) : option Z :=
  match s with
  | EmptyString => Some acc
  | String c r =>
      let n := nat_of_ascii c in
      if andb (Nat.leb 48 n) (Nat.leb n 57)
      then digits_value r (10 * acc + Z.of_nat (n - 48))
      else None
  end.

Definition parse_int (s : string) : option Z :=
  match s with
  | EmptyString => None
  | String "-"%char (String c r) => option_map Z.opp (digits_value (String c r) 0)
  | String "+"%char (String c r) => digits_value (String c r) 0
  | _ => digits_value s 0
  end.

(** The text before [sep] and the text after it, when [sep] occurs. *)
Fixpoint split_at (sep s : string) : option (string * string) :=
  if String.prefix sep s
  then Some (EmptyString, PyStr.drop (String.length sep) s)
  else match s with
       | EmptyString => None
       | String c r =>
           match split_at sep r with
           | Some (a, b) => Some (String c a, b)
           | None => None
           end
       end.

Definition is_path_start (c : ascii) : bool :=
  orb (Ascii.eqb c "/"%char) (orb (Ascii.eqb c "?"%char) (Ascii.eqb c "#"%char)).

(** URLs of the shape [scheme://host[:port][/...]], without user
    information or bracketed addresses; anything else has no host. *)
Definition parse_url (s : string) : result parsed_url :=
  match split_at "://" s with
  | Some (sch, rest) =>
      let netloc := PyStr.take_until is_path_start rest in
      let host := PyStr.lower (PyStr.take_until (fun c => Ascii.eqb c ":"%char) netloc) in
      Ok {| hostname := if String.eqb host "" then None else Some host;
            url_scheme := PyStr.lower sch |}
  | None => Ok {| hostname := None; url_scheme := "" |}
  end.

(** The instant 2023-11-14 22:13:20 UTC. *)
Definition t0 : pyfloat := PyFloat.nearest 1700000000.

Definition float_eqb (a b : pyfloat) : bool := SFeqb a b.

(** Integer-valued floats print as [n.0]; other floats are not rendered. *)
Definition render_float (f : pyfloat) : string :=
  match PyFloat.to_int f with
  | Ok z => if float_eqb (PyFloat.nearest z) f then PyStr.of_Z z ++ ".0" else "<float>"
  | Raise _ => "<float>"
  end.

(** *** A small regular-expression engine

    It covers what the catalogue of [_extract_intelligent_content] is
    written with: literal and escaped characters, [\s], bracketed sets with
    ranges and negation, and the quantifiers [*], [+] and [{n}], matched
    greedily with backtracking and without regard to letter case.  Every
    other construct (groups, alternation, the dot, anchors, lazy
    quantifiers) is refused, although CPython accepts most of them; an
    unbalanced parenthesis is refused by both. *)

Inductive cls : Type :=
| CChar (c : ascii)
| CSpace
| CSet (negated : bool) (items : list (ascii * ascii)).

Inductive quant : Type :=
| One
| Star
| Plus
| Times (n : nat).

Definition atom : Type := (cls * quant)%type.

Definition in_item (c : ascii) (it : ascii * ascii) : bool :=
  andb (Nat.leb (nat_of_ascii (fst it)) (nat_of_ascii c))
       (Nat.leb (nat_of_ascii c) (nat_of_ascii (snd it))).

Definition cls_matches (k : cls) (c : ascii) : bool :=
  match k with
  | CChar a => Ascii.eqb (PyStr.lower_char a) (PyStr.lower_char c)
  | CSpace => PyStr.is_space c
  | CSet negated items =>
      xorb negated
           (orb (existsb (in_item (PyStr.lower_char c)) items)
                (existsb (in_item (PyStr.upper_char c)) items))
  end.

(** The metacharacters of [re]. *)
Definition is_meta (c : ascii) : bool :=
  existsb (Ascii.eqb c) (list_ascii_of_string ".^$*+?{}[]\|()").

Definition is_alnum (c : ascii) : bool :=
  let n := nat_of_ascii c in
  orb (andb (Nat.leb 48 n) (Nat.leb n 57))
      (orb (andb (Nat.leb 65 n) (Nat.leb n 90)) (andb (Nat.leb 97 n) (Nat.leb n 122))).

(** The items of a set, up to its closing bracket. *)
Fixpoint parse_set (s : string) (acc : list (ascii * ascii))
  : option (list (ascii * ascii) * string) :=
  match s with
  | EmptyString => None
  | String c r =>
      if Ascii.eqb c "]"%char then Some (rev acc, r)
      else if Ascii.eqb c "\"%char then
        match r with
        | String e r' => parse_set r' ((e, e) :: acc)
        | EmptyString => None
        end
      else
        match r with
        | String d (String hi r') =>
            if andb (Ascii.eqb d "-"%char) (negb (Ascii.eqb hi "]"%char))
            then parse_set r' ((c, hi) :: acc)
            else parse_set r ((c, c) :: acc)
        | _ => parse_set r ((c, c) :: acc)
        end
  end.

(** The quantifier in front of [s], if it is one of the three. *)
Definition parse_quant (s : string) : option (quant * string) :=
  match s with
  | String c r =>
      if Ascii.eqb c "*"%char then Some (Star, r)
      else if Ascii.eqb c "+"%char then Some (Plus, r)
      else if Ascii.eqb c "?"%char then None
      else if Ascii.eqb c "{"%char then
        match split_at "}" r with
        | Some (digits, r') =>
            match digits_value digits 0 with
            | Some n => if String.eqb digits "" then None else Some (Times (Z.to_nat n), r')
            | None => None
            end
        | None => None
        end
      else Some (One, s)
  | EmptyString => Some (One, s)
  end.

Fixpoint parse (fuel : nat) (s : string) : option (list atom) :=
  match fuel with
  | O => match s with EmptyString => Some [] | _ => None end
  | S f =>
      let with_quant (k : cls) (r : string) :=
        match parse_quant r with
        | Some (q, r') => option_map (cons (k, q)) (parse f r')
        | None => None
        end in
      match s with
      | EmptyString => Some []
      | String c r =>
          if Ascii.eqb c "\"%char then
            match r with
            | String e r' =>
                if Ascii.eqb e "s"%char then with_quant CSpace r'
                else if is_alnum e then None
                else with_quant (CChar e) r'
            | EmptyString => None
            end
          else if Ascii.eqb c "["%char then
            let (negated, r0) :=
              match r with
              | String e r' => if Ascii.eqb e "^"%char then (true, r') else (false, r)
              | EmptyString => (false, r)
              end in
            match parse_set r0 [] with
            | Some (items, r') =>
                match items with
                | [] => None
                | _ => with_quant (CSet negated items) r'
                end
            | None => None
            end
          else if is_meta c then None
          else with_quant (CChar c) r
      end
  end.

Definition compile (p : string) : option (list atom) := parse (S (String.length p)) p.

(** The length of the match of [k]* followed by the rest, the longest
    repetition first. *)
Fixpoint match_star (k : cls) (cont : string -> option nat) (s : string) : option nat :=
  match s with
  | String c r =>
      if cls_matches k c
      then match match_star k cont r with
           | Some n => Some (S n)
           | None => cont s
           end
      else cont s
  | EmptyString => cont s
  end.

Fixpoint match_times (k : cls) (n : nat) (cont : string -> option nat) (s : string)
  : option nat :=
  match n with
  | O => cont s
  | S n' =>
      match s with
      | String c r =>
          if cls_matches k c then option_map S (match_times k n' cont r) else None
      | EmptyString => None
      end
  end.

(** The length of the match of the atoms at the start of [s]. *)
Fixpoint match_atoms (atoms : list atom) (s : string) : option nat :=
  match atoms with
  | [] => Some O
  | (k, q) :: rest =>
      match q with
      | One => match_times k 1 (match_atoms rest) s
      | Star => match_star k (match_atoms rest) s
      | Plus => match_times k 1 (match_star k (match_atoms rest)) s
      | Times n => match_times k n (match_atoms rest) s
      end
  end.

(** The matches from the left, none overlapping the one before; [skip]
    characters are still covered by the previous match. *)
Fixpoint find_all (atoms : list atom) (s : string) (pos : Z) (skip : nat)
  : list (Z * Z) :=
  match s with
  | EmptyString => []
  | String _ r =>
      match skip with
      | S k => find_all atoms r (pos + 1) k
      | O =>
          match match_atoms atoms s with
          | Some n => (pos, pos + Z.of_nat n) :: find_all atoms r (pos + 1) (n - 1)
          | None => find_all atoms r (pos + 1) O
          end
      end
  end.

Definition rx_valid (p : string) : bool :=
  match compile p with Some _ => true | None => false end.

Definition rx_finditer (p s : string) : list (Z * Z) :=
  match compile p with
  | Some atoms => find_all atoms s 0 O
  | None => []
  end.

Definition rx_search (p s : string) : bool :=
  match compile p with
  | Some [] => true
  | Some atoms => match find_all atoms s 0 O with [] => false | _ => true end
  | None => false
  end.

Definition runtime : Runtime := {|
  str_float := render_float;
  (* containers are not rendered *)
  str_container := fun _ => "<container>";
  (* the class name stands for the message, which the examples do not
     look at *)
  exc_str := fun e =>
    match e with
    | TypeError => "TypeError"
    | AttributeError => "AttributeError"
    | ValueError => "ValueError"
    | KeyError => "KeyError"
    | OverflowError => "OverflowError"
    | OSError => "OSError"
    | ReError => "error"
    end;
  int_of_str := parse_int;
  (* no string is read as a float or as an ISO date, nothing is decoded *)
  float_of_str := fun _ => None;
  urlparse := parse_url;
  b64decode_utf8 := fun _ => Raise ValueError;
  iso_timestamp := fun _ => Raise ValueError;
  (* only [t0] is converted *)
  utcfromtimestamp_iso := fun t =>
    if float_eqb t t0 then Ok "2023-11-14T22:13:20" else Raise OverflowError;
  fromtimestamp_hms := fun t =>
    if float_eqb t t0 then Ok "22:13:20" else Raise OverflowError;
  re_valid := rx_valid;
  re_search := rx_search;
  re_finditer := rx_finditer
|}.

Definition clk : clock := {|
  t_now := t0;
  t_exc_id := t0;
  t_exc_recv := t0;
  utcnow_a := "2023-11-14T22:13:20";
  utcnow_b := "2023-11-14T22:13:20"
|}.

End Ref.

(** ** Payloads and runs for the examples *)

Module Demo.

(** A failed request without annotation. *)
Definition failed_request : pyval :=
  VDict [("id", VStr "17"); ("url", VStr "http://example.com/missing");
         ("statusCode", VInt 500)].

(** Two records that arrive under the same id. *)
Definition first_seven : pyval :=
  VDict [("id", VInt 7); ("url", VStr "http://old.example/"); ("statusCode", VInt 200);
         ("responseBody", VStr "old")].

Definition second_seven : pyval :=
  VDict [("id", VStr "7"); ("url", VStr "http://new.example/"); ("statusCode", VInt 200);
         ("responseBody", VStr "new")].

Definition other : pyval :=
  VDict [("id", VStr "8"); ("url", VStr "http://other.example/"); ("statusCode", VInt 200)].

(** One ingest of a retained record, then a clear of the live buffer
    alone. *)
Definition ingest_then_clear : list request :=
  [Ingest Ref.clk (Some failed_request); Clear (Some (VDict []))].

Definition three_ingests : list (clock * option pyval) :=
  [(Ref.clk, Some first_seven); (Ref.clk, Some second_seven); (Ref.clk, Some other)].

(** An annotated record: a leading "Critical" and a credential-theft term. *)
Definition critical_phishing : pyval :=
  VDict [("id", VStr "21"); ("url", VStr "http://login.example/verify");
         ("statusCode", VInt 200);
         ("ekfiddleComments", VStr "Critical: phishing kit landing page")].

(** The same severity with a malware-family term. *)
Definition critical_malware : pyval :=
  VDict [("id", VStr "22"); ("url", VStr "http://drop.example/a.bin");
         ("statusCode", VInt 200);
         ("ekfiddleComments", VStr "Critical: exploit kit payload")].

(** A payload whose id is the empty string. *)
Definition empty_id : pyval :=
  VDict [("id", VStr ""); ("url", VStr "http://example.com/")].

(** A payload without id whose url is a number: the body raises. *)
Definition bad_url : pyval := VDict [("url", VInt 5)].

(** The same with an id under the second alias. *)
Definition bad_url_with_id : pydict := [("session_id", VInt 42); ("url", VInt 5)].

Fixpoint repeat_string (n : nat) (s : string) : string :=
  match n with
  | O => EmptyString
  | S n' => s ++ repeat_string n' s
  end.

(** A script of 54452 characters: two calls of the catalogue sit between
    its first 8000 and its last 4000 characters. *)
Definition long_body : string :=
  repeat_string 900 ("var a = 1;" ++ PyStr.nl)
  ++ "x = eval(payload);" ++ PyStr.nl
  ++ repeat_string 500 ("/* padding */" ++ PyStr.nl)
  ++ "document.write(unescape('%3C'));" ++ PyStr.nl
  ++ repeat_string 2500 ("// filler line" ++ PyStr.nl).

(** A record with that script as its response body. *)
Definition script_record : pyval :=
  VDict [("id", VInt 30); ("url", VStr "http://cdn.example/app.js");
         ("statusCode", VInt 200); ("contentType", VStr "text/javascript");
         ("responseBody", VStr long_body)].

Definition vclk : view_clock := {| v_now := Ref.t0; v_utcnow_hms := "22:13:20" |}.

(** The record stored for a payload by the reference runtime. *)
Definition stored (d : pyval) : pydict :=
  match normalize_session Ref.runtime Ref.clk d with
  | Ok sess => sess
  | Raise _ => []
  end.

Definition with_script : bridge :=
  {| live_sessions := [stored script_record]; suspicious_sessions := [] |}.

Definition after_three : bridge :=
  {| live_sessions := [stored first_seven; stored second_seven; stored other];
     suspicious_sessions := [] |}.

End Demo.

(** ** More of the bridge

    The definitions below model the functions of [enhanced-bridge.py] that
    the properties of the last part are about, beside the ones above. *)

(** A decoded payload that is a JSON object. *)
Definition is_mapping (d : pyval) : bool :=
  match d with VDict _ => true | _ => false end.

(** [picked] keeps some elements of a list, in their order. *)
Inductive subseq {A : Type} : list A -> list A -> Prop :=
| subseq_nil : subseq [] []
| subseq_skip (x : A) (picked l : list A) : subseq picked l -> subseq picked (x :: l)
| subseq_take (x : A) (picked l : list A) : subseq picked l -> subseq (x :: picked) (x :: l).
(** [a <= b] on floats. *)
Definition float_leb (a b : pyfloat) : bool := SFleb a b.

(** The three annotation fields of a payload are strings, or absent, or
    falsy. *)
Definition annotation_texts (kvs : pydict) : bool :=
  forallb (fun k => match Py.dget kvs k with
                    | VStr _ => true
                    | v => negb (Py.truthy v)
                    end)
          ["ekfiddleComments"; "sessionFlags"; "ekfiddleFlags"].

(** A decoded value that is a string. *)
Definition is_text (v : pyval) : bool :=
  match v with VStr _ => true | _ => false end.
(** ** [_filter_sessions]

    [now] is the reading of [time.time()] taken when [since_minutes] is
    truthy. *)

(** [time.time() - (int(since_minutes) * 60)], or [None] *)
Definition filter_cutoff (now : pyfloat) (since_minutes : option Z)
  : result (option pyfloat) :=
  match since_minutes with
  | Some z =>
      if z =? 0 then Ok None
      else secs <- PyFloat.of_int (z * 60) ;; Ok (Some (PyFloat.sub now secs))
  | None => Ok None
  end.

(** [host_filter.lower() if host_filter else None] *)
Definition lowered_filter (host_filter : option string) : option string :=
  match host_filter with
  | Some (String c r) => Some (PyStr.lower (String c r))
  | _ => None
  end.

(** One turn of the loop: whether the record is appended. *)
Definition filter_keeps (R : Runtime) (host_filter_lower status_filter : option string)
  (cutoff_epoch : option pyfloat) (session : pydict) : result bool :=
  too_old <- match cutoff_epoch with
             | Some c =>
                 if PyFloat.truthy c
                 then py_lt_float (Py.dget_default session "received_at" (VInt 0)) c
                 else Ok false
             | None => Ok false
             end ;;
  if too_old then Ok false
  else
    other_host <- match host_filter_lower with
                  | Some (String c r) =>
                      host <- py_lower (Py.dget_default session "host" (VStr "")) ;;
                      Ok (negb (PyStr.contains (String c r) host))
                  | _ => Ok false
                  end ;;
    if other_host then Ok false
    else
      match status_filter with
      | Some (String c r) =>
          Ok (String.eqb (py_str R (Py.dget session "statusCode")) (String c r))
      | _ => Ok true
      end.

Fixpoint filter_loop (R : Runtime) (host_filter_lower status_filter : option string)
  (cutoff_epoch : option pyfloat) (sessions : list pydict) : result (list pydict) :=
  match sessions with
  | [] => Ok []
  | session :: rest =>
      keep <- filter_keeps R host_filter_lower status_filter cutoff_epoch session ;;
      filtered <- filter_loop R host_filter_lower status_filter cutoff_epoch rest ;;
      Ok (if keep then session :: filtered else filtered)
  end.

Definition _filter_sessions (R : Runtime) (now : pyfloat) (sessions : list pydict)
  (host_filter status_filter : option string) (since_minutes : option Z)
  : result (list pydict) :=
  cutoff_epoch <- filter_cutoff now since_minutes ;;
  filter_loop R (lowered_filter host_filter) status_filter cutoff_epoch sessions.

(** ** [parse_ekfiddle_comments] *)

Record ekfiddle_analysis : Type := {
  ea_indicators : list string;
  ea_threat_types : list string;
  ea_severity : string;
  ea_patterns_detected : list string;
  ea_raw_comments : pyval;
  ea_error : option exn        (* the exception whose text goes under ["error"] *)
}.

Definition parse_ekfiddle_comments (ekfiddle_data : pyval) : ekfiddle_analysis :=
  let analysis := {| ea_indicators := []; ea_threat_types := []; ea_severity := "unknown";
                     ea_patterns_detected := []; ea_raw_comments := ekfiddle_data;
                     ea_error := None |} in
  if negb (Py.truthy ekfiddle_data) then analysis
  else
    match ekfiddle_data with
    | VStr text =>
        let ekfiddle_lower := PyStr.lower text in
        let (types1, severity1) :=
          if any_in ["exploit"; "malware"; "trojan"] ekfiddle_lower
          then (["malware"], "high") else ([], "unknown") in
        let (types2, severity2) :=
          if any_in ["phishing"; "fake"; "scam"] ekfiddle_lower
          then ((types1 ++ ["phishing"])%list, "high") else (types1, severity1) in
        let (types3, severity3) :=
          if any_in ["suspicious"; "anomaly"; "unusual"] ekfiddle_lower
          then ((types2 ++ ["suspicious"])%list,
                if String.eqb severity2 "unknown" then "medium" else severity2)
          else (types2, severity2) in
        let patterns :=
          ((if PyStr.contains "javascript" ekfiddle_lower then ["JavaScript analysis"] else [])
           ++ (if PyStr.contains "payload" ekfiddle_lower then ["Payload detected"] else [])
           ++ (if PyStr.contains "redirect" ekfiddle_lower then ["Redirect chain"] else [])
           ++ (if PyStr.contains "obfuscated" ekfiddle_lower then ["Obfuscated content"]
               else []))%list in
        {| ea_indicators := ekfiddle_indicators ekfiddle_data;
           ea_threat_types := types3;
           ea_severity := match types3 with [] => "low" | _ :: _ => severity3 end;
           ea_patterns_detected := patterns;
           ea_raw_comments := ekfiddle_data;
           ea_error := None |}
    | _ =>
        {| ea_indicators := []; ea_threat_types := []; ea_severity := "unknown";
           ea_patterns_detected := []; ea_raw_comments := ekfiddle_data;
           ea_error := Some AttributeError |}
    end.

(** ** [assess_ekfiddle_threat] *)

Definition float_add (a b : pyfloat) : pyfloat := SFadd PyFloat.prec PyFloat.emax a b.

(** [min(a, b)]: the first argument unless the second is smaller. *)
Definition float_min (a b : pyfloat) : pyfloat := if PyFloat.ltb b a then b else a.

Definition s_0_2 : pyfloat := PyFloat.decimal 2 1.
Definition s_0_6 : pyfloat := PyFloat.decimal 6 1.
Definition s_0_7 : pyfloat := PyFloat.decimal 7 1.
Definition s_0_8 : pyfloat := PyFloat.decimal 8 1.

Record threat_assessment : Type := {
  ta_risk_score : pyfloat;
  ta_threat_level : string;
  ta_recommendations : list string;
  ta_confidence : string;
  ta_error : option exn
}.

Definition assess_ekfiddle_threat (ekfiddle_data : pyval) : threat_assessment :=
  let assessment := {| ta_risk_score := s_0_0; ta_threat_level := "NONE";
                       ta_recommendations := []; ta_confidence := "unknown";
                       ta_error := None |} in
  if negb (Py.truthy ekfiddle_data) then assessment
  else
    match ekfiddle_data with
    | VStr text =>
        let ekfiddle_lower := PyStr.lower text in
        let risk0 := s_0_0 in
        let malware := any_in ["exploit"; "malware"; "trojan"; "backdoor"] ekfiddle_lower in
        let risk1 := if malware then float_add risk0 s_0_8 else risk0 in
        let recs1 := if malware then ["IMMEDIATE ISOLATION - Malware detected"] else [] in
        let conf1 := if malware then "high" else "unknown" in
        let phishing := any_in ["phishing"; "credential"; "steal"] ekfiddle_lower in
        let risk2 := if phishing then float_add risk1 s_0_7 else risk1 in
        let recs2 := if phishing
                     then (recs1 ++ ["BLOCK AND INVESTIGATE - Phishing attempt"])%list
                     else recs1 in
        let conf2 := if phishing then "high" else conf1 in
        let suspicious := any_in ["suspicious"; "anomaly"; "unusual"] ekfiddle_lower in
        let risk3 := if suspicious then float_add risk2 s_0_5 else risk2 in
        let recs3 := if suspicious
                     then (recs2 ++ ["Enhanced monitoring recommended"])%list
                     else recs2 in
        let conf3 := if suspicious
                     then (if String.eqb conf2 "unknown" then "medium" else conf2)
                     else conf2 in
        let hidden := any_in ["obfuscated"; "encoded"; "packed"] ekfiddle_lower in
        let risk4 := if hidden then float_add risk3 s_0_4 else risk3 in
        let recs4 := if hidden then (recs3 ++ ["Content analysis required"])%list
                     else recs3 in
        let indicator_count :=
          Z.of_nat (List.length
                      (filter (fun word => PyStr.contains word ekfiddle_lower)
                              ["exploit"; "malware"; "suspicious"; "phishing";
                               "obfuscated"])) in
        let risk_score := if 2 <? indicator_count then float_add risk4 s_0_2 else risk4 in
        {| ta_risk_score := float_min risk_score s_1_0;
           ta_threat_level :=
             if float_leb s_0_8 risk_score then "CRITICAL"
             else if float_leb s_0_6 risk_score then "HIGH"
             else if float_leb s_0_4 risk_score then "MEDIUM"
             else if float_leb s_0_2 risk_score then "LOW"
             else "MINIMAL";
           ta_recommendations :=
             match recs4 with [] => ["No immediate action required"] | _ :: _ => recs4 end;
           ta_confidence := conf3;
           ta_error := None |}
    | _ =>
        {| ta_risk_score := s_0_0; ta_threat_level := "NONE";
           ta_recommendations := []; ta_confidence := "unknown";
           ta_error := Some AttributeError |}
    end.

(** ** [get_session_ekfiddle] *)

(** [str(s.get('id', '')) == str(session_id) or
     str(s.get('bridge_id', '')) == str(session_id)] *)
Definition ekfiddle_id_matches (R : Runtime) (session_id : string) (s : pydict) : bool :=
  orb (String.eqb (py_str R (Py.dget_default s "id" (VStr ""))) session_id)
      (String.eqb (py_str R (Py.dget_default s "bridge_id" (VStr ""))) session_id).

Record ekfiddle_session_reply : Type := {
  er_session_id : string;
  er_analysis : ekfiddle_analysis;
  er_threat_score : pyfloat;
  er_classification : string;
  er_indicators : list string;
  er_ekfiddle_comments : pyval;
  er_session_flags : pyval;
  er_threat_assessment : threat_assessment;
  er_raw_session : pydict
}.

(** The loop runs over the buffer from its oldest record; an empty record
    counts as not found. *)
Definition get_session_ekfiddle (R : Runtime) (b : bridge) (session_id : string)
  : http_status * option ekfiddle_session_reply :=
  match find (ekfiddle_id_matches R session_id) (live_sessions b) with
  | Some session =>
      if negb (Py.truthy (VDict session)) then (404, None)
      else
        let ekfiddle_data := Py.dget_default session "ekfiddleComments" (VStr "") in
        let session_flags := Py.dget_default session "sessionFlags" (VStr "") in
        let analysis := parse_ekfiddle_comments ekfiddle_data in
        let threat := assess_ekfiddle_threat ekfiddle_data in
        (200, Some {| er_session_id := session_id;
                      er_analysis := analysis;
                      er_threat_score := ta_risk_score threat;
                      er_classification := ta_threat_level threat;
                      er_indicators := ea_indicators analysis;
                      er_ekfiddle_comments := ekfiddle_data;
                      er_session_flags := session_flags;
                      er_threat_assessment := threat;
                      er_raw_session := session |})
  | None => (404, None)
  end.

(** ** [summarize_ekfiddle_findings]

    A dictionary of counts, in the order in which its keys were first
    counted. *)
Definition counter : Type := list (string * Z).

(** [c[k] = c.get(k, 0) + 1] *)
Fixpoint count_up (k : string) (c : counter) : counter :=
  match c with
  | [] => [(k, 1)]
  | (k', n) :: r => if String.eqb k k' then (k', n + 1) :: r else (k', n) :: count_up k r
  end.

(** [c.get(k, 0)] *)
Fixpoint count_of (c : counter) (k : string) : Z :=
  match c with
  | [] => 0
  | (k', n) :: r => if String.eqb k k' then n else count_of r k
  end.

(** The sum of the counts. *)
Definition count_total (c : counter) : Z :=
  fold_right (fun kv total => snd kv + total) 0 c.

Record ekfiddle_summary : Type := {
  es_total_sessions : Z;
  es_threat_distribution : counter;
  es_severity_distribution : counter;
  es_top_patterns : counter;
  es_recommendations : list string
}.

(** The copy of a record made by [get_ekfiddle_analysis], with the analysis
    that the copy holds under ["ekfiddle_analysis"].  On such copies nothing
    in the body of [summarize_ekfiddle_findings] can raise, so the summary has
    no ["error"] entry. *)
Definition analysed_session : Type := (pydict * ekfiddle_analysis)%type.

Definition summarize_ekfiddle_findings (sessions_with_ekfiddle : list analysed_session)
  : ekfiddle_summary :=
  let threat_distribution :=
    fold_left (fun c session => fold_left (fun c t => count_up t c)
                                          (ea_threat_types (snd session)) c)
              sessions_with_ekfiddle [] in
  let severity_distribution :=
    fold_left (fun c session => count_up (ea_severity (snd session)) c)
              sessions_with_ekfiddle [] in
  let top_patterns :=
    fold_left (fun c session => fold_left (fun c p => count_up p c)
                                          (ea_patterns_detected (snd session)) c)
              sessions_with_ekfiddle [] in
  let total_sessions := Z.of_nat (List.length sessions_with_ekfiddle) in
  let high_severity := count_of severity_distribution "high" in
  let medium_severity := count_of severity_distribution "medium" in
  {| es_total_sessions := total_sessions;
     es_threat_distribution := threat_distribution;
     es_severity_distribution := severity_distribution;
     es_top_patterns := top_patterns;
     es_recommendations :=
       ((if 0 <? high_severity
         then [("URGENT: " ++ PyStr.of_Z high_severity
                ++ " high-severity threats detected by EKFiddle")%string] else [])
        ++ (if 0 <? medium_severity
            then [("MONITOR: " ++ PyStr.of_Z medium_severity
                   ++ " medium-severity threats require attention")%string] else [])
        ++ (if total_sessions =? 0
            then ["No EKFiddle analysis data available"] else []))%list |}.

(** ** [get_ekfiddle_analysis] *)

(** [int(request.args.get(k, dflt))] *)
Definition qint_default (R : Runtime) (q : query) (k : string) (dflt : Z) : result Z :=
  match qget q k with
  | Some s => match int_of_str R s with Some z => Ok z | None => Raise ValueError end
  | None => Ok dflt
  end.

(** [l[-n:]] *)
Definition py_tail {A : Type} (n : Z) (l : list A) : list A :=
  let len := Z.of_nat (List.length l) in
  let start := if - n <? 0 then Z.max 0 (- n + len) else Z.min (- n) len in
  skipn (Z.to_nat start) l.

(** The [if]/[elif] chain on the requested level: whether the record is
    passed over. *)
Definition level_skips (threat_level session_severity : string) : bool :=
  if andb (String.eqb threat_level "high") (negb (String.eqb session_severity "high"))
  then true
  else if andb (String.eqb threat_level "medium")
               (negb (existsb (String.eqb session_severity) ["high"; "medium"]))
  then true
  else if andb (String.eqb threat_level "low")
               (negb (existsb (String.eqb session_severity) ["high"; "medium"; "low"]))
  then true
  else false.

(** [ekfiddle_data and ekfiddle_data.strip()], as a truth value *)
Definition has_annotation (ekfiddle_data : pyval) : result bool :=
  if Py.truthy ekfiddle_data
  then text <- py_strip ekfiddle_data ;; Ok (negb (String.eqb text ""))
  else Ok false.

Fixpoint ekfiddle_scan (threat_level : string) (sessions : list pydict)
  : result (list analysed_session) :=
  match sessions with
  | [] => Ok []
  | session :: rest =>
      let ekfiddle_data := Py.dget_default session "ekfiddleComments" (VStr "") in
      annotated <- has_annotation ekfiddle_data ;;
      found <- ekfiddle_scan threat_level rest ;;
      if annotated
      then
        let analysis := parse_ekfiddle_comments ekfiddle_data in
        if andb (negb (String.eqb threat_level "all"))
                (level_skips threat_level (ea_severity analysis))
        then Ok found
        else Ok ((session, analysis) :: found)
      else Ok found
  end.

Record ekfiddle_reply : Type := {
  ek_results : list analysed_session;
  ek_total_sessions : Z;
  ek_threats_found : Z;
  ek_summary : ekfiddle_summary;
  ek_time_range_minutes : Z;
  ek_threat_level_filter : string
}.

Definition get_ekfiddle_analysis (R : Runtime) (q : query) (b : bridge)
  : http_status * option ekfiddle_reply :=
  let body :=
    limit <- qint_default R q "limit" 50 ;;
    time_range <- qint_default R q "time_range" 60 ;;
    let threat_level := match qget q "threat_level" with Some l => l | None => "all" end in
    found <- ekfiddle_scan threat_level (live_sessions b) ;;
    let sessions_with_ekfiddle := py_tail limit found in
    Ok {| ek_results := sessions_with_ekfiddle;
          ek_total_sessions := Z.of_nat (List.length (live_sessions b));
          ek_threats_found := Z.of_nat (List.length sessions_with_ekfiddle);
          ek_summary := summarize_ekfiddle_findings sessions_with_ekfiddle;
          ek_time_range_minutes := time_range;
          ek_threat_level_filter := threat_level |} in
  match body with
  | Ok reply => (200, Some reply)
  | Raise _ => (500, None)
  end.

(** ** [export_sessions]: the records chosen

    The part of the handler up to [sessions = sessions[-limit:] if sessions
    else []]; the formats that follow only rewrite the chosen records. *)

(** [[s for s in sessions if filter_host.lower() in s.get('host', '').lower()]] *)
Fixpoint host_filtered (filter_host : string) (sessions : list pydict)
  : result (list pydict) :=
  match sessions with
  | [] => Ok []
  | s :: rest =>
      host <- py_lower (Py.dget_default s "host" (VStr "")) ;;
      kept <- host_filtered filter_host rest ;;
      Ok (if PyStr.contains (PyStr.lower filter_host) host then s :: kept else kept)
  end.

Definition export_selection (R : Runtime) (q : query) (b : bridge) : result (list pydict) :=
  qint_default R q "time_range_minutes" 60 ;;;
  lim <- qint_default R q "limit" 100 ;;
  let limit := Z.min lim 1000 in
  sessions <- match qget q "filter_host" with
              | Some (String c r) => host_filtered (String c r) (live_sessions b)
              | _ => Ok (live_sessions b)
              end ;;
  Ok (match sessions with [] => [] | _ :: _ => py_tail limit sessions end).

(** ** [get_ekfiddle_threats] *)

(** [s.split(c)] for a separator of one character *)
Fixpoint split_char (sep : ascii) (s : string) : list string :=
  match s with
  | EmptyString => [EmptyString]
  | String c r =>
      if Ascii.eqb c sep then EmptyString :: split_char sep r
      else match split_char sep r with
           | l :: ls => String c l :: ls
           | [] => [String c EmptyString]
           end
  end.






(** ** [api_threat_hunt] *)

(** [s.endswith(suffix)] *)
Definition endswith (s suffix : string) : bool :=
  let n := String.length s in
  let m := String.length suffix in
  andb (Nat.leb m n) (String.eqb (PyStr.drop (n - m) s) suffix).

(** [s.split("/")[-1]] *)
Definition last_segment (s : string) : string :=
  last (split_char "/"%char s) EmptyString.

Record finding : Type := {
  fd_type : string;
  fd_description : string;
  fd_session_id : pyval;
  fd_risk_score : pyfloat;
  fd_url : pyval;
  fd_host : pyval;
  fd_timestamp : pyval;
  fd_details : option pydict
}.

(** The findings that one record adds. *)
Definition hunt_one (R : Runtime) (vc : view_clock) (hunt_type : string)
  (include_analysis : bool) (session : pydict) : result (list finding) :=
  url <- py_lower (Py.or (Py.dget session "url") (VStr "")) ;;
  host <- py_lower (Py.or (Py.dget session "host") (VStr "")) ;;
  overview <- _format_session_overview R vc session ;;
  let found (type description : string) (risk : pyfloat) : finding :=
    {| fd_type := type;
       fd_description := description;
       fd_session_id := Py.dget overview "id";
       fd_risk_score := risk;
       fd_url := Py.dget session "url";
       fd_host := Py.dget session "host";
       fd_timestamp := Py.dget overview "received_at";
       fd_details := if include_analysis then Some overview else None |} in
  let wanted (kind : string) : bool :=
    orb (String.eqb hunt_type kind) (String.eqb hunt_type "all") in
  Ok ((if andb (wanted "fake_updates")
               (andb (any_in ["update"; "download"; "install"] url)
                     (any_in ["chrome"; "firefox"; "edge"; "browser"; "flash"] url))
       then [found "fake_update" ("Potential fake update hosted on " ++ host)%string s_0_8]
       else [])
      ++ (if andb (wanted "malware_downloads")
                  (existsb (endswith url) [".exe"; ".zip"; ".scr"; ".dll"; ".bat"])
          then [found "malware_download"
                      ("Suspicious download " ++ last_segment url)%string s_0_7]
          else [])
      ++ (if andb (wanted "c2_communication")
                  (existsb (endswith host) [".tk"; ".ml"; ".ga"; ".cf"; ".gq"])
          then [found "c2_communication"
                      ("Communication with high-risk TLD " ++ host)%string s_0_6]
          else []))%list.

Fixpoint hunt_loop (R : Runtime) (vc : view_clock) (hunt_type : string)
  (include_analysis : bool) (sessions : list pydict) : result (list finding) :=
  match sessions with
  | [] => Ok []
  | session :: rest =>
      here <- hunt_one R vc hunt_type include_analysis session ;;
      later <- hunt_loop R vc hunt_type include_analysis rest ;;
      Ok (here ++ later)%list
  end.

Record hunt_reply : Type := {
  hr_hunt_type : string;
  hr_time_range_minutes : Z;
  hr_sessions_analyzed : Z;
  hr_findings : list finding;
  hr_findings_count : Z
}.

(** [time.time()] is the reading [v_now] of the request. *)
Definition api_threat_hunt (R : Runtime) (vc : view_clock) (q : query) (b : bridge)
  : http_status * option hunt_reply :=
  let body :=
    let hunt_type := match qget q "hunt_type" with Some h => h | None => "all" end in
    time_range <- match qget q "time_range" with
                  | Some s => match int_of_str R s with
                              | Some z => Ok z
                              | None => Raise ValueError
                              end
                  | None => qint_default R q "since_minutes" 30
                  end ;;
    let time_range := if 360 <? time_range then 360 else time_range in
    let include_analysis :=
      String.eqb (PyStr.lower (match qget q "include_analysis" with
                               | Some v => v
                               | None => "true"
                               end)) "true" in
    recent_sessions <- _filter_sessions R (v_now vc) (live_sessions b) None None
                         (Some time_range) ;;
    findings <- hunt_loop R vc hunt_type include_analysis recent_sessions ;;
    Ok {| hr_hunt_type := hunt_type;
          hr_time_range_minutes := time_range;
          hr_sessions_analyzed := Z.of_nat (List.length recent_sessions);
          hr_findings := findings;
          hr_findings_count := Z.of_nat (List.length findings) |} in
  match body with
  | Ok reply => (200, Some reply)
  | Raise _ => (500, None)
  end.

(** ** Example queries and buffers *)

Module Scenarios.



(** A payload whose annotation is a number. *)
Definition numeric_annotation : pyval :=
  VDict [("id", VStr "31"); ("url", VStr "http://a.example/x");
         ("ekfiddleComments", VInt 7)].

Definition text_record : pydict :=
  [("id", VStr "40"); ("responseBody", VStr "<html></html>"); ("requestBody", VStr "a=1")].

Definition annotated (sid comments : string) : pydict :=
  [("id", VStr sid); ("host", VStr "a.example"); ("statusCode", VInt 200);
   ("received_at", VFloat Ref.t0); ("ekfiddleComments", VStr comments)].

Definition annotated_buffer : bridge :=
  {| live_sessions := [ annotated "1" "Low: tracking pixel";
                        annotated "2" "High: malware dropper, obfuscated payload";
                        annotated "3" "";
                        annotated "2" "suspicious redirect chain" ];
     suspicious_sessions := [] |}.

(** The listing of the annotated records of that buffer. *)
Definition listed (q : query) : ekfiddle_reply :=
  match snd (get_ekfiddle_analysis Ref.runtime q annotated_buffer) with
  | Some reply => reply
  | None => {| ek_results := []; ek_total_sessions := 0; ek_threats_found := 0;
               ek_summary := summarize_ekfiddle_findings [];
               ek_time_range_minutes := 0; ek_threat_level_filter := "" |}
  end.



(** A script of 13772 characters: two calls of the catalogue sit between
    its first 8000 and its last 4000 characters. *)
Definition short_script : string :=
  Demo.repeat_string 800 ("var a = 1;" ++ PyStr.nl)
  ++ "x = eval(payload);" ++ PyStr.nl
  ++ Demo.repeat_string 30 ("/* padding */" ++ PyStr.nl)
  ++ "document.write(unescape('%3C'));" ++ PyStr.nl
  ++ Demo.repeat_string 300 ("// filler line" ++ PyStr.nl).

Definition visited (sid url host : string) : pydict :=
  [("id", VStr sid); ("url", VStr url); ("host", VStr host); ("statusCode", VInt 200);
   ("received_at", VFloat Ref.t0)].

Definition hunted_buffer : bridge :=
  {| live_sessions := [ visited "50" "http://cdn.example/app.js" "cdn.example";
                        visited "51" "http://get.evil.tk/Chrome-Update.EXE" "get.evil.tk";
                        visited "52" "http://files.example/archive.zip" "files.example" ];
     suspicious_sessions := [] |}.

(** The reply to a hunt over that buffer. *)
Definition hunt (q : query) : hunt_reply :=
  match snd (api_threat_hunt Ref.runtime Demo.vclk q hunted_buffer) with
  | Some reply => reply
  | None => {| hr_hunt_type := ""; hr_time_range_minutes := 0; hr_sessions_analyzed := 0;
               hr_findings := []; hr_findings_count := 0 |}
  end.


End Scenarios.

(** * Properties *)

(** ** The bounded buffers *)

Section Deque.

Context {A : Type}.
Implicit Types (q l : list A) (x : A) (n : nat).

Local Open Scope nat_scope.
Local Open Scope list_scope.

Lemma in_skipn k l y : In y (skipn k l) -> In y l.
Proof.
  intros H. rewrite <- (firstn_skipn k l). apply in_or_app. now right.
Qed.

Lemma deque_append_length n q x :
  List.length q <= n -> List.length (deque_append n q x) <= n.
Proof.
  intros H. unfold deque_append.
  rewrite length_skipn, length_app. simpl. lia.
Qed.

Lemma deque_append_room n q x :
  List.length q < n -> deque_append n q x = (q ++ [x])%list.
Proof.
  intros H. unfold deque_append.
  rewrite length_app. simpl.
  replace (List.length q + 1 - n)%nat with 0%nat by lia. reflexivity.
Qed.

Lemma deque_append_full n q x :
  List.length q = n -> (0 < n)%nat -> deque_append n q x = (tl q ++ [x])%list.
Proof.
  intros H Hn. unfold deque_append.
  rewrite length_app. simpl.
  replace (List.length q + 1 - n)%nat with 1%nat by lia.
  destruct q as [|y q']; simpl in *; [lia | reflexivity].
Qed.

Lemma deque_append_incl n q x y :
  In y (deque_append n q x) -> In y q \/ y = x.
Proof.
  unfold deque_append. intros H.
  apply in_skipn in H.
  apply in_app_or in H. destruct H as [H | [H | []]]; auto.
Qed.

(** Appending to the window of a history is the window of the longer
    history. *)
Lemma deque_append_lastn n l x :
  deque_append n (lastn n l) x = lastn n (l ++ [x]).
Proof.
  unfold deque_append, lastn.
  rewrite !length_app, length_skipn. simpl.
  destruct (Nat.le_gt_cases (List.length l) n) as [Hle | Hgt].
  - replace (List.length l - n)%nat with 0%nat by lia. simpl.
    replace (List.length l - 0 + 1 - n)%nat with (List.length l + 1 - n)%nat by lia.
    reflexivity.
  - replace (skipn (List.length l - n) l ++ [x])
      with (skipn (List.length l - n) (l ++ [x])).
    + rewrite skipn_skipn. f_equal. lia.
    + rewrite skipn_app.
      replace (List.length l - n - List.length l) with 0 by lia. reflexivity.
Qed.

Lemma lastn_length n l : List.length (lastn n l) = Nat.min n (List.length l).
Proof. unfold lastn. rewrite length_skipn. lia. Qed.

Lemma lastn_all n l : List.length l <= n -> lastn n l = l.
Proof.
  intros H. unfold lastn.
  replace (List.length l - n)%nat with 0%nat by lia. reflexivity.
Qed.

End Deque.

(** ** Runs: what the handlers do to the two buffers *)

Section Runs.

Variable R : Runtime.

Local Open Scope list_scope.

Lemma receive_session_step c data b :
  fst (receive_session R c data b) =
  match accepted R c data with
  | Some sess =>
      {| live_sessions := deque_append LIVE_MAXLEN (live_sessions b) sess;
         suspicious_sessions :=
           if is_immediately_suspicious R sess
           then deque_append SUSPICIOUS_MAXLEN (suspicious_sessions b) sess
           else suspicious_sessions b |}
  | None => b
  end.
Proof.
  unfold receive_session, accepted.
  destruct data as [d|]; [|reflexivity].
  destruct (Py.truthy d); simpl; [|reflexivity].
  destruct (normalize_session R c d); reflexivity.
Qed.

Lemma clear_sessions_step body b :
  fst (clear_sessions body b) =
  match clear_request body with
  | Some true => {| live_sessions := []; suspicious_sessions := [] |}
  | Some false => {| live_sessions := []; suspicious_sessions := suspicious_sessions b |}
  | None => b
  end.
Proof.
  unfold clear_sessions, clear_request.
  destruct body as [body|]; [|reflexivity].
  destruct (Py.get_default _ _ _) as [v|e]; [|reflexivity].
  destruct (Py.truthy v); reflexivity.
Qed.

Lemma run_snoc rs r : run R (rs ++ [r]) = step R (run R rs) r.
Proof. unfold run. rewrite fold_left_app. reflexivity. Qed.

Lemma since_reset_snoc rs r :
  since_reset R (rs ++ [r]) = since_reset_step R (since_reset R rs) r.
Proof. unfold since_reset. rewrite fold_left_app. reflexivity. Qed.

Lemma ingest_all_snoc events c data :
  ingest_all R (events ++ [(c, data)]) =
  fst (receive_session R c data (ingest_all R events)).
Proof. unfold ingest_all. rewrite map_app. simpl. rewrite run_snoc. reflexivity. Qed.

Lemma ingested_snoc events c data :
  ingested R (events ++ [(c, data)]) =
  ingested R events ++ match accepted R c data with Some s => [s] | None => [] end.
Proof.
  induction events as [|[c' d'] rest IH]; simpl.
  - destruct (accepted R c data); reflexivity.
  - rewrite IH. destruct (accepted R c' d'); reflexivity.
Qed.

Lemma live_window events :
  live_sessions (ingest_all R events) = lastn LIVE_MAXLEN (ingested R events).
Proof.
  induction events as [|[c data] rest IH] using rev_ind.
  - reflexivity.
  - rewrite ingest_all_snoc, ingested_snoc, receive_session_step.
    destruct (accepted R c data) as [sess|]; simpl.
    + rewrite IH. apply deque_append_lastn.
    + rewrite app_nil_r. exact IH.
Qed.

(** C1.  After any sequence of ingests the live buffer holds at most
    [LIVE_MAXLEN] = 5000 records, namely the min(5000, total) most recently
    stored ones in the order of their arrival; and one more stored record
    extends the window at its newest end, so that the oldest record is the
    one to leave a full buffer. *)
Theorem live_buffer_recent_window (events : list (clock * option pyval)) :
  let b := ingest_all R events in
  (List.length (live_sessions b) <= LIVE_MAXLEN)%nat
  /\ List.length (live_sessions b)
     = Nat.min LIVE_MAXLEN (List.length (ingested R events))
  /\ live_sessions b = lastn LIVE_MAXLEN (ingested R events)
  /\ forall c data sess,
       accepted R c data = Some sess ->
       live_sessions (ingest_all R (events ++ [(c, data)]))
       = lastn LIVE_MAXLEN (live_sessions b ++ [sess])
       /\ (List.length (live_sessions b) = LIVE_MAXLEN ->
           live_sessions (ingest_all R (events ++ [(c, data)]))
           = tl (live_sessions b) ++ [sess]).
Proof.
  cbv zeta. rewrite live_window, lastn_length.
  repeat split; try lia.
  - rewrite ingest_all_snoc, receive_session_step, H. cbn [live_sessions].
    rewrite live_window. unfold deque_append, lastn. reflexivity.
  - intros Hfull.
    rewrite ingest_all_snoc, receive_session_step, H. cbn [live_sessions].
    rewrite live_window. apply deque_append_full.
    + rewrite lastn_length. exact Hfull.
    + unfold LIVE_MAXLEN. lia.
Qed.

(** X1.  Clears included, neither buffer ever holds more than its capacity. *)
Lemma buffers_bounded (rs : list request) :
  (List.length (live_sessions (run R rs)) <= LIVE_MAXLEN)%nat
  /\ (List.length (suspicious_sessions (run R rs)) <= SUSPICIOUS_MAXLEN)%nat.
Proof.
  induction rs as [|r rs IH] using rev_ind.
  - simpl. split; lia.
  - rewrite run_snoc. destruct IH as [IHl IHs].
    destruct r as [c data | body]; simpl.
    + rewrite receive_session_step.
      destruct (accepted R c data) as [sess|]; [|now split].
      cbn [live_sessions suspicious_sessions]. split.
      * now apply deque_append_length.
      * destruct (is_immediately_suspicious R sess); [|exact IHs].
        now apply deque_append_length.
    + rewrite clear_sessions_step.
      destruct (clear_request body) as [[|]|]; cbn [live_sessions suspicious_sessions];
        simpl; split; try lia; assumption.
Qed.

End Runs.

(** ** Flagged records and the live buffer *)

Section Flagged.

Variable R : Runtime.

Local Open Scope list_scope.

Lemma suspicious_step_incl b c data s :
  In s (suspicious_sessions (fst (receive_session R c data b))) ->
  In s (suspicious_sessions b) \/ accepted R c data = Some s.
Proof.
  rewrite receive_session_step.
  destruct (accepted R c data) as [sess|]; [|auto].
  cbn [suspicious_sessions].
  destruct (is_immediately_suspicious R sess); [|auto].
  intros H. apply deque_append_incl in H. destruct H as [H | ->]; auto.
Qed.

(** While at most [LIVE_MAXLEN] records were stored since the buffers were
    last empty together, the live buffer holds all of them and the flagged
    buffer holds some of them. *)
Lemma buffers_since_reset rs :
  forall l, since_reset R rs = Some l ->
            (List.length l <= LIVE_MAXLEN)%nat ->
            live_sessions (run R rs) = l
            /\ incl (suspicious_sessions (run R rs)) l.
Proof.
  induction rs as [|r rs IH] using rev_ind; intros l Hl Hlen.
  - injection Hl as <-. split; [reflexivity | intros x []].
  - rewrite since_reset_snoc in Hl. rewrite run_snoc.
    destruct r as [c data | body]; simpl in Hl |- *.
    + pose proof (receive_session_step R c data (run R rs)) as Hstep.
      pose proof (suspicious_step_incl (run R rs) c data) as Hsus.
      destruct (accepted R c data) as [sess|].
      * destruct (since_reset R rs) as [l0|]; [|discriminate].
        injection Hl as <-. rewrite length_app in Hlen. simpl in Hlen.
        destruct (IH l0 eq_refl) as [Hlive Hincl]; [lia|].
        rewrite Hstep. cbn [live_sessions]. split.
        -- rewrite Hlive. apply deque_append_room. lia.
        -- intros x Hx. rewrite <- Hstep in Hx. apply Hsus in Hx.
           apply in_or_app. destruct Hx as [Hx | Hx].
           ++ left. now apply Hincl.
           ++ right. injection Hx as ->. now left.
      * rewrite Hstep. now apply IH.
    + rewrite clear_sessions_step.
      destruct (clear_request body) as [[|]|].
      * injection Hl as <-. split; [reflexivity | intros x []].
      * discriminate.
      * now apply IH.
Qed.

(** C6, as amended.  While no more than 5000 records were stored since the
    two buffers were last empty together, and the live buffer was not
    cleared alone since then, every record of the flagged buffer is in the
    live buffer. *)
Theorem flagged_within_live (rs : list request) (l : list pydict) :
  since_reset R rs = Some l ->
  (List.length l <= LIVE_MAXLEN)%nat ->
  forall s, In s (suspicious_sessions (run R rs)) -> In s (live_sessions (run R rs)).
Proof.
  intros Hl Hlen s Hs.
  destruct (buffers_since_reset rs l Hl Hlen) as [Hlive Hincl].
  rewrite Hlive. now apply Hincl.
Qed.

End Flagged.

(** ** Clearing *)

(** C9.  A clear that does not ask for the flagged buffer leaves that
    buffer as it was, contents and size; the flagged buffer is emptied only
    by a clear whose [clear_suspicious] is true; and every clear that is
    carried out empties the live buffer. *)
Theorem clear_isolation (body : option pyval) (b : bridge) :
  let b' := fst (clear_sessions body b) in
  (clear_request body <> Some true ->
   suspicious_sessions b' = suspicious_sessions b
   /\ List.length (suspicious_sessions b') = List.length (suspicious_sessions b))
  /\ (suspicious_sessions b' <> suspicious_sessions b -> clear_request body = Some true)
  /\ (clear_request body = Some true ->
      suspicious_sessions b' = [] /\ live_sessions b' = [])
  /\ (clear_request body = Some false -> live_sessions b' = []).
Proof.
  cbv zeta. rewrite clear_sessions_step.
  destruct (clear_request body) as [[|]|]; cbn [suspicious_sessions live_sessions];
    repeat split; try congruence; try discriminate.
Qed.

(** ** Lookups by id *)

Section Lookup.

Variable R : Runtime.

Local Open Scope list_scope.


End Lookup.

(** The flagged buffer keeps a record that a clear removed from the live
    buffer: C6 fails as it is stated. *)
Lemma flagged_outlives_clear :
  exists s,
    In s (suspicious_sessions (run Ref.runtime Demo.ingest_then_clear))
    /\ ~ In s (live_sessions (run Ref.runtime Demo.ingest_then_clear)).
Proof.
  eexists. split.
  - vm_compute. left. reflexivity.
  - vm_compute. intros [].
Qed.

Lemma flagged_within_live_witness :
  since_reset Ref.runtime [Ingest Ref.clk (Some Demo.failed_request)]
  = Some (ingested Ref.runtime [(Ref.clk, Some Demo.failed_request)])
  /\ (List.length (ingested Ref.runtime [(Ref.clk, Some Demo.failed_request)])
      <= LIVE_MAXLEN)%nat
  /\ forall s,
       In s (suspicious_sessions (run Ref.runtime [Ingest Ref.clk (Some Demo.failed_request)])) ->
       In s (live_sessions (run Ref.runtime [Ingest Ref.clk (Some Demo.failed_request)])).
Proof.
  assert (H1 : since_reset Ref.runtime [Ingest Ref.clk (Some Demo.failed_request)]
               = Some (ingested Ref.runtime [(Ref.clk, Some Demo.failed_request)]))
    by (vm_compute; reflexivity).
  assert (H2 : (List.length (ingested Ref.runtime [(Ref.clk, Some Demo.failed_request)])
                <= LIVE_MAXLEN)%nat)
    by (vm_compute; lia).
  split; [exact H1 | split; [exact H2 |]].
  exact (flagged_within_live Ref.runtime _ _ H1 H2).
Defined.

Example clear_request_ex :
  clear_request (Some (VDict [])) = Some false
  /\ clear_request (Some (VDict [("clear_suspicious", VBool true)])) = Some true
  /\ clear_request (Some (VList [VInt 1])) = None.
Proof. repeat split; reflexivity. Qed.

Example three_ingests_run : ingest_all Ref.runtime Demo.three_ingests = Demo.after_three.
Proof. vm_compute. reflexivity. Qed.


Example lookup_by_id_body_ex :
  option_map br_response_body
    (match get_session_body Ref.runtime [] Demo.after_three "7" with
     | Ok r => Some r | Raise _ => None end) = Some (VStr "new")
  /\ id_matches Ref.runtime "7" (Demo.stored Demo.first_seven) = true
  /\ option_map (fun r => lookup "session" r)
       (snd (get_session_details Ref.runtime Demo.vclk Demo.after_three "7"))
     = Some (Some (VDict
         [ ("id", VStr "7"); ("url", VStr "http://new.example/");
           ("host", VStr "new.example"); ("method", VStr "");
           ("statusCode", VInt 200); ("contentType", VStr "");
           ("contentLength", VInt 0); ("scheme", VStr "http");
           ("received_at", VFloat Ref.t0);
           ("received_at_iso", VStr "2023-11-14T22:13:20Z");
           ("requestHeaders", VDict []); ("responseHeaders", VDict []);
           ("ekfiddleComments", VStr ""); ("sessionFlags", VStr "") ])).
Proof. repeat split; vm_compute; reflexivity. Qed.

Example with_commas_ex :
  with_commas 50000 = "50,000" /\ with_commas 999 = "999"
  /\ with_commas 1234567 = "1,234,567" /\ with_commas 0 = "0".
Proof. repeat split; vm_compute; reflexivity. Qed.

(** ** Risk assessment *)

Section Risk.

Variable R : Runtime.

Lemma session_status_int (session : pydict) (z : Z) :
  Py.dget session "statusCode" = VInt z -> session_status R session = Ok z.
Proof.
  intros H. unfold session_status. rewrite H. unfold Py.or. simpl.
  destruct (Z.eqb_spec z 0) as [-> | _]; reflexivity.
Qed.

(** C3, as amended.  A record without annotation is assessed with score
    0.0 and level LOW; its flag is empty while the status is below 400, and
    a status of 400 or more sets the flag [error_status] and gives one
    informational reason, the score and the level staying as they are. *)
Theorem no_annotation_assessment (session : pydict) (status : Z) :
  ekfiddle_text session = Ok "" ->
  session_status R session = Ok status ->
  exists a,
    _quick_risk_assessment R session = Ok a
    /\ score a = s_0_0
    /\ level a = "LOW"
    /\ flag a = (if 400 <=? status then Some "error_status" else None)
    /\ reasons a = (if 400 <=? status
                    then ["HTTP error status " ++ PyStr.of_Z status
                          ++ " (informational only)"]
                    else []).
Proof.
  intros Hek Hst. unfold _quick_risk_assessment.
  rewrite Hst, Hek. simpl.
  destruct (400 <=? status); eexists; repeat split; reflexivity.
Qed.

(** With a leading "critical" the score stays 1.0 through the keyword
    scan, and the level is CRITICAL unless the scan stops at the second
    keyword group, which writes HIGH. *)
Lemma critical_through_scan (text : string) :
  leading "critical" text = true ->
  keyword_scan text (severity_of text)
  = (s_1_0,
     if any_in ["exploit"; "malware"; "trojan"; "backdoor"; "ransomware"] text
     then "CRITICAL"
     else if any_in ["phishing"; "credential"; "socgholish"; "fake update"] text
          then "HIGH" else "CRITICAL").
Proof.
  intros H. unfold severity_of. rewrite H. unfold keyword_scan.
  destruct (any_in ["exploit"; "malware"; "trojan"; "backdoor"; "ransomware"] text).
  - reflexivity.
  - destruct (any_in ["phishing"; "credential"; "socgholish"; "fake update"] text).
    + reflexivity.
    + destruct (any_in ["suspicious"; "obfuscated"; "encoded"; "eval"] text);
        reflexivity.
Qed.

End Risk.

(** A failed request without annotation comes out flagged [error_status]:
    C3 fails as it is stated. *)
Lemma error_status_is_flagged :
  ekfiddle_text (Demo.stored Demo.failed_request) = Ok ""
  /\ exists a,
       _quick_risk_assessment Ref.runtime (Demo.stored Demo.failed_request) = Ok a
       /\ flag a = Some "error_status"
       /\ flag a <> None.
Proof.
  split; [vm_compute; reflexivity|].
  eexists. split; [vm_compute; reflexivity|].
  split; [reflexivity | discriminate].
Qed.

Lemma no_annotation_assessment_witness :
  ekfiddle_text (Demo.stored Demo.failed_request) = Ok ""
  /\ session_status Ref.runtime (Demo.stored Demo.failed_request) = Ok 500
  /\ exists a,
       _quick_risk_assessment Ref.runtime (Demo.stored Demo.failed_request) = Ok a
       /\ score a = s_0_0
       /\ level a = "LOW"
       /\ flag a = (if 400 <=? 500 then Some "error_status" else None)
       /\ reasons a = (if 400 <=? 500
                       then ["HTTP error status " ++ PyStr.of_Z 500
                             ++ " (informational only)"]
                       else []).
Proof.
  assert (H1 : ekfiddle_text (Demo.stored Demo.failed_request) = Ok "")
    by (vm_compute; reflexivity).
  assert (H2 : session_status Ref.runtime (Demo.stored Demo.failed_request) = Ok 500)
    by (vm_compute; reflexivity).
  split; [exact H1 | split; [exact H2 |]].
  exact (no_annotation_assessment Ref.runtime _ _ H1 H2).
Defined.

(** C4, at the failing input: a leading "Critical" followed by a
    credential-theft term is assessed with score 1.0 and level HIGH. *)
Theorem critical_lowered_to_high :
  exists a,
    _quick_risk_assessment Ref.runtime (Demo.stored Demo.critical_phishing) = Ok a
    /\ leading "critical" (PyStr.lower "Critical: phishing kit landing page") = true
    /\ score a = s_1_0
    /\ level a = "HIGH".
Proof.
  eexists. split; [vm_compute; reflexivity|].
  repeat split; vm_compute; reflexivity.
Qed.

Example critical_malware_ex :
  option_map (fun a => (score a, level a, flag a))
    (match _quick_risk_assessment Ref.runtime (Demo.stored Demo.critical_malware) with
     | Ok a => Some a | Raise _ => None end)
  = Some (s_1_0, "CRITICAL", Some "ekfiddle_alert").
Proof. vm_compute. reflexivity. Qed.

Example high_eval_ex :
  option_map (fun a => (score a, level a))
    (match _quick_risk_assessment Ref.runtime
             [("ekfiddleComments", VStr "High: JS Function with Eval")] with
     | Ok a => Some a | Raise _ => None end)
  = Some (s_0_85, "HIGH").
Proof. vm_compute. reflexivity. Qed.

(** ** Normalization *)

Lemma bind_ok_inv {A B : Type} (m : result A) (k : A -> result B) (b : B) :
  bind m k = Ok b -> exists a, m = Ok a /\ k a = Ok b.
Proof. destruct m as [a|e]; simpl; [eauto | discriminate]. Qed.

Ltac bind_inv H :=
  repeat (apply bind_ok_inv in H;
          let x := fresh "x" in
          let Hx := fresh "Hx" in
          destruct H as (x & Hx & H)).

Section Normalize.

Variable R : Runtime.

Lemma has_alias_dict (kvs : pydict) (k : string) :
  has_alias (VDict kvs) k
  = Ok (match alias_value kvs k with Some _ => true | None => false end).
Proof.
  unfold has_alias, alias_value. simpl.
  destruct (lookup k kvs) as [[]|]; reflexivity.
Qed.

Lemma getitem_alias (kvs : pydict) (k : string) (v : pyval) :
  alias_value kvs k = Some v -> Py.getitem (VDict kvs) k = Ok v.
Proof.
  unfold alias_value. simpl.
  destruct (lookup k kvs) as [[]|]; intros H; try discriminate; now injection H as <-.
Qed.

Lemma alias_loop_dict (kvs : pydict) (keys : list string) :
  alias_loop R (VDict kvs) keys = Ok (option_map (py_str R) (first_alias kvs keys)).
Proof.
  induction keys as [|k rest IH]; [reflexivity|].
  cbn [alias_loop first_alias]. rewrite has_alias_dict.
  destruct (alias_value kvs k) as [v|] eqn:E; cbn [bind].
  - rewrite (getitem_alias _ _ _ E). reflexivity.
  - exact IH.
Qed.

(** On a mapping the [if]/[elif] chain of the body and the loop of the
    handler find the same id. *)
Lemma alias_chain_dict (kvs : pydict) :
  alias_chain R (VDict kvs) = Ok (option_map (py_str R) (supplied_id kvs)).
Proof.
  unfold alias_chain, supplied_id, id_aliases. cbn [first_alias].
  rewrite !has_alias_dict.
  destruct (alias_value kvs "id") as [v|] eqn:E1; cbn [bind].
  { rewrite (getitem_alias _ _ _ E1). reflexivity. }
  destruct (alias_value kvs "session_id") as [v|] eqn:E2; cbn [bind].
  { rewrite (getitem_alias _ _ _ E2). reflexivity. }
  destruct (alias_value kvs "fiddler_session_id") as [v|] eqn:E3; cbn [bind].
  { rewrite (getitem_alias _ _ _ E3). reflexivity. }
  reflexivity.
Qed.

(** What a record returned by the body carries. *)
Lemma normalize_body_ok (c : clock) (d : pyval) (sess : pydict) :
  normalize_body R c d = Ok sess ->
  exists found sid t iso,
    alias_chain R d = Ok found
    /\ match found with
       | Some s => sid = s
       | None => exists ms, sid = "missing-id-" ++ PyStr.of_Z ms
       end
    /\ lookup "id" sess = Some (VStr sid)
    /\ lookup "received_at" sess = Some (VFloat t)
    /\ utcfromtimestamp_iso R t = Ok iso.
Proof.
  intros H. unfold normalize_body in H.
  apply bind_ok_inv in H. destruct H as (found & Hfound & H).
  apply bind_ok_inv in H. destruct H as (sid & Hsid & H).
  bind_inv H. injection H as <-.
  exists found, sid. do 2 eexists.
  split; [exact Hfound|]. split; [|split; [reflexivity | split; [reflexivity | eassumption]]].
  destruct found as [s|].
  - now injection Hsid as <-.
  - bind_inv Hsid. eexists. injection Hsid as <-. reflexivity.
Qed.

(** On a mapping the handler returns, given the stamp of its clock. *)
Lemma normalize_handler_dict (c : clock) (kvs : pydict) (e : exn) (ms : Z) :
  PyFloat.millis (t_exc_id c) = Ok ms ->
  exists sess,
    normalize_handler R c (VDict kvs) e = Ok sess
    /\ lookup "id" sess
       = Some (VStr (match supplied_id kvs with
                     | Some v => py_str R v
                     | None => "error-" ++ PyStr.of_Z ms
                     end))
    /\ lookup "received_at" sess = Some (VFloat (t_exc_recv c))
    /\ lookup "ekfiddleComments" sess
       = Some (VStr ("normalization_error: " ++ exc_str R e)).
Proof.
  intros Hms. unfold normalize_handler.
  rewrite alias_loop_dict. fold (supplied_id kvs). cbn [bind].
  destruct (supplied_id kvs) as [v|]; cbn [option_map bind Py.get_default].
  - eexists. split; [reflexivity|]. repeat split; reflexivity.
  - rewrite Hms. cbn [bind]. eexists. split; [reflexivity|]. repeat split; reflexivity.
Qed.

Lemma normalize_handler_alias (c : clock) (kvs : pydict) (e : exn) (v : pyval) :
  supplied_id kvs = Some v ->
  exists sess,
    normalize_handler R c (VDict kvs) e = Ok sess
    /\ lookup "id" sess = Some (VStr (py_str R v)).
Proof.
  intros Hv. unfold normalize_handler.
  rewrite alias_loop_dict. fold (supplied_id kvs). rewrite Hv.
  cbn [option_map bind Py.get_default].
  eexists. split; reflexivity.
Qed.

(** C7.  A mapping that carries an id under [id], [session_id] or
    [fiddler_session_id], taken in that order and a [None] passed over,
    is normalized to a record whose id is [str] of that value; and a
    mapping that carries none gets an id made of a prefix and the stamp of
    the clock. *)
Theorem id_preserved (c : clock) (kvs : pydict) :
  match supplied_id kvs with
  | Some v =>
      exists sess,
        normalize_session R c (VDict kvs) = Ok sess
        /\ lookup "id" sess = Some (VStr (py_str R v))
  | None =>
      clock_ok c = true ->
      exists sess ms,
        normalize_session R c (VDict kvs) = Ok sess
        /\ (lookup "id" sess = Some (VStr ("missing-id-" ++ PyStr.of_Z ms))
            \/ lookup "id" sess = Some (VStr ("error-" ++ PyStr.of_Z ms)))
  end.
Proof.
  unfold normalize_session.
  destruct (supplied_id kvs) as [v|] eqn:Hid.
  - destruct (normalize_body R c (VDict kvs)) as [sess|e] eqn:Hbody; cbn [try_except].
    + exists sess. split; [reflexivity|].
      destruct (normalize_body_ok _ _ _ Hbody) as (found & sid & t & iso & Hf & Hs & Hl & _).
      rewrite alias_chain_dict, Hid in Hf. injection Hf as <-. cbn in Hs. now subst sid.
    + now apply normalize_handler_alias.
  - intros Hclock. unfold clock_ok in Hclock. apply andb_prop in Hclock.
    destruct Hclock as [Hms _].
    destruct (PyFloat.millis (t_exc_id c)) as [ms|] eqn:Ems; [|discriminate].
    destruct (normalize_body R c (VDict kvs)) as [sess|e] eqn:Hbody; cbn [try_except].
    + destruct (normalize_body_ok _ _ _ Hbody) as (found & sid & t & iso & Hf & Hs & Hl & _).
      rewrite alias_chain_dict, Hid in Hf. injection Hf as <-.
      destruct Hs as (ms' & ->). exists sess, ms'. split; [reflexivity | now left].
    + destruct (normalize_handler_dict c kvs e ms Ems) as (sess & Hh & Hl & _).
      rewrite Hid in Hl. exists sess, ms. split; [exact Hh | now right].
Qed.

End Normalize.

Section NormalizeTotal.

Variable R : Runtime.
Hypothesis utc_checks : utc_conversion_checks R.

(** C8, as amended.  On a mapping, with a working clock, normalization
    returns a record: its [received_at] is finite; its id is not empty
    unless the payload supplies an id whose [str] is empty; and when the
    body raises, the record is the minimal one of the handler, marked
    [normalization_error: ...], with the supplied id when there is one and
    an id made from the clock otherwise. *)
Theorem normalize_never_raises (c : clock) (kvs : pydict) :
  clock_ok c = true ->
  exists sess sid t,
    normalize_session R c (VDict kvs) = Ok sess
    /\ lookup "id" sess = Some (VStr sid)
    /\ (sid = "" -> exists v, supplied_id kvs = Some v /\ py_str R v = "")
    /\ lookup "received_at" sess = Some (VFloat t)
    /\ PyFloat.is_finite t = true
    /\ forall e,
         normalize_body R c (VDict kvs) = Raise e ->
         normalize_handler R c (VDict kvs) e = Ok sess
         /\ lookup "ekfiddleComments" sess
            = Some (VStr ("normalization_error: " ++ exc_str R e))
         /\ exists ms,
              PyFloat.millis (t_exc_id c) = Ok ms
              /\ sid = match supplied_id kvs with
                       | Some v => py_str R v
                       | None => "error-" ++ PyStr.of_Z ms
                       end.
Proof.
  intros Hclock. unfold clock_ok in Hclock. apply andb_prop in Hclock.
  destruct Hclock as [Hms Hrecv].
  destruct (PyFloat.millis (t_exc_id c)) as [ms|] eqn:Ems; [|discriminate].
  unfold normalize_session.
  destruct (normalize_body R c (VDict kvs)) as [sess|e] eqn:Hbody; cbn [try_except].
  - destruct (normalize_body_ok R _ _ _ Hbody)
      as (found & sid & t & iso & Hf & Hs & Hid & Ht & Hiso).
    rewrite alias_chain_dict in Hf. injection Hf as <-.
    exists sess, sid, t. split; [reflexivity|]. split; [exact Hid|].
    split; [|split; [exact Ht | split; [now apply (utc_checks t iso) | discriminate]]].
    intros Hempty. subst sid.
    destruct (supplied_id kvs) as [v|]; cbn in Hs.
    + exists v. split; [reflexivity | now symmetry].
    + destruct Hs as (ms' & Hs). simpl in Hs. discriminate Hs.
  - destruct (normalize_handler_dict R c kvs e ms Ems) as (sess & Hh & Hid & Ht & Hek).
    exists sess. eexists. exists (t_exc_recv c).
    split; [exact Hh|]. split; [exact Hid|].
    split; [|split; [exact Ht | split; [exact Hrecv|]]].
    + destruct (supplied_id kvs) as [v|]; [|simpl; discriminate].
      intros Hempty. exists v. split; [reflexivity | exact Hempty].
    + intros e' He'. injection He' as <-.
      split; [exact Hh|]. split; [exact Hek|].
      exists ms. split; reflexivity.
Qed.

End NormalizeTotal.

Lemma ref_utc_conversion_checks : utc_conversion_checks Ref.runtime.
Proof.
  intros t s. cbn [utcfromtimestamp_iso Ref.runtime].
  destruct (Ref.float_eqb t Ref.t0) eqn:E; [|discriminate].
  intros _. destruct t as [sg | sg | | sg m e]; try reflexivity.
  - destruct sg; vm_compute in E; discriminate E.
  - vm_compute in E. discriminate E.
Qed.

(** A payload whose id is the empty string is stored under the empty id:
    C8 fails as it is stated. *)
Lemma empty_id_is_kept :
  Py.truthy Demo.empty_id = true
  /\ exists sess,
       normalize_session Ref.runtime Ref.clk Demo.empty_id = Ok sess
       /\ lookup "id" sess = Some (VStr "").
Proof.
  split; [reflexivity|].
  eexists. split; vm_compute; reflexivity.
Qed.

Lemma normalize_never_raises_witness :
  clock_ok Ref.clk = true
  /\ exists sess sid t,
       normalize_session Ref.runtime Ref.clk (VDict Demo.bad_url_with_id) = Ok sess
       /\ lookup "id" sess = Some (VStr sid)
       /\ (sid = "" ->
           exists v, supplied_id Demo.bad_url_with_id = Some v
                     /\ py_str Ref.runtime v = "")
       /\ lookup "received_at" sess = Some (VFloat t)
       /\ PyFloat.is_finite t = true
       /\ forall e,
            normalize_body Ref.runtime Ref.clk (VDict Demo.bad_url_with_id) = Raise e ->
            normalize_handler Ref.runtime Ref.clk (VDict Demo.bad_url_with_id) e = Ok sess
            /\ lookup "ekfiddleComments" sess
               = Some (VStr ("normalization_error: " ++ exc_str Ref.runtime e))
            /\ exists ms,
                 PyFloat.millis (t_exc_id Ref.clk) = Ok ms
                 /\ sid = match supplied_id Demo.bad_url_with_id with
                          | Some v => py_str Ref.runtime v
                          | None => "error-" ++ PyStr.of_Z ms
                          end.
Proof.
  assert (H : clock_ok Ref.clk = true) by (vm_compute; reflexivity).
  split; [exact H|].
  exact (normalize_never_raises Ref.runtime ref_utc_conversion_checks
           Ref.clk Demo.bad_url_with_id H).
Defined.

Example normalize_handler_keeps_id_ex :
  normalize_body Ref.runtime Ref.clk (VDict Demo.bad_url_with_id) = Raise AttributeError
  /\ option_map (lookup "id")
       (match normalize_session Ref.runtime Ref.clk (VDict Demo.bad_url_with_id) with
        | Ok s => Some s | Raise _ => None end)
     = Some (Some (VStr "42")).
Proof. split; vm_compute; reflexivity. Qed.

Example id_preserved_ex :
  supplied_id [("id", VNone); ("fiddler_session_id", VInt 9); ("session_id", VStr "s-3")]
  = Some (VStr "s-3")
  /\ option_map (lookup "id")
       (match normalize_session Ref.runtime Ref.clk
                (VDict [("id", VNone); ("fiddler_session_id", VInt 9);
                        ("session_id", VStr "s-3")]) with
        | Ok s => Some s | Raise _ => None end)
     = Some (Some (VStr "s-3")).
Proof. split; vm_compute; reflexivity. Qed.

Example missing_id_ex :
  option_map (lookup "id")
    (match normalize_session Ref.runtime Ref.clk
             (VDict [("url", VStr "http://example.com/")]) with
     | Ok s => Some s | Raise _ => None end)
  = Some (Some (VStr "missing-id-1700000000000")).
Proof. vm_compute. reflexivity. Qed.

(** ** Search *)

Section Search.

Variable R : Runtime.

Lemma compile_filter_malformed (pat : string) :
  malformed R pat = true -> compile_filter R pat = Raise ReError.
Proof.
  unfold malformed, compile_filter. intros H. apply andb_prop in H.
  destruct H as [H1 H2].
  destruct (String.eqb pat ""); [discriminate|].
  destruct (re_valid R pat); [discriminate | reflexivity].
Qed.

Lemma parse_filters_malformed (vc : view_clock) (q : query) :
  malformed R (qget_or q "host" "host_pattern") = true
  \/ malformed R (qget_or q "url" "url_pattern") = true ->
  exists e, parse_filters R vc q = Raise e.
Proof.
  intros H. unfold parse_filters.
  repeat match goal with
         | |- exists e, bind ?m _ = Raise e =>
             let E := fresh "E" in
             destruct m eqn:E; cbn [bind]; [|eexists; reflexivity]
         end.
  destruct H as [H | H]; apply compile_filter_malformed in H; congruence.
Qed.

(** C5, as amended.  A search whose host or URL pattern is refused by
    [re.compile] does not fail: it is answered with status 200, [success]
    false, the text of the caught error, no match counted and no session
    listed. *)
Theorem malformed_pattern_reply (vc : view_clock) (q : query) (b : bridge) :
  malformed R (qget_or q "host" "host_pattern") = true
  \/ malformed R (qget_or q "url" "url_pattern") = true ->
  exists e,
    search_sessions R vc q b
    = (200, {| success := false; total_matched := 0; sessions := [];
               error := Some (exc_str R e) |}).
Proof.
  intros H. destruct (parse_filters_malformed vc q H) as (e & He).
  exists e. unfold search_sessions. rewrite He. reflexivity.
Qed.

End Search.

(** With an unbalanced parenthesis as host pattern nothing is returned,
    while the same search without that pattern returns the three buffered
    records: C5 fails as it is stated. *)
Lemma malformed_pattern_returns_nothing :
  re_valid Ref.runtime "(" = false
  /\ search_sessions Ref.runtime Demo.vclk [("host", "(")] Demo.after_three
     = (200, {| success := false; total_matched := 0; sessions := [];
                error := Some (exc_str Ref.runtime ReError) |})
  /\ total_matched (snd (search_sessions Ref.runtime Demo.vclk [] Demo.after_three)) = 3
  /\ map (lookup "id")
         (sessions (snd (search_sessions Ref.runtime Demo.vclk [] Demo.after_three)))
     = [Some (VStr "8"); Some (VStr "7"); Some (VStr "7")].
Proof. repeat split; vm_compute; reflexivity. Qed.

Lemma malformed_pattern_reply_witness :
  (malformed Ref.runtime (qget_or [("url", "(")] "host" "host_pattern") = true
   \/ malformed Ref.runtime (qget_or [("url", "(")] "url" "url_pattern") = true)
  /\ exists e,
       search_sessions Ref.runtime Demo.vclk [("url", "(")] Demo.after_three
       = (200, {| success := false; total_matched := 0; sessions := [];
                  error := Some (exc_str Ref.runtime e) |}).
Proof.
  assert (H : malformed Ref.runtime (qget_or [("url", "(")] "host" "host_pattern") = true
              \/ malformed Ref.runtime (qget_or [("url", "(")] "url" "url_pattern") = true)
    by (right; vm_compute; reflexivity).
  split; [exact H|].
  exact (malformed_pattern_reply Ref.runtime Demo.vclk _ Demo.after_three H).
Defined.

Example search_host_filter_ex :
  map (lookup "host")
      (sessions (snd (search_sessions Ref.runtime Demo.vclk
                        [("host", "NEW"); ("status_min", "200")]
                        Demo.after_three)))
  = [Some (VStr "new.example")].
Proof. vm_compute. reflexivity. Qed.

Example search_status_range_ex :
  total_matched (snd (search_sessions Ref.runtime Demo.vclk
                        [("host", "example"); ("status_min", "400");
                         ("status_max", "599")]
                        Demo.after_three)) = 0.
Proof. vm_compute. reflexivity. Qed.

(** ** The decimal form of an integer *)

Lemma digit_char_value (d : Z) :
  0 <= d < 10 -> nat_of_ascii (PyStr.digit_char d) = (48 + Z.to_nat d)%nat.
Proof.
  intros H. unfold PyStr.digit_char. apply nat_ascii_embedding. lia.
Qed.

Lemma digits_value_digit (d : Z) (rest : string) (acc : Z) :
  0 <= d < 10 ->
  Ref.digits_value (String (PyStr.digit_char d) rest) acc
  = Ref.digits_value rest (10 * acc + d).
Proof.
  intros H. cbn [Ref.digits_value]. rewrite (digit_char_value d H).
  replace (Nat.leb 48 (48 + Z.to_nat d)) with true
    by (symmetry; apply Nat.leb_le; lia).
  replace (Nat.leb (48 + Z.to_nat d) 57) with true
    by (symmetry; apply Nat.leb_le; lia).
  cbn [andb]. f_equal. lia.
Qed.

Lemma digits_of_read_back (fuel : nat) :
  forall (n : Z) (rest : string),
    0 <= n < 10 ^ Z.of_nat fuel ->
    Ref.digits_value (PyStr.digits_of fuel n rest) 0 = Ref.digits_value rest n.
Proof.
  induction fuel as [|f IH]; intros n rest Hn.
  - simpl in Hn. assert (n = 0) by lia. subst n. reflexivity.
  - cbn [PyStr.digits_of].
    assert (Hmod : 0 <= n mod 10 < 10) by (apply Z.mod_pos_bound; lia).
    destruct (Z.ltb_spec n 10) as [Hlt | Hge].
    + rewrite digits_value_digit by exact Hmod.
      rewrite Z.mod_small by lia. f_equal.
    + rewrite IH.
      * rewrite digits_value_digit by exact Hmod. f_equal.
        pose proof (Z.div_mod n 10). lia.
      * split; [apply Z.div_pos; lia|].
        apply Z.div_lt_upper_bound; [lia|].
        rewrite Nat2Z.inj_succ, Z.pow_succ_r in Hn by lia. lia.
Qed.

(** The digits printed for a natural number read back as that number: the
    fuel of [of_Z] is enough. *)
Lemma of_Z_read_back (n : Z) : 0 <= n -> Ref.digits_value (PyStr.of_Z n) 0 = Some n.
Proof.
  intros Hn. unfold PyStr.of_Z.
  destruct (Z.ltb_spec n 0) as [Hneg | _]; [lia|].
  rewrite digits_of_read_back; [reflexivity|].
  split; [exact Hn|].
  rewrite Nat2Z.inj_succ, Z2Nat.id by apply Z.log2_nonneg.
  apply Z.lt_le_trans with (2 ^ Z.succ (Z.log2 n)).
  - destruct (Z.eq_dec n 0) as [-> | Hnz]; [reflexivity|].
    apply Z.log2_spec. lia.
  - apply Z.pow_le_mono_l. lia.
Qed.

(** ** Lengths of strings *)

Section StringLengths.

Local Open Scope nat_scope.

Lemma length_app_string (a b : string) :
  String.length (a ++ b) = String.length a + String.length b.
Proof. induction a as [|c a IH]; simpl; [reflexivity | now rewrite IH]. Qed.

Lemma take_length_le (n : nat) (s : string) : String.length (PyStr.take n s) <= n.
Proof.
  revert s. induction n as [|n IH]; intros [|c s]; simpl; try lia.
  specialize (IH s). lia.
Qed.

Lemma take_all (n : nat) (s : string) : String.length s <= n -> PyStr.take n s = s.
Proof.
  revert s. induction n as [|n IH]; intros [|c s]; simpl; intros H;
    try reflexivity; try lia.
  rewrite IH by lia. reflexivity.
Qed.

Lemma drop_length (n : nat) (s : string) :
  String.length (PyStr.drop n s) = String.length s - n.
Proof.
  revert s. induction n as [|n IH]; intros [|c s]; simpl; try lia. apply IH.
Qed.

Lemma digits_of_length (fuel : nat) :
  forall (n : Z) (acc : string) (k : nat),
    (0 <= n < 10 ^ Z.of_nat (S k))%Z ->
    String.length (PyStr.digits_of fuel n acc) <= S k + String.length acc.
Proof.
  induction fuel as [|f IH]; intros n acc k Hn; simpl; [lia|].
  destruct (Z.ltb_spec n 10) as [Hlt | Hge]; simpl; [lia|].
  destruct k as [|k].
  - change (10 ^ Z.of_nat 1)%Z with 10%Z in Hn. lia.
  - assert (Hdiv : (0 <= n / 10 < 10 ^ Z.of_nat (S k))%Z).
    { split; [apply Z.div_pos; lia|].
      apply Z.div_lt_upper_bound; [lia|].
      replace (10 * 10 ^ Z.of_nat (S k))%Z with (10 ^ Z.of_nat (S (S k)))%Z; [lia|].
      rewrite (Nat2Z.inj_succ (S k)), Z.pow_succ_r by lia. reflexivity. }
    specialize (IH (n / 10)%Z (String (PyStr.digit_char (n mod 10)) acc) k Hdiv).
    simpl in IH. lia.
Qed.

(** A number below [10 ^ k] is printed with at most [k] digits. *)
Lemma of_Z_length (z : Z) (k : nat) :
  (0 <= z < 10 ^ Z.of_nat (S k))%Z -> String.length (PyStr.of_Z z) <= S k.
Proof.
  intros H. unfold PyStr.of_Z.
  destruct (Z.ltb_spec z 0) as [Hneg | _]; [lia|].
  pose proof (digits_of_length (S (Z.to_nat (Z.log2 z))) z EmptyString k H) as Hd.
  simpl in Hd |- *. lia.
Qed.

Lemma join_length (sep : string) (parts : list string) (m : nat) :
  Forall (fun p => String.length p <= m) parts ->
  String.length (PyStr.join sep parts)
  <= (m + String.length sep) * List.length parts.
Proof.
  induction 1 as [|p rest Hp Hrest IH]; simpl; [lia|].
  destruct rest as [|p' rest'].
  - simpl. lia.
  - rewrite !length_app_string. simpl in IH |- *. lia.
Qed.

End StringLengths.

Lemma slice_length_le (s : string) (lo hi : option Z) :
  PyStr.len (PyStr.slice s lo hi)
  <= Z.max 0 (match hi with Some i => PyStr.clamp s i | None => PyStr.len s end
              - match lo with Some i => PyStr.clamp s i | None => 0 end).
Proof.
  unfold PyStr.slice, PyStr.len.
  pose proof (take_length_le
                (Z.to_nat (match hi with Some i => PyStr.clamp s i | None => PyStr.len s end
                           - match lo with Some i => PyStr.clamp s i | None => 0 end))
                (PyStr.drop (Z.to_nat match lo with Some i => PyStr.clamp s i | None => 0 end) s)).
  unfold PyStr.len in *. lia.
Qed.

Lemma slice_whole (s : string) (n : Z) :
  PyStr.len s <= n -> PyStr.slice s None (Some n) = s.
Proof.
  intros H. unfold PyStr.slice, PyStr.clamp, PyStr.len in *.
  destruct (Z.ltb_spec n 0) as [Hn | Hn]; [lia|].
  simpl. apply take_all. lia.
Qed.

(** ** Content extraction *)

Section Extraction.

Variable R : Runtime.
Hypothesis in_range : finditer_in_range R.

Lemma catalogue_names_short :
  Forall (fun p => PyStr.len (snd p) <= 26) security_patterns.
Proof.
  apply Forall_forall. intros p Hp.
  assert (H : forallb (fun p => PyStr.len (snd p) <=? 26) security_patterns = true)
    by (vm_compute; reflexivity).
  rewrite forallb_forall in H. apply Z.leb_le. now apply H.
Qed.

Lemma scan_match_ok (middle : string) (middle_start lo hi : Z) (name : string)
  (st : scan) (m : Z * Z) :
  PyStr.len name <= 26 ->
  lo <= middle_start + fst m <= hi ->
  Forall (snippet_ok lo hi) (suspicious_snippets st) ->
  Forall (snippet_ok lo hi) (suspicious_snippets (scan_match middle middle_start name st m)).
Proof.
  intros Hname Hpos Hst. unfold scan_match.
  destruct (negb (String.eqb (snippet_text middle m) "")); simpl; [|exact Hst].
  destruct (Z.ltb_spec (PyStr.len (snippet_text middle m)) 500) as [Hlen | _];
    [|exact Hst].
  destruct (existsb _ _); [exact Hst|].
  cbn [suspicious_snippets]. apply Forall_app. split; [exact Hst|].
  constructor; [|constructor].
  unfold snippet_ok. cbn [sn_code sn_pattern sn_position]. auto.
Qed.

Lemma scan_matches_ok (middle : string) (middle_start budget lo hi : Z)
  (name : string) (ms : list (Z * Z)) :
  PyStr.len name <= 26 ->
  Forall (fun m => lo <= middle_start + fst m <= hi) ms ->
  forall st,
    Forall (snippet_ok lo hi) (suspicious_snippets st) ->
    Forall (snippet_ok lo hi)
      (suspicious_snippets (scan_matches middle middle_start budget name ms st)).
Proof.
  intros Hname Hms. induction Hms as [|m ms Hm Hms IH]; intros st Hst; simpl.
  - exact Hst.
  - destruct (budget <=? bytes_used st); [exact Hst|].
    apply IH. now apply scan_match_ok.
Qed.

Lemma scan_patterns_ok (middle : string) (middle_start budget : Z)
  (patterns : list (string * string)) :
  Forall (fun p => PyStr.len (snd p) <= 26) patterns ->
  forall st,
    Forall (snippet_ok middle_start (middle_start + PyStr.len middle))
      (suspicious_snippets st) ->
    Forall (snippet_ok middle_start (middle_start + PyStr.len middle))
      (suspicious_snippets (scan_patterns R middle middle_start budget patterns st)).
Proof.
  induction 1 as [|[regex name] rest Hname Hrest IH]; intros st Hst; simpl.
  - exact Hst.
  - destruct (budget <=? bytes_used st); [exact Hst|].
    apply IH. destruct (re_valid R regex); [|exact Hst].
    apply scan_matches_ok; [exact Hname | | exact Hst].
    apply Forall_forall. intros m Hm.
    pose proof (in_range regex middle m Hm). lia.
Qed.

Lemma format_snippet_length (i : Z) (s : snippet) (lo hi : Z) :
  1 <= i < 100 -> 0 <= lo -> hi < 10 ^ 19 ->
  snippet_ok lo hi s ->
  (String.length (format_snippet i s) <= 564)%nat.
Proof.
  intros Hi Hlo Hhi (Hcode & Hname & Hpos).
  unfold format_snippet. rewrite !length_app_string.
  pose proof (of_Z_length i 1) as Hdi.
  pose proof (of_Z_length (sn_position s) 18) as Hdp.
  unfold PyStr.len in *. simpl String.length.
  assert ((String.length (PyStr.of_Z i) <= 2)%nat) by (apply Hdi; simpl; lia).
  assert ((String.length (PyStr.of_Z (sn_position s)) <= 19)%nat)
    by (apply Hdp; change (Z.of_nat 19) with 19; lia).
  lia.
Qed.

Lemma format_from_length (lo hi : Z) (l : list snippet) :
  0 <= lo -> hi < 10 ^ 19 ->
  Forall (snippet_ok lo hi) l ->
  forall i, 1 <= i -> i + Z.of_nat (List.length l) <= 100 ->
            Forall (fun p => (String.length p <= 564)%nat) (format_from i l).
Proof.
  intros Hlo Hhi. induction 1 as [|s l Hs Hl IH]; intros i Hi Hn; simpl.
  - constructor.
  - simpl List.length in Hn. constructor.
    + apply (format_snippet_length i s lo hi); auto; lia.
    + apply IH; lia.
Qed.

Lemma format_from_count (l : list snippet) (i : Z) :
  List.length (format_from i l) = List.length l.
Proof. revert i. induction l as [|s l IH]; intros i; simpl; [reflexivity | now rewrite IH]. Qed.

(** The formatted text of at most twenty snippets. *)
Lemma format_patterns_length (lo hi : Z) (l : list snippet) :
  0 <= lo -> hi < 10 ^ 19 ->
  Forall (snippet_ok lo hi) l ->
  PyStr.len (format_patterns l) <= 11320.
Proof.
  intros Hlo Hhi Hl. unfold format_patterns, PyStr.len.
  assert (Hfirst : Forall (snippet_ok lo hi) (firstn 20 l)).
  { apply Forall_forall. intros x Hx. rewrite Forall_forall in Hl.
    apply Hl. rewrite <- (firstn_skipn 20 l). apply in_or_app. now left. }
  pose proof (firstn_le_length 20 l) as Hcount.
  pose proof (format_from_length lo hi (firstn 20 l) Hlo Hhi Hfirst 1) as Hparts.
  pose proof (join_length (PyStr.nl ++ PyStr.nl) (format_from 1 (firstn 20 l)) 564) as Hjoin.
  rewrite format_from_count in Hjoin.
  change (String.length (PyStr.nl ++ PyStr.nl)) with 2%nat in Hjoin.
  assert (Hj := Hjoin (Hparts ltac:(lia) ltac:(lia))).
  nia.
Qed.

(** C2.  A body that fits the budget comes back whole as [head], with an
    empty tail and no snippet text, whatever the budget; and with the
    budget of the bridge, 24000 (indeed from 23320 on), the head, the tail
    and the snippet text of a longer body are together no longer than the
    budget. *)
Theorem extraction_within_budget (body_text : string) (content_type : pyval)
  (max_total : Z) :
  PyStr.len body_text <= PY_SSIZE_T_MAX ->
  let r := _extract_intelligent_content R body_text content_type max_total in
  (PyStr.len body_text <= max_total ->
   head r = body_text /\ tail r = "" /\ suspicious_patterns r = "")
  /\ (23320 <= max_total < PyStr.len body_text ->
      PyStr.len (head r) + PyStr.len (tail r) + PyStr.len (suspicious_patterns r)
      <= max_total).
Proof.
  intros Hmax. cbv zeta. split.
  - intros Hfit. unfold _extract_intelligent_content.
    destruct (String.eqb_spec body_text "") as [-> | _]; [repeat split|].
    destruct (Z.leb_spec (PyStr.len body_text) max_total); [repeat split | lia].
  - intros [Hbudget Hlong]. unfold _extract_intelligent_content.
    destruct (String.eqb_spec body_text "") as [-> | _].
    { unfold PyStr.len in Hlong. simpl in Hlong. lia. }
    destruct (Z.leb_spec (PyStr.len body_text) max_total); [lia|].
    set (n := PyStr.len body_text) in *.
    replace (Z.min 8000 n) with 8000 by lia.
    replace (Z.min 4000 (Z.max 0 (n - 8000))) with 4000 by lia.
    destruct (Z.ltb_spec (8000 + 4000) n) as [_ | Hn]; [|lia].
    cbn [head tail suspicious_patterns].
    assert (Hhead : PyStr.len (PyStr.slice body_text None (Some 8000)) <= 8000).
    { pose proof (slice_length_le body_text None (Some 8000)) as H1.
      unfold PyStr.clamp in H1. fold n in H1.
      destruct (Z.ltb_spec 8000 0); lia. }
    assert (Htail : PyStr.len (PyStr.slice body_text (Some (Z.opp 4000)) None) <= 4000).
    { pose proof (slice_length_le body_text (Some (Z.opp 4000)) None) as H1.
      unfold PyStr.clamp in H1. fold n in H1.
      destruct (Z.ltb_spec (Z.opp 4000) 0); lia. }
    set (middle := PyStr.slice body_text (Some 8000) (Some (n - 4000))).
    assert (Hmiddle : PyStr.len middle <= n - 12000).
    { pose proof (slice_length_le body_text (Some 8000) (Some (n - 4000))) as H1.
      unfold PyStr.clamp in H1. fold n in H1. fold middle in H1.
      destruct (Z.ltb_spec 8000 0); destruct (Z.ltb_spec (n - 4000) 0); lia. }
    set (st := if andb (negb (String.eqb middle "")) (0 <? max_total - 8000 - 4000)
               then scan_patterns R middle 8000 (max_total - 8000 - 4000)
                      security_patterns
                      {| suspicious_snippets := []; found := []; bytes_used := 0 |}
               else {| suspicious_snippets := []; found := []; bytes_used := 0 |}).
    assert (Hst : Forall (snippet_ok 8000 (8000 + PyStr.len middle))
                    (suspicious_snippets st)).
    { subst st. destruct (andb _ _); [|constructor].
      apply scan_patterns_ok; [apply catalogue_names_short | constructor]. }
    assert (Hpat : PyStr.len (match suspicious_snippets st with
                              | [] => ""
                              | _ => format_patterns (suspicious_snippets st)
                              end) <= 11320).
    { destruct (suspicious_snippets st) eqn:E; [unfold PyStr.len; simpl; lia|].
      rewrite <- E in *. apply (format_patterns_length 8000 (8000 + PyStr.len middle));
        [lia | | exact Hst].
      unfold PY_SSIZE_T_MAX in Hmax. fold n in Hmax.
      assert (2 ^ 63 < 10 ^ 19) by (vm_compute; reflexivity). lia. }
    lia.
Qed.

End Extraction.

Lemma find_all_range (atoms : list Ref.atom) (s : string) :
  forall pos skip m,
    In m (Ref.find_all atoms s pos skip) -> pos <= fst m < pos + PyStr.len s.
Proof.
  induction s as [|c s IH]; intros pos skip m Hm; simpl in Hm; [contradiction|].
  assert (Hlen : PyStr.len (String c s) = PyStr.len s + 1)
    by (unfold PyStr.len; simpl String.length; lia).
  assert (Hpos : 0 <= PyStr.len s) by (unfold PyStr.len; lia).
  destruct skip as [|k].
  - destruct (Ref.match_atoms atoms (String c s)) as [n|].
    + destruct Hm as [<- | Hm]; [simpl; lia|].
      apply IH in Hm. lia.
    + apply IH in Hm. lia.
  - apply IH in Hm. lia.
Qed.

Lemma ref_finditer_in_range : finditer_in_range Ref.runtime.
Proof.
  intros p s m. cbn [re_finditer Ref.runtime]. unfold Ref.rx_finditer.
  destruct (Ref.compile p) as [atoms|]; [|contradiction].
  intros Hm. apply find_all_range in Hm. lia.
Qed.

Lemma extraction_within_budget_witness :
  PyStr.len Demo.long_body <= PY_SSIZE_T_MAX
  /\ (PyStr.len Demo.long_body <= 24000 ->
      head (_extract_intelligent_content Ref.runtime Demo.long_body (VStr "text/javascript") 24000)
      = Demo.long_body
      /\ tail (_extract_intelligent_content Ref.runtime Demo.long_body
                 (VStr "text/javascript") 24000) = ""
      /\ suspicious_patterns
           (_extract_intelligent_content Ref.runtime Demo.long_body
              (VStr "text/javascript") 24000) = "")
  /\ (23320 <= 24000 < PyStr.len Demo.long_body ->
      PyStr.len (head (_extract_intelligent_content Ref.runtime Demo.long_body
                         (VStr "text/javascript") 24000))
      + PyStr.len (tail (_extract_intelligent_content Ref.runtime Demo.long_body
                           (VStr "text/javascript") 24000))
      + PyStr.len (suspicious_patterns
                     (_extract_intelligent_content Ref.runtime Demo.long_body
                        (VStr "text/javascript") 24000))
      <= 24000).
Proof.
  assert (H : PyStr.len Demo.long_body <= PY_SSIZE_T_MAX) by (vm_compute; discriminate).
  split; [exact H|].
  exact (extraction_within_budget Ref.runtime ref_finditer_in_range
           Demo.long_body (VStr "text/javascript") 24000 H).
Defined.

Example extraction_scan_ex :
  let r := _extract_intelligent_content Ref.runtime Scenarios.short_script
             (VStr "text/javascript") 13000 in
  PyStr.len Scenarios.short_script = 13772
  /\ patterns_found (meta r) = ["eval()"; "document.write()"]
  /\ patterns_count (meta r) = Some 2
  /\ suspicious_patterns r
     = "[1] eval() (position ~8804):" ++ PyStr.nl ++ "x = eval(payload);"
       ++ PyStr.nl ++ PyStr.nl
       ++ "[2] document.write() (position ~9239):" ++ PyStr.nl
       ++ "document.write(unescape('%3C'));"
  /\ sizes (meta r)
     = Some {| head_size := 8000; tail_size := 4000; patterns_size := 120;
               total_extracted := 12120 |}.
Proof. vm_compute. repeat split; reflexivity. Qed.

Example extraction_small_ex :
  let body := PyStr.nl ++ "x = eval(payload);" in
  _extract_intelligent_content Ref.runtime body (VStr "text/javascript") 24000
  = {| head := body; tail := ""; suspicious_patterns := "";
       meta := {| original_size := 19;
                  content_type := VStr "text/javascript";
                  extraction_method := "full_content";
                  patterns_found := [];
                  patterns_count := None;
                  sizes := None |} |}.
Proof. vm_compute. reflexivity. Qed.

Example body_smart_extract_ex :
  option_map
    (fun r => (br_response_truncated r, br_full_size r,
               match br_smart r with
               | SmartOk e =>
                   Some (extraction_method (meta e),
                         option_map (fun s => (head_size s, tail_size s)) (sizes (meta e)))
               | _ => None
               end))
    (match get_session_body Ref.runtime [("smart_extract", "TRUE")] Demo.with_script "30"
     with Ok r => Some r | Raise _ => None end)
  = Some (true, (54452, 0), Some ("intelligent", Some (8000, 4000))).
Proof. vm_compute. reflexivity. Qed.

(** ** Sanity checks *)

Example deque_append_ex :
  deque_append 3 [1; 2] 3 = [1; 2; 3]
  /\ deque_append 3 [1; 2; 3] 4 = [2; 3; 4]
  /\ deque_append 0 [] 1 = ([] : list Z).
Proof. repeat split; reflexivity. Qed.

Example is_immediately_suspicious_ex :
  is_immediately_suspicious Ref.runtime (Demo.stored Demo.failed_request) = true
  /\ is_immediately_suspicious Ref.runtime (Demo.stored Demo.other) = false
  /\ is_immediately_suspicious Ref.runtime (Demo.stored Demo.critical_phishing) = true
  /\ is_immediately_suspicious Ref.runtime [("ekfiddleComments", VInt 3)] = false.
Proof. repeat split; vm_compute; reflexivity. Qed.


Example lower_ex : PyStr.lower "High: JS Eval" = "high: js eval".
Proof. reflexivity. Qed.

Example strip_ex : PyStr.strip "  a b  " = "a b".
Proof. reflexivity. Qed.

Example slice_ex : PyStr.slice "abcdef" (Some (-2)) None = "ef".
Proof. reflexivity. Qed.

Example slice_ex2 : PyStr.slice "abcdef" None (Some 20) = "abcdef".
Proof. reflexivity. Qed.

Example find_ex : PyStr.find "abcabc" "c" 3 100 = 5.
Proof. reflexivity. Qed.

Example rfind_ex : PyStr.rfind "abcabc" "c" (-50) 4 = 2.
Proof. reflexivity. Qed.

Example of_Z_ex :
  PyStr.of_Z 500 = "500" /\ PyStr.of_Z (-7) = "-7" /\ PyStr.of_Z 0 = "0"
  /\ PyStr.of_Z 1700000000000 = "1700000000000" /\ PyStr.of_Z 1024 = "1024"
  /\ PyStr.of_Z 9 = "9" /\ PyStr.of_Z 10 = "10" /\ PyStr.of_Z (-120) = "-120".
Proof. repeat split; vm_compute; reflexivity. Qed.

Example decimal_one : PyFloat.decimal 10 1 = PyFloat.one.
Proof. vm_compute. reflexivity. Qed.

Example float_max_ex :
  PyFloat.max PyFloat.one (PyFloat.decimal 85 2) = PyFloat.one.
Proof. vm_compute. reflexivity. Qed.

Example float_to_int_ex : PyFloat.to_int (PyFloat.decimal 4045 1) = Ok 404.
Proof. vm_compute. reflexivity. Qed.

Example float_int_gt_ex :
  PyFloat.int_gt (10 ^ 12 + 1) (PyFloat.nearest (10 ^ 12)) = true
  /\ PyFloat.int_gt (10 ^ 12) (PyFloat.nearest (10 ^ 12)) = false.
Proof. split; vm_compute; reflexivity. Qed.

Example or_ex : Py.or (VStr "") (VInt 7) = VInt 7 /\ Py.or (VStr "a") (VInt 7) = VStr "a".
Proof. split; reflexivity. Qed.

Example contains_key_ex :
  Py.contains_key "id" (VList [VStr "id"]) = Ok true
  /\ Py.getitem (VList [VStr "id"]) "id" = Raise TypeError.
Proof. split; reflexivity. Qed.

Example urlparse_ex :
  Ref.parse_url "https://Example.com:8443/a?b" =
  Ok {| hostname := Some "example.com"; url_scheme := "https" |}.
Proof. reflexivity. Qed.

Example rx_finditer_ex :
  Ref.rx_finditer "ab" "xABabab" = [(1, 3); (3, 5); (5, 7)]
  /\ Ref.rx_finditer "aa" "aaaaa" = [(0, 2); (2, 4)]
  /\ Ref.rx_finditer "eval\s*\(" "x = EVAL  (y); eval(z)" = [(4, 11); (15, 20)]
  /\ Ref.rx_finditer "\\x[0-9a-fA-F]{2}" "a\x4fb\xZZ\xa" = [(1, 5)]
  /\ Ref.rx_finditer ("setTimeout\s*\([^)]*[" ++ dq ++ "\']") "setTimeout(f, 'go')" = [(0, 18)]
  /\ Ref.rx_valid "(" = false
  /\ forallb (fun p => Ref.rx_valid (fst p)) security_patterns = true.
Proof. repeat split; vm_compute; reflexivity. Qed.

Example normalize_ex :
  normalize_session Ref.runtime Ref.clk
    (VDict [("session_id", VInt 42); ("url", VStr "https://example.com/x");
            ("status", VStr "404")]) =
  Ok [ ("id", VStr "42"); ("url", VStr "https://example.com/x");
       ("host", VStr "example.com"); ("method", VStr ""); ("scheme", VStr "https");
       ("statusCode", VInt 404); ("contentType", VStr ""); ("contentLength", VInt 0);
       ("requestHeaders", VDict []); ("responseHeaders", VDict []);
       ("responseBody", VStr ""); ("requestBody", VStr "");
       ("received_at", VFloat Ref.t0);
       ("received_at_iso", VStr "2023-11-14T22:13:20Z");
       ("ekfiddleComments", VStr ""); ("ekfiddleFlags", VStr "");
       ("sessionFlags", VStr ""); ("timestamp", VStr "2023-11-14T22:13:20Z");
       ("fiddler_session_id", VStr "42") ].
Proof. vm_compute. reflexivity. Qed.

Example normalize_handler_ex :
  option_map (fun r => (lookup "id" r, lookup "ekfiddleComments" r))
    (match normalize_session Ref.runtime Ref.clk
             (VDict [("url", VInt 5)]) with Ok r => Some r | Raise _ => None end)
  = Some (Some (VStr "error-1700000000000"),
          Some (VStr ("normalization_error: " ++ exc_str Ref.runtime TypeError))).
Proof. vm_compute. reflexivity. Qed.

Example normalize_raises_ex :
  normalize_session Ref.runtime Ref.clk (VList [VStr "id"]) = Raise TypeError.
Proof. vm_compute. reflexivity. Qed.

(** * Further properties *)

(** ** What the buffers hold *)

Section MoreRuns.

Variable R : Runtime.

Local Open Scope list_scope.

(** X3.  Whatever the requests, a record sits in the flagged buffer only if the
    retention test accepted it. *)
Theorem flagged_only_suspicious (rs : list request) (s : pydict) :
  In s (suspicious_sessions (run R rs)) -> is_immediately_suspicious R s = true.
Proof.
  revert s. induction rs as [|r rs IH] using rev_ind; intros s Hs.
  - destruct Hs.
  - rewrite run_snoc in Hs. destruct r as [c data | body]; simpl in Hs.
    + rewrite receive_session_step in Hs.
      destruct (accepted R c data) as [sess|]; [|now apply IH].
      cbn [suspicious_sessions] in Hs.
      destruct (is_immediately_suspicious R sess) eqn:E; [|now apply IH].
      apply deque_append_incl in Hs. destruct Hs as [Hs | ->]; [now apply IH | exact E].
    + rewrite clear_sessions_step in Hs.
      destruct (clear_request body) as [[|]|]; cbn [suspicious_sessions] in Hs;
        try contradiction; now apply IH.
Qed.

Lemma filter_snoc {A : Type} (f : A -> bool) (l : list A) (x : A) :
  filter f (l ++ [x]) = filter f l ++ (if f x then [x] else []).
Proof. rewrite filter_app. simpl. destruct (f x); reflexivity. Qed.

(** X2.  After any sequence of ingests the flagged buffer is the window of the
    last 1000 retained records, in the order of their arrival. *)
Theorem flagged_window (events : list (clock * option pyval)) :
  suspicious_sessions (ingest_all R events)
  = lastn SUSPICIOUS_MAXLEN (filter (is_immediately_suspicious R) (ingested R events)).
Proof.
  induction events as [|[c data] rest IH] using rev_ind.
  - reflexivity.
  - rewrite ingest_all_snoc, ingested_snoc, receive_session_step.
    destruct (accepted R c data) as [sess|]; simpl.
    + rewrite filter_snoc.
      destruct (is_immediately_suspicious R sess).
      * rewrite IH. apply deque_append_lastn.
      * rewrite app_nil_r. exact IH.
    + rewrite app_nil_r. exact IH.
Qed.

End MoreRuns.
(** ** Payloads that are not objects *)

Section NonMapping.

Variable R : Runtime.

Lemma has_alias_non_mapping (d : pyval) (k : string) :
  is_mapping d = false ->
  has_alias d k = Ok false \/ exists e, has_alias d k = Raise e.
Proof.
  intros H. unfold has_alias.
  destruct d as [| b | z | f | s | l | kvs]; try discriminate;
    try (right; eexists; reflexivity); cbn [Py.contains_key bind].
  - destruct (PyStr.contains k s); [right; eexists; reflexivity | now left].
  - destruct (existsb _ l); [right; eexists; reflexivity | now left].
Qed.

Lemma get_default_non_mapping (d : pyval) (k : string) (dflt : pyval) :
  is_mapping d = false -> Py.get_default d k dflt = Raise AttributeError.
Proof. destruct d; intros H; try discriminate; reflexivity. Qed.

Lemma normalize_body_non_mapping (c : clock) (d : pyval) :
  is_mapping d = false -> exists e, normalize_body R c d = Raise e.
Proof.
  intros H. unfold normalize_body, alias_chain.
  destruct (has_alias_non_mapping d "id" H) as [-> | (e & ->)];
    [cbn [bind] | eexists; reflexivity].
  destruct (has_alias_non_mapping d "session_id" H) as [-> | (e & ->)];
    [cbn [bind] | eexists; reflexivity].
  destruct (has_alias_non_mapping d "fiddler_session_id" H) as [-> | (e & ->)];
    [cbn [bind] | eexists; reflexivity].
  rewrite (get_default_non_mapping d "url" _ H). eexists. reflexivity.
Qed.

Lemma normalize_handler_non_mapping (c : clock) (d : pyval) (e : exn) :
  is_mapping d = false -> exists e', normalize_handler R c d e = Raise e'.
Proof.
  intros H. unfold normalize_handler, id_aliases. cbn [alias_loop].
  destruct (has_alias_non_mapping d "id" H) as [-> | (e1 & ->)];
    [cbn [bind] | eexists; reflexivity].
  destruct (has_alias_non_mapping d "session_id" H) as [-> | (e1 & ->)];
    [cbn [bind] | eexists; reflexivity].
  destruct (has_alias_non_mapping d "fiddler_session_id" H) as [-> | (e1 & ->)];
    [cbn [bind] | eexists; reflexivity].
  destruct (PyFloat.millis (t_exc_id c)); cbn [bind]; [|eexists; reflexivity].
  rewrite (get_default_non_mapping d "url" _ H). eexists. reflexivity.
Qed.

(** X4.  A payload that is not a JSON object makes [normalize_session] raise
    out of its own handler, and [receive_session] then answers 400 or 500
    and leaves both buffers as they were. *)
Theorem non_mapping_never_stored (c : clock) (d : pyval) (b : bridge) :
  is_mapping d = false ->
  (exists e, normalize_session R c d = Raise e)
  /\ fst (receive_session R c (Some d) b) = b
  /\ (snd (receive_session R c (Some d) b) = (400, None)
      \/ snd (receive_session R c (Some d) b) = (500, None)).
Proof.
  intros H.
  assert (Hn : exists e, normalize_session R c d = Raise e).
  { unfold normalize_session.
    destruct (normalize_body_non_mapping c d H) as (e & ->). cbn [try_except].
    apply normalize_handler_non_mapping. exact H. }
  split; [exact Hn|]. destruct Hn as (e & He).
  unfold receive_session. destruct (Py.truthy d); cbn [negb].
  - rewrite He. split; [reflexivity | now right].
  - split; [reflexivity | now left].
Qed.

End NonMapping.

Lemma non_mapping_never_stored_witness :
  is_mapping (VList [VStr "id"]) = false
  /\ (exists e, normalize_session Ref.runtime Ref.clk (VList [VStr "id"]) = Raise e)
  /\ fst (receive_session Ref.runtime Ref.clk (Some (VList [VStr "id"])) Demo.after_three)
     = Demo.after_three
  /\ (snd (receive_session Ref.runtime Ref.clk (Some (VList [VStr "id"])) Demo.after_three)
      = (400, None)
      \/ snd (receive_session Ref.runtime Ref.clk (Some (VList [VStr "id"]))
                Demo.after_three) = (500, None)).
Proof.
  assert (H : is_mapping (VList [VStr "id"]) = false) by reflexivity.
  split; [exact H|].
  exact (non_mapping_never_stored Ref.runtime Ref.clk _ Demo.after_three H).
Defined.

(** ** Ingest, then look up *)

Section RoundTrip.

Variable R : Runtime.

Local Open Scope list_scope.

Lemma normalize_handler_id (c : clock) (d : pyval) (e : exn) (sess : pydict) :
  normalize_handler R c d e = Ok sess -> exists sid, lookup "id" sess = Some (VStr sid).
Proof.
  intros H. unfold normalize_handler in H.
  bind_inv H. injection H as <-. eexists. reflexivity.
Qed.

Lemma normalize_session_id (c : clock) (d : pyval) (sess : pydict) :
  normalize_session R c d = Ok sess -> exists sid, lookup "id" sess = Some (VStr sid).
Proof.
  unfold normalize_session.
  destruct (normalize_body R c d) as [s|e] eqn:Hb; cbn [try_except].
  - intros H. injection H as <-.
    destruct (normalize_body_ok R c d s Hb) as (found & sid & t & iso & _ & _ & Hid & _).
    eauto.
  - apply normalize_handler_id.
Qed.

Lemma deque_append_last {A : Type} (n : nat) (q : list A) (x : A) :
  (0 < n)%nat -> exists q', deque_append n q x = q' ++ [x].
Proof.
  intros Hn. unfold deque_append. rewrite length_app. simpl.
  rewrite skipn_app.
  replace (List.length q + 1 - n - List.length q)%nat with 0%nat by lia.
  simpl. eexists. reflexivity.
Qed.

Lemma accepted_then_found (c : clock) (data : option pyval) (b : bridge) (sess : pydict) :
  accepted R c data = Some sess ->
  exists sid,
    lookup "id" sess = Some (VStr sid)
    /\ snd (receive_session R c data b) = (201, Some (VStr sid))
    /\ find_session R (fst (receive_session R c data b)) sid = Some sess.
Proof.
  intros Hacc.
  assert (Hid : exists sid, lookup "id" sess = Some (VStr sid)).
  { unfold accepted in Hacc. destruct data as [d|]; [|discriminate].
    destruct (Py.truthy d); [|discriminate].
    destruct (normalize_session R c d) as [s|e] eqn:Hn; [|discriminate].
    injection Hacc as <-. exact (normalize_session_id c d s Hn). }
  destruct Hid as (sid & Hid). exists sid.
  split; [exact Hid|]. split.
  - unfold receive_session, accepted in *. destruct data as [d|]; [|discriminate].
    destruct (Py.truthy d); [|discriminate]. cbn [negb].
    destruct (normalize_session R c d) as [s|e]; [|discriminate].
    injection Hacc as ->. cbn [snd]. now rewrite Hid.
  - rewrite receive_session_step, Hacc. unfold find_session. cbn [live_sessions].
    destruct (deque_append_last LIVE_MAXLEN (live_sessions b) sess) as (q' & ->).
    { unfold LIVE_MAXLEN. lia. }
    rewrite rev_app_distr. simpl.
    unfold id_matches, Py.dget_default. rewrite Hid. cbn [py_str].
    now rewrite String.eqb_refl.
Qed.


(** X8.  A record whose [ekfiddleComments] is a truthy value that is no string
    is stored like any other, but it is never flagged as suspicious and
    its details cannot be read: the request for them is answered with
    status 500. *)
Theorem unreadable_annotation_record (c : clock) (vc : view_clock)
  (data : option pyval) (b : bridge) (sess : pydict) :
  accepted R c data = Some sess ->
  Py.truthy (Py.dget sess "ekfiddleComments") = true ->
  is_text (Py.dget sess "ekfiddleComments") = false ->
  exists sid,
    snd (receive_session R c data b) = (201, Some (VStr sid))
    /\ suspicious_sessions (fst (receive_session R c data b)) = suspicious_sessions b
    /\ get_session_details R vc (fst (receive_session R c data b)) sid = (500, None).
Proof.
  intros Hacc Ht Hs.
  destruct (accepted_then_found c data b sess Hacc) as (sid & _ & Hreply & Hfind).
  assert (Hek : ekfiddle_text sess = Raise AttributeError).
  { unfold ekfiddle_text, Py.or. rewrite !Ht.
    destruct (Py.dget sess "ekfiddleComments"); try reflexivity; discriminate Hs. }
  exists sid. split; [exact Hreply|]. split.
  - rewrite receive_session_step, Hacc. cbn [suspicious_sessions].
    unfold is_immediately_suspicious. now rewrite Hek.
  - unfold get_session_details. rewrite Hfind.
    unfold _build_session_detail, _format_session_overview, _quick_risk_assessment.
    rewrite Hek. destruct (session_status R sess); reflexivity.
Qed.

End RoundTrip.


(** ** After a clear *)

Section AfterClear.

Variable R : Runtime.

(** X9.  Once a clear has been carried out, every lookup by id is answered
    "not found" and every search returns no session, until the next
    ingest. *)
Theorem cleared_buffer_answers_empty (body : option pyval) (b : bridge) (flagged : bool) :
  clear_request body = Some flagged ->
  let b' := fst (clear_sessions body b) in
  live_sessions b' = []
  /\ (forall session_id vc q,
        find_session R b' session_id = None
        /\ get_session_details R vc b' session_id = (404, None)
        /\ get_session_headers R b' session_id = (404, None)
        /\ get_session_body R q b' session_id = Ok body_not_found)
  /\ (forall vc q,
        sessions (snd (search_sessions R vc q b')) = []
        /\ total_matched (snd (search_sessions R vc q b')) = 0).
Proof.
  intros Hreq. cbv zeta.
  assert (Hlive : live_sessions (fst (clear_sessions body b)) = []).
  { rewrite clear_sessions_step, Hreq. destruct flagged; reflexivity. }
  split; [exact Hlive|]. split.
  - intros session_id vc q.
    unfold get_session_details, get_session_headers, get_session_body, find_session.
    rewrite Hlive. repeat split; reflexivity.
  - intros vc q. unfold search_sessions. rewrite Hlive. cbn [rev search_loop].
    destruct (parse_filters R vc q); split; reflexivity.
Qed.

End AfterClear.

Lemma cleared_buffer_answers_empty_witness :
  clear_request (Some (VDict [])) = Some false
  /\ live_sessions (fst (clear_sessions (Some (VDict [])) Demo.after_three)) = []
  /\ (forall session_id vc q,
        find_session Ref.runtime (fst (clear_sessions (Some (VDict [])) Demo.after_three))
          session_id = None
        /\ get_session_details Ref.runtime vc
             (fst (clear_sessions (Some (VDict [])) Demo.after_three)) session_id
           = (404, None)
        /\ get_session_headers Ref.runtime
             (fst (clear_sessions (Some (VDict [])) Demo.after_three)) session_id
           = (404, None)
        /\ get_session_body Ref.runtime q
             (fst (clear_sessions (Some (VDict [])) Demo.after_three)) session_id
           = Ok body_not_found)
  /\ (forall vc q,
        sessions (snd (search_sessions Ref.runtime vc q
                         (fst (clear_sessions (Some (VDict [])) Demo.after_three)))) = []
        /\ total_matched (snd (search_sessions Ref.runtime vc q
                                 (fst (clear_sessions (Some (VDict [])) Demo.after_three))))
           = 0).
Proof.
  assert (H : clear_request (Some (VDict [])) = Some false) by reflexivity.
  split; [exact H|].
  exact (cleared_buffer_answers_empty Ref.runtime _ Demo.after_three false H).
Defined.
(** ** Retention and risk *)

Section MoreRisk.

Variable R : Runtime.

Lemma falsy_int (v : pyval) :
  int_of_str R "" = None ->
  Py.truthy v = false ->
  except_value_type (py_int R v) (Ok 200) = Ok 0
  \/ except_value_type (py_int R v) (Ok 200) = Ok 200.
Proof.
  intros Hempty Hv. destruct v as [| b | z | f | s | l | kvs]; cbn in Hv |- *.
  - now right.
  - subst b. now left.
  - apply negb_false_iff, Z.eqb_eq in Hv. subst z. now left.
  - destruct f; try discriminate. now left.
  - apply negb_false_iff, String.eqb_eq in Hv. subst s. rewrite Hempty. now right.
  - now right.
  - now right.
Qed.

(** X10.  The retention test and the risk flag agree: where the risk assessment
    of a record returns, the record is retained as suspicious exactly when
    the assessment carries a flag. *)
Theorem retention_matches_flag (session : pydict) (a : assessment) :
  int_of_str R "" = None ->
  _quick_risk_assessment R session = Ok a ->
  is_immediately_suspicious R session
  = match flag a with Some _ => true | None => false end.
Proof.
  intros Hempty H. unfold _quick_risk_assessment in H.
  apply bind_ok_inv in H. destruct H as (status & Hst & H).
  apply bind_ok_inv in H. destruct H as (ek & Hek & H).
  unfold is_immediately_suspicious. rewrite Hek. cbn [bind].
  destruct (String.eqb ek "") eqn:Eek; cbn [negb] in H |- *.
  - assert (Hflag : match flag a with Some _ => true | None => false end
                    = (400 <=? status)).
    { destruct (400 <=? status); injection H as <-; reflexivity. }
    rewrite Hflag. clear H Hflag.
    unfold session_status, Py.dget in Hst. unfold Py.dget_default.
    destruct (lookup "statusCode" session) as [v|].
    + unfold Py.or in Hst. destruct (Py.truthy v) eqn:Ev.
      * destruct (py_int R v) as [z|e]; cbn in Hst |- *.
        -- now injection Hst as ->.
        -- destruct (is_value_or_type_error e); [|discriminate].
           injection Hst as <-. reflexivity.
      * cbn in Hst. injection Hst as <-.
        destruct (falsy_int v Hempty Ev) as [-> | ->]; reflexivity.
    + cbn in Hst |- *. injection Hst as <-. reflexivity.
  - destruct (keyword_scan _ _). injection H as <-. reflexivity.
Qed.



(** X12.  A malware-family term anywhere in the annotation gives score 1.0 and
    level CRITICAL, whatever severity the annotation starts with. *)
Theorem malware_term_is_critical (session : pydict) (text : string) (status : Z) :
  ekfiddle_text session = Ok text ->
  String.eqb text "" = false ->
  session_status R session = Ok status ->
  any_in ["exploit"; "malware"; "trojan"; "backdoor"; "ransomware"] (PyStr.lower text)
  = true ->
  exists a,
    _quick_risk_assessment R session = Ok a
    /\ score a = s_1_0
    /\ level a = "CRITICAL".
Proof.
  intros Hek Hne Hst Hmal. unfold _quick_risk_assessment.
  rewrite Hst, Hek. cbn [bind]. rewrite Hne. cbn [negb].
  unfold keyword_scan, severity_of. rewrite Hmal.
  destruct (leading "critical" (PyStr.lower text)); [|destruct (leading "high" _);
    [|destruct (leading "medium" _); [|destruct (leading "low" _)]]];
    (eexists; split; [reflexivity | split; [vm_compute; reflexivity | reflexivity]]).
Qed.

End MoreRisk.

Lemma retention_matches_flag_witness :
  int_of_str Ref.runtime "" = None
  /\ (exists a,
        _quick_risk_assessment Ref.runtime (Demo.stored Demo.failed_request) = Ok a
        /\ is_immediately_suspicious Ref.runtime (Demo.stored Demo.failed_request)
           = match flag a with Some _ => true | None => false end).
Proof.
  assert (H : int_of_str Ref.runtime "" = None) by reflexivity.
  split; [exact H|].
  destruct (_quick_risk_assessment Ref.runtime (Demo.stored Demo.failed_request))
    as [a|e] eqn:E; [|vm_compute in E; discriminate E].
  exists a. split; [reflexivity|].
  exact (retention_matches_flag Ref.runtime _ a H E).
Defined.


Lemma malware_term_is_critical_witness :
  ekfiddle_text [("sessionFlags", VStr "low: Trojan dropper")] = Ok "low: Trojan dropper"
  /\ String.eqb "low: Trojan dropper" "" = false
  /\ session_status Ref.runtime [("sessionFlags", VStr "low: Trojan dropper")] = Ok 0
  /\ any_in ["exploit"; "malware"; "trojan"; "backdoor"; "ransomware"]
       (PyStr.lower "low: Trojan dropper") = true
  /\ exists a,
       _quick_risk_assessment Ref.runtime [("sessionFlags", VStr "low: Trojan dropper")]
       = Ok a
       /\ score a = s_1_0
       /\ level a = "CRITICAL".
Proof.
  assert (H1 : ekfiddle_text [("sessionFlags", VStr "low: Trojan dropper")]
               = Ok "low: Trojan dropper") by reflexivity.
  assert (H2 : String.eqb "low: Trojan dropper" "" = false) by reflexivity.
  assert (H3 : session_status Ref.runtime [("sessionFlags", VStr "low: Trojan dropper")]
               = Ok 0) by reflexivity.
  assert (H4 : any_in ["exploit"; "malware"; "trojan"; "backdoor"; "ransomware"]
                 (PyStr.lower "low: Trojan dropper") = true) by reflexivity.
  split; [exact H1 | split; [exact H2 | split; [exact H3 | split; [exact H4|]]]].
  exact (malware_term_is_critical Ref.runtime _ _ _ H1 H2 H3 H4).
Defined.
(** ** The shape of a stored record *)

Section StoredShape.

Variable R : Runtime.

Lemma normalize_body_shape (c : clock) (d : pyval) (sess : pydict) :
  normalize_body R c d = Ok sess ->
  exists sid code clen t comments flags session_flags,
    lookup "id" sess = Some (VStr sid)
    /\ lookup "statusCode" sess = Some (VInt code)
    /\ lookup "contentLength" sess = Some (VInt clen)
    /\ lookup "received_at" sess = Some (VFloat t)
    /\ lookup "ekfiddleComments" sess = Some comments
    /\ lookup "ekfiddleFlags" sess = Some flags
    /\ lookup "sessionFlags" sess = Some session_flags
    /\ get_or1 d "ekfiddleComments" (VStr "") = Ok comments
    /\ get_or1 d "ekfiddleFlags" (VStr "") = Ok flags
    /\ get_or1 d "sessionFlags" (VStr "") = Ok session_flags.
Proof.
  intros H. unfold normalize_body in H.
  bind_inv H. injection H as <-.
  do 7 eexists.
  repeat (split; [first [reflexivity | eassumption]|]). eassumption.
Qed.

Lemma normalize_handler_shape (c : clock) (d : pyval) (e : exn) (sess : pydict) :
  normalize_handler R c d e = Ok sess ->
  exists sid,
    lookup "id" sess = Some (VStr sid)
    /\ lookup "statusCode" sess = Some (VInt 0)
    /\ lookup "contentLength" sess = Some (VInt 0)
    /\ lookup "received_at" sess = Some (VFloat (t_exc_recv c))
    /\ lookup "ekfiddleComments" sess
       = Some (VStr ("normalization_error: " ++ exc_str R e))
    /\ lookup "ekfiddleFlags" sess = Some (VStr "")
    /\ lookup "sessionFlags" sess = Some (VStr "").
Proof.
  intros H. unfold normalize_handler in H.
  bind_inv H. injection H as <-. eexists. repeat split; reflexivity.
Qed.

(** X5.  Whatever the payload says, a record that normalization returns has a
    string as [id], integers as [statusCode] and [contentLength] and a
    float as [received_at], so that reading its status cannot fail. *)
Theorem stored_record_shape (c : clock) (d : pyval) (sess : pydict) :
  normalize_session R c d = Ok sess ->
  exists sid code clen t,
    lookup "id" sess = Some (VStr sid)
    /\ lookup "statusCode" sess = Some (VInt code)
    /\ lookup "contentLength" sess = Some (VInt clen)
    /\ lookup "received_at" sess = Some (VFloat t)
    /\ session_status R sess = Ok code.
Proof.
  unfold normalize_session.
  destruct (normalize_body R c d) as [s|e] eqn:Hb; cbn [try_except]; intros H.
  - injection H as <-.
    destruct (normalize_body_shape c d s Hb)
      as (sid & code & clen & t & _ & _ & _ & Hi & Hc & Hl & Ht & _).
    exists sid, code, clen, t. repeat (split; [assumption|]).
    apply session_status_int. unfold Py.dget. now rewrite Hc.
  - destruct (normalize_handler_shape c d e sess H) as (sid & Hi & Hc & Hl & Ht & _).
    exists sid, 0, 0, (t_exc_recv c). repeat (split; [assumption|]).
    apply session_status_int. unfold Py.dget. now rewrite Hc.
Qed.

Lemma stored_annotation_text (kvs : pydict) (k : string) (stored : pyval) :
  match Py.dget kvs k with VStr _ => true | v => negb (Py.truthy v) end = true ->
  get_or1 (VDict kvs) k (VStr "") = Ok stored ->
  exists s, stored = VStr s.
Proof.
  intros Hk H. unfold get_or1 in H. cbn [Py.get Py.get_default bind] in H.
  change (Py.dget_default kvs k VNone) with (Py.dget kvs k) in H.
  injection H as <-. unfold Py.or.
  destruct (Py.dget kvs k) as [| b | z | f | s | l | kvs']; cbn in Hk |- *;
    try (apply negb_true_iff in Hk; rewrite Hk; eauto).
  - eauto.
  - destruct (negb (String.eqb s "")); eauto.
Qed.

(** X6.  The risk assessment of a stored record returns whenever the three
    annotation fields of its payload were strings, absent or falsy; the
    record of the handler is always assessed. *)
Theorem stored_record_is_assessed (c : clock) (kvs : pydict) (sess : pydict) :
  annotation_texts kvs = true ->
  normalize_session R c (VDict kvs) = Ok sess ->
  exists a, _quick_risk_assessment R sess = Ok a.
Proof.
  intros Hann Hn.
  assert (Hboth : (exists code, session_status R sess = Ok code)
                  /\ exists text, ekfiddle_text sess = Ok text).
  { unfold normalize_session in Hn.
    destruct (normalize_body R c (VDict kvs)) as [s|e] eqn:Hb; cbn [try_except] in Hn.
    - injection Hn as <-.
      destruct (normalize_body_shape c _ s Hb)
        as (sid & code & clen & t & cm & fl & sf & _ & Hc & _ & _ & Hcm & Hfl & Hsf
            & Gcm & Gfl & Gsf).
      split.
      { exists code. apply session_status_int. unfold Py.dget. now rewrite Hc. }
      unfold annotation_texts in Hann. cbn [forallb] in Hann.
      apply andb_prop in Hann. destruct Hann as [A1 Hann].
      apply andb_prop in Hann. destruct Hann as [A2 Hann].
      apply andb_prop in Hann. destruct Hann as [A3 _].
      destruct (stored_annotation_text kvs _ cm A1 Gcm) as (s1 & ->).
      destruct (stored_annotation_text kvs _ sf A2 Gsf) as (s2 & ->).
      destruct (stored_annotation_text kvs _ fl A3 Gfl) as (s3 & ->).
      unfold ekfiddle_text, Py.dget. rewrite Hcm, Hfl, Hsf. unfold py_strip.
      destruct s1, s2, s3; eexists; reflexivity.
    - destruct (normalize_handler_shape c _ e sess Hn)
        as (sid & _ & Hc & _ & _ & Hcm & Hfl & Hsf).
      split.
      { exists 0. apply session_status_int. unfold Py.dget. now rewrite Hc. }
      unfold ekfiddle_text, Py.dget. rewrite Hcm, Hfl, Hsf. unfold py_strip.
      eexists; reflexivity. }
  destruct Hboth as ((code & Hst) & (text & Hek)).
  unfold _quick_risk_assessment. rewrite Hst, Hek. cbn [bind].
  destruct (negb (String.eqb text "")).
  - destruct (keyword_scan _ _). eexists; reflexivity.
  - destruct (400 <=? code); eexists; reflexivity.
Qed.

End StoredShape.

Lemma stored_record_shape_witness :
  normalize_session Ref.runtime Ref.clk
    (VDict [("id", VInt 3); ("statusCode", VStr "n/a"); ("contentLength", VList [])])
  = Ok (Demo.stored
          (VDict [("id", VInt 3); ("statusCode", VStr "n/a"); ("contentLength", VList [])]))
  /\ exists sid code clen t,
       lookup "id"
         (Demo.stored
            (VDict [("id", VInt 3); ("statusCode", VStr "n/a"); ("contentLength", VList [])]))
       = Some (VStr sid)
       /\ lookup "statusCode"
            (Demo.stored
               (VDict [("id", VInt 3); ("statusCode", VStr "n/a");
                       ("contentLength", VList [])]))
          = Some (VInt code)
       /\ lookup "contentLength"
            (Demo.stored
               (VDict [("id", VInt 3); ("statusCode", VStr "n/a");
                       ("contentLength", VList [])]))
          = Some (VInt clen)
       /\ lookup "received_at"
            (Demo.stored
               (VDict [("id", VInt 3); ("statusCode", VStr "n/a");
                       ("contentLength", VList [])]))
          = Some (VFloat t)
       /\ session_status Ref.runtime
            (Demo.stored
               (VDict [("id", VInt 3); ("statusCode", VStr "n/a");
                       ("contentLength", VList [])]))
          = Ok code.
Proof.
  assert (H : normalize_session Ref.runtime Ref.clk
                (VDict [("id", VInt 3); ("statusCode", VStr "n/a");
                        ("contentLength", VList [])])
              = Ok (Demo.stored
                      (VDict [("id", VInt 3); ("statusCode", VStr "n/a");
                              ("contentLength", VList [])])))
    by (vm_compute; reflexivity).
  split; [exact H|].
  exact (stored_record_shape Ref.runtime Ref.clk _ _ H).
Defined.

Lemma stored_record_is_assessed_witness :
  annotation_texts [("id", VStr "21"); ("ekfiddleComments", VStr "High: eval"); ("url", VInt 5)]
  = true
  /\ normalize_session Ref.runtime Ref.clk
       (VDict [("id", VStr "21"); ("ekfiddleComments", VStr "High: eval"); ("url", VInt 5)])
     = Ok (Demo.stored
             (VDict [("id", VStr "21"); ("ekfiddleComments", VStr "High: eval");
                     ("url", VInt 5)]))
  /\ exists a,
       _quick_risk_assessment Ref.runtime
         (Demo.stored
            (VDict [("id", VStr "21"); ("ekfiddleComments", VStr "High: eval");
                    ("url", VInt 5)])) = Ok a.
Proof.
  assert (H1 : annotation_texts
                 [("id", VStr "21"); ("ekfiddleComments", VStr "High: eval");
                  ("url", VInt 5)] = true) by reflexivity.
  assert (H2 : normalize_session Ref.runtime Ref.clk
                 (VDict [("id", VStr "21"); ("ekfiddleComments", VStr "High: eval");
                         ("url", VInt 5)])
               = Ok (Demo.stored
                       (VDict [("id", VStr "21"); ("ekfiddleComments", VStr "High: eval");
                               ("url", VInt 5)])))
    by (vm_compute; reflexivity).
  split; [exact H1 | split; [exact H2|]].
  exact (stored_record_is_assessed Ref.runtime Ref.clk _ _ H1 H2).
Defined.
(** ** What a search returns *)

Lemma subseq_nil_l {A : Type} (l : list A) : subseq [] l.
Proof. induction l; constructor; assumption. Qed.

Lemma subseq_in {A : Type} (picked l : list A) (x : A) :
  subseq picked l -> In x picked -> In x l.
Proof.
  induction 1 as [| y picked l _ IH | y picked l _ IH]; intros Hin.
  - exact Hin.
  - right. apply IH, Hin.
  - destruct Hin as [-> | Hin]; [now left | right; apply IH, Hin].
Qed.

Section MoreSearch.

Variable R : Runtime.
Variable vc : view_clock.

Lemma parse_filters_limit (q : query) (f : search_filters) :
  parse_filters R vc q = Ok f -> 1 <= limit f <= 500.
Proof.
  intros H. unfold parse_filters in H. bind_inv H.
  injection H as <-. cbn [limit]. lia.
Qed.

Lemma search_loop_spec (f : search_filters) (sessions : list pydict) :
  forall (out : list pydict) (n : Z) (out' : list pydict) (n' : Z),
    search_loop R vc f sessions out n = Ok (out', n') ->
    exists picked found,
      subseq picked sessions
      /\ Forall2 (fun s o => search_one R vc f s = Ok (Some o)) picked found
      /\ out' = (out ++ found)%list
      /\ n' = n + Z.of_nat (List.length found)
      /\ (Z.of_nat (List.length out) < limit f ->
          Z.of_nat (List.length out') <= limit f).
Proof.
  induction sessions as [|s rest IH]; intros out n out' n' H;
    cbn [search_loop] in H.
  - injection H as <- <-. exists [], [].
    rewrite app_nil_r. repeat split; try constructor. cbn; lia. lia.
  - destruct (search_one R vc f s) as [[o|]|e] eqn:E; cbn [bind] in H;
      try discriminate.
    + destruct (limit f <=? Z.of_nat (List.length (out ++ [o])%list)) eqn:L.
      * injection H as <- <-. exists [s], [o].
        split; [constructor; apply subseq_nil_l|].
        split; [constructor; [exact E | constructor]|].
        split; [reflexivity|]. split; [cbn; lia|].
        rewrite length_app. cbn. lia.
      * apply Z.leb_gt in L.
        destruct (IH _ _ _ _ H) as (picked & found & Hs & Hf & Ho & Hn & Hl).
        exists (s :: picked), (o :: found).
        split; [constructor; exact Hs|].
        split; [constructor; [exact E | exact Hf]|].
        split; [rewrite Ho, <- app_assoc; reflexivity|].
        split; [rewrite Hn; cbn [List.length]; lia|].
        intros _. apply Hl. exact L.
    + destruct (IH _ _ _ _ H) as (picked & found & Hs & Hf & Ho & Hn & Hl).
      exists picked, found.
      split; [constructor; exact Hs|]. auto.
Qed.

(** X14.  [total_matched] is the number of sessions returned, never the number of
    buffered sessions that match: the loop stops counting at the limit,
    which is at most 500.  Every reply has status 200. *)
Theorem search_total_is_returned (q : query) (b : bridge) :
  fst (search_sessions R vc q b) = 200
  /\ total_matched (snd (search_sessions R vc q b))
     = Z.of_nat (List.length (sessions (snd (search_sessions R vc q b))))
  /\ (List.length (sessions (snd (search_sessions R vc q b))) <= 500)%nat
  /\ (List.length (sessions (snd (search_sessions R vc q b)))
      <= List.length (live_sessions b))%nat.
Proof.
  unfold search_sessions.
  destruct (parse_filters R vc q) as [f|e] eqn:Hf; cbn [bind fst snd].
  - destruct (search_loop R vc f (rev (live_sessions b)) [] 0) as [[out n]|e] eqn:Hl;
      cbn [fst snd sessions total_matched].
    + destruct (search_loop_spec _ _ _ _ _ _ Hl)
        as (picked & found & Hs & Hf2 & Ho & Hn & Hlim).
      pose proof (parse_filters_limit q f Hf) as Hb.
      cbn [app] in Ho. subst out.
      split; [reflexivity|]. split; [lia|].
      split.
      * cbn [List.length] in Hlim. lia.
      * rewrite <- (Forall2_length Hf2).
        clear - Hs. rewrite <- (length_rev (live_sessions b)).
        induction Hs; cbn [List.length]; lia.
    + repeat split; cbn; lia.
  - repeat split; cbn; lia.
Qed.

Lemma search_one_hit (f : search_filters) (s o : pydict) :
  search_one R vc f s = Ok (Some o) ->
  exists meth code size,
    py_upper (Py.or (Py.dget s "method") (VStr "")) = Ok meth
    /\ py_int R (Py.or (Py.or (Py.dget s "statusCode") (Py.dget s "status")) (VInt 0))
       = Ok code
    /\ py_int R (Py.or (Py.or (Py.dget s "contentLength") (Py.dget s "body_length"))
                       (VInt 0)) = Ok size
    /\ (forall m, f_method f = Some m -> meth = m)
    /\ status_min f <= code <= status_max f
    /\ min_size f <= size <= max_size f
    /\ lookup "id" o = Some (Py.dget s "id")
    /\ lookup "method" o = Some (VStr meth)
    /\ lookup "contentLength" o = Some (VInt size).
Proof.
  intros H. unfold search_one in H.
  apply bind_ok_inv in H. destruct H as (host & _ & H).
  apply bind_ok_inv in H. destruct H as (meth & Hm & H).
  apply bind_ok_inv in H. destruct H as (code & Hc & H).
  apply bind_ok_inv in H. destruct H as (size & Hz & H).
  apply bind_ok_inv in H. destruct H as (too_old & _ & H).
  destruct too_old; [discriminate|].
  apply bind_ok_inv in H. destruct H as (no_host & _ & H).
  destruct no_host; [discriminate|].
  apply bind_ok_inv in H. destruct H as (no_url & _ & H).
  destruct no_url; [discriminate|].
  destruct (match f_method f with Some m => negb (String.eqb meth m) | None => false end)
    eqn:Hmeth; [discriminate|].
  destruct (andb (status_min f <=? code) (code <=? status_max f)) eqn:Hcode;
    cbn [negb] in H; [|discriminate].
  destruct (andb (min_size f <=? size) (size <=? max_size f)) eqn:Hsize;
    cbn [negb] in H; [|discriminate].
  apply bind_ok_inv in H. destruct H as (ct_ok & _ & H).
  destruct ct_ok; cbn [negb] in H; [|discriminate].
  apply bind_ok_inv in H. destruct H as (overview & Ho & H).
  injection H as <-.
  unfold _format_session_overview in Ho. bind_inv Ho. injection Ho as <-.
  exists meth, code, size.
  apply andb_prop in Hcode. apply andb_prop in Hsize.
  repeat split; try assumption; try reflexivity; try lia.
  intros m Hf. rewrite Hf in Hmeth. apply negb_false_iff in Hmeth.
  now apply String.eqb_eq in Hmeth.
Qed.


(** X16.  The sessions of a reply come newest first: their ids are those of a
    selection of the buffered records, read from the newest to the oldest,
    each record at most once. *)
Theorem search_newest_first (q : query) (b : bridge) :
  exists picked,
    subseq picked (rev (live_sessions b))
    /\ map (lookup "id") (sessions (snd (search_sessions R vc q b)))
       = map (fun s => Some (Py.dget s "id")) picked.
Proof.
  unfold search_sessions.
  destruct (parse_filters R vc q) as [f|e] eqn:Hf; cbn [bind];
    [|exists []; split; [apply subseq_nil_l | reflexivity]].
  destruct (search_loop R vc f (rev (live_sessions b)) [] 0) as [[out n]|e] eqn:Hl;
    cbn [snd sessions]; [|exists []; split; [apply subseq_nil_l | reflexivity]].
  destruct (search_loop_spec _ _ _ _ _ _ Hl) as (picked & found & Hs & Hf2 & Ho & _).
  cbn [app] in Ho. subst out. exists picked. split; [exact Hs|].
  clear - Hf2. induction Hf2 as [| s o picked found H1 _ IH]; [reflexivity|].
  cbn [map]. rewrite IH. f_equal.
  destruct (search_one_hit f s o H1) as (? & ? & ? & _ & _ & _ & _ & _ & _ & Hid & _).
  exact Hid.
Qed.

End MoreSearch.
(** ** The body of a record *)

Section Bodies.

Variable R : Runtime.

Lemma slice_prefix (s : string) (n : Z) :
  0 <= n <= PyStr.len s -> PyStr.slice s None (Some n) = PyStr.take (Z.to_nat n) s.
Proof.
  intros H. unfold PyStr.slice, PyStr.clamp.
  destruct (Z.ltb_spec n 0) as [Hneg | _]; [lia|].
  rewrite Z.min_l by lia. rewrite Z.sub_0_r.
  change (Z.to_nat 0) with 0%nat. destruct s; reflexivity.
Qed.

(** X13.  For a record whose two bodies are strings the body request is always
    answered, with the true sizes.  With [raw=true], or when the body has
    at most 50000 characters, the body comes back unchanged and is not
    reported as truncated; otherwise it is cut to its first 50000
    characters, followed by the truncation note. *)
Theorem text_bodies_are_served (q : query) (sess : pydict) (resp req : string) :
  Py.dget sess "responseBody" = VStr resp ->
  Py.dget_default sess "requestBody" (VStr "") = VStr req ->
  exists r,
    body_of_session R q sess = Ok r
    /\ br_found r = true
    /\ br_full_size r = (PyStr.len resp, PyStr.len req)
    /\ (qflag q "raw" = true \/ PyStr.len resp <= MAX_BODY_PREVIEW_BYTES ->
        br_response_body r = VStr resp /\ br_response_truncated r = false)
    /\ (qflag q "raw" = false -> MAX_BODY_PREVIEW_BYTES < PyStr.len resp ->
        br_response_body r
        = VStr (PyStr.take (Z.to_nat MAX_BODY_PREVIEW_BYTES) resp
                ++ truncation_note "Response" (PyStr.len resp))
        /\ br_response_truncated r = true)
    /\ (qflag q "raw" = true \/ PyStr.len req <= MAX_BODY_PREVIEW_BYTES ->
        br_request_body r = VStr req /\ br_request_truncated r = false)
    /\ (qflag q "raw" = false -> MAX_BODY_PREVIEW_BYTES < PyStr.len req ->
        br_request_body r
        = VStr (PyStr.take (Z.to_nat MAX_BODY_PREVIEW_BYTES) req
                ++ truncation_note "Request" (PyStr.len req))
        /\ br_request_truncated r = true).
Proof.
  intros Hresp Hreq. unfold body_of_session. rewrite Hresp, Hreq.
  assert (Hor : Py.or (VStr resp) (VStr "") = VStr resp).
  { unfold Py.or. cbn [Py.truthy]. destruct (String.eqb_spec resp ""); [subst|]; reflexivity. }
  rewrite Hor. cbn [py_len bind].
  destruct (qflag q "raw") eqn:Hraw;
    destruct (Z.ltb_spec MAX_BODY_PREVIEW_BYTES (PyStr.len resp)) as [Lr | Lr];
    destruct (Z.ltb_spec MAX_BODY_PREVIEW_BYTES (PyStr.len req)) as [Lq | Lq];
    cbn [andb negb py_slice_to py_add_str bind];
    eexists; (split; [reflexivity|]); cbn [br_found br_full_size br_response_body
      br_response_truncated br_request_body br_request_truncated];
    repeat split; try reflexivity; try discriminate; try lia;
    try (intros [? | ?]; [discriminate | lia]);
    try (rewrite slice_prefix by (unfold MAX_BODY_PREVIEW_BYTES in *; lia); reflexivity).
Qed.

End Bodies.
(** ** [_filter_sessions] *)

Section Filtering.

Variable R : Runtime.

Lemma filter_loop_selects (hfl sf : option string) (cutoff : option pyfloat)
  (sessions : list pydict) :
  forall out,
    filter_loop R hfl sf cutoff sessions = Ok out ->
    subseq out sessions
    /\ forall s, In s out -> filter_keeps R hfl sf cutoff s = Ok true.
Proof.
  induction sessions as [|s rest IH]; intros out H; cbn [filter_loop] in H.
  - injection H as <-. split; [constructor | intros s []].
  - apply bind_ok_inv in H. destruct H as (keep & Hk & H).
    apply bind_ok_inv in H. destruct H as (filtered & Hf & H).
    injection H as <-. destruct (IH _ Hf) as (Hs & Hall).
    destruct keep.
    + split; [constructor; exact Hs|].
      intros s' [<- | Hin]; [exact Hk | exact (Hall _ Hin)].
    + split; [constructor; exact Hs | exact Hall].
Qed.


(** X18.  Without a filter every record is returned, also one whose fields the
    filters could not have read: an empty host or status text and a period
    of 0 minutes count as no filter. *)
Theorem filter_sessions_unfiltered (now : pyfloat) (sessions : list pydict)
  (host_filter status_filter : option string) (since_minutes : option Z) :
  host_filter = None \/ host_filter = Some "" ->
  status_filter = None \/ status_filter = Some "" ->
  since_minutes = None \/ since_minutes = Some 0 ->
  _filter_sessions R now sessions host_filter status_filter since_minutes = Ok sessions.
Proof.
  intros Hh Hs Hm. unfold _filter_sessions.
  assert (Hc : filter_cutoff now since_minutes = Ok None)
    by (destruct Hm as [-> | ->]; reflexivity).
  assert (Hl : lowered_filter host_filter = None)
    by (destruct Hh as [-> | ->]; reflexivity).
  rewrite Hc, Hl. cbn [bind].
  induction sessions as [|s rest IH]; [reflexivity|].
  cbn [filter_loop]. rewrite IH.
  destruct Hs as [-> | ->]; reflexivity.
Qed.

End Filtering.


Lemma filter_sessions_unfiltered_witness :
  (Some "" = None \/ Some "" = Some "")
  /\ (@None string = None \/ @None string = Some "")
  /\ (Some 0 = None \/ Some 0 = Some 0)
  /\ _filter_sessions Ref.runtime Ref.t0 [Demo.bad_url_with_id] (Some "") None (Some 0)
     = Ok [Demo.bad_url_with_id].
Proof.
  assert (H1 : Some "" = None \/ Some "" = Some "") by (right; reflexivity).
  assert (H2 : @None string = None \/ @None string = Some "") by (left; reflexivity).
  assert (H3 : Some 0 = None \/ Some 0 = Some 0) by (right; reflexivity).
  split; [exact H1 | split; [exact H2 | split; [exact H3|]]].
  exact (filter_sessions_unfiltered Ref.runtime Ref.t0 _ _ _ _ H1 H2 H3).
Defined.

(** ** The EKFiddle annotations *)

Section Annotations.

(** X19.  The annotation of a record that has one is always given a severity:
    "low" exactly when no threat type was recognised, "high" when malware
    or phishing was, "medium" when the text is only suspicious. *)
Theorem parsed_severity (text : string) :
  String.eqb text "" = false ->
  ea_error (parse_ekfiddle_comments (VStr text)) = None
  /\ (ea_severity (parse_ekfiddle_comments (VStr text)) = "low"
      /\ ea_threat_types (parse_ekfiddle_comments (VStr text)) = []
      \/ ea_severity (parse_ekfiddle_comments (VStr text)) = "high"
         /\ (In "malware" (ea_threat_types (parse_ekfiddle_comments (VStr text)))
             \/ In "phishing" (ea_threat_types (parse_ekfiddle_comments (VStr text))))
      \/ ea_severity (parse_ekfiddle_comments (VStr text)) = "medium"
         /\ ea_threat_types (parse_ekfiddle_comments (VStr text)) = ["suspicious"]).
Proof.
  intros H. unfold parse_ekfiddle_comments. cbn [Py.truthy]. rewrite H. cbn [negb].
  destruct (any_in ["exploit"; "malware"; "trojan"] (PyStr.lower text));
    destruct (any_in ["phishing"; "fake"; "scam"] (PyStr.lower text));
    destruct (any_in ["suspicious"; "anomaly"; "unusual"] (PyStr.lower text));
    cbn; split; try reflexivity; tauto.
Qed.

Lemma no_indicator_no_bump (lower : string) :
  any_in ["exploit"; "malware"; "trojan"; "backdoor"] lower = false ->
  any_in ["phishing"; "credential"; "steal"] lower = false ->
  any_in ["suspicious"; "anomaly"; "unusual"] lower = false ->
  any_in ["obfuscated"; "encoded"; "packed"] lower = false ->
  filter (fun word => PyStr.contains word lower)
         ["exploit"; "malware"; "suspicious"; "phishing"; "obfuscated"] = [].
Proof.
  unfold any_in. cbn [existsb]. intros H1 H2 H3 H4.
  repeat match goal with
         | H : orb _ _ = false |- _ => apply orb_false_elim in H; destruct H
         end.
  cbn [filter].
  repeat match goal with
         | H : PyStr.contains _ lower = false |- _ => rewrite H; clear H
         end.
  reflexivity.
Qed.

(** X20.  The threat assessment never gives the level "LOW", and the score it
    reports lies between 0 and 1.  Whenever it recommends isolation the
    level is "CRITICAL"; whenever it recommends blocking the level is
    "HIGH" or "CRITICAL". *)
Theorem assess_never_low (ekfiddle_data : pyval) :
  In (ta_threat_level (assess_ekfiddle_threat ekfiddle_data))
     ["NONE"; "MINIMAL"; "MEDIUM"; "HIGH"; "CRITICAL"]
  /\ float_leb s_0_0 (ta_risk_score (assess_ekfiddle_threat ekfiddle_data)) = true
  /\ float_leb (ta_risk_score (assess_ekfiddle_threat ekfiddle_data)) s_1_0 = true
  /\ (In "IMMEDIATE ISOLATION - Malware detected"
         (ta_recommendations (assess_ekfiddle_threat ekfiddle_data)) ->
      ta_threat_level (assess_ekfiddle_threat ekfiddle_data) = "CRITICAL")
  /\ (In "BLOCK AND INVESTIGATE - Phishing attempt"
         (ta_recommendations (assess_ekfiddle_threat ekfiddle_data)) ->
      In (ta_threat_level (assess_ekfiddle_threat ekfiddle_data)) ["HIGH"; "CRITICAL"]).
Proof.
  assert (Hbase : forall e,
    In "NONE" ["NONE"; "MINIMAL"; "MEDIUM"; "HIGH"; "CRITICAL"]
    /\ float_leb s_0_0 s_0_0 = true /\ float_leb s_0_0 s_1_0 = true
    /\ (In "IMMEDIATE ISOLATION - Malware detected" (@nil string) -> "NONE" = "CRITICAL")
    /\ (In "BLOCK AND INVESTIGATE - Phishing attempt" (@nil string) ->
        In "NONE" ["HIGH"; "CRITICAL"])
    /\ e = e :> option exn).
  { intros e. repeat split; try (now left); try (intros []). }
  unfold assess_ekfiddle_threat.
  destruct (negb (Py.truthy ekfiddle_data));
    [destruct (Hbase None) as (A & B & C & D & E & _); repeat split; assumption|].
  destruct ekfiddle_data as [| b | z | f | text | l | kvs];
    try (destruct (Hbase None) as (A & B & C & D & E & _); repeat split; assumption).
  cbv zeta.
  destruct (any_in ["exploit"; "malware"; "trojan"; "backdoor"] (PyStr.lower text)) eqn:C1;
    destruct (any_in ["phishing"; "credential"; "steal"] (PyStr.lower text)) eqn:C2;
    destruct (any_in ["suspicious"; "anomaly"; "unusual"] (PyStr.lower text)) eqn:C3;
    destruct (any_in ["obfuscated"; "encoded"; "packed"] (PyStr.lower text)) eqn:C4;
    try rewrite (no_indicator_no_bump _ C1 C2 C3 C4);
    match goal with
    | |- context [2 <? ?n] =>
        let B := fresh "B" in
        destruct (2 <? n) eqn:B; try (cbn in B; discriminate B)
    end;
    vm_compute; intuition (try discriminate; try reflexivity).
Qed.

End Annotations.

Lemma parsed_severity_witness :
  String.eqb "suspicious redirect chain" "" = false
  /\ ea_error (parse_ekfiddle_comments (VStr "suspicious redirect chain")) = None
  /\ (ea_severity (parse_ekfiddle_comments (VStr "suspicious redirect chain")) = "low"
      /\ ea_threat_types (parse_ekfiddle_comments (VStr "suspicious redirect chain")) = []
      \/ ea_severity (parse_ekfiddle_comments (VStr "suspicious redirect chain")) = "high"
         /\ (In "malware"
                (ea_threat_types (parse_ekfiddle_comments (VStr "suspicious redirect chain")))
             \/ In "phishing"
                  (ea_threat_types
                     (parse_ekfiddle_comments (VStr "suspicious redirect chain"))))
      \/ ea_severity (parse_ekfiddle_comments (VStr "suspicious redirect chain")) = "medium"
         /\ ea_threat_types (parse_ekfiddle_comments (VStr "suspicious redirect chain"))
            = ["suspicious"]).
Proof.
  assert (H : String.eqb "suspicious redirect chain" "" = false) by reflexivity.
  split; [exact H|].
  exact (parsed_severity "suspicious redirect chain" H).
Defined.
(** ** The EKFiddle requests *)

Section EkfiddleRequests.

Variable R : Runtime.

Local Open Scope list_scope.

Lemma find_after_misses {A : Type} (p : A -> bool) (older : list A) (s : A)
  (newer : list A) :
  (forall x, In x older -> p x = false) -> p s = true ->
  find p (older ++ s :: newer) = Some s.
Proof.
  intros Hold Hs. induction older as [|y older IH]; simpl.
  - now rewrite Hs.
  - rewrite (Hold y (or_introl eq_refl)). apply IH.
    intros x Hx. apply Hold. now right.
Qed.

(** X21.  The EKFiddle lookup reads the buffer from its oldest record: when
    several records answer to the requested id, under [id] or under
    [bridge_id], the reply is made from the oldest of them, while the
    other lookups by id read the newest. *)
Theorem ekfiddle_lookup_oldest (b : bridge) (session_id : string)
  (older newer : list pydict) (s : pydict) :
  live_sessions b = older ++ s :: newer ->
  (forall x, In x older -> ekfiddle_id_matches R session_id x = false) ->
  ekfiddle_id_matches R session_id s = true ->
  Py.truthy (VDict s) = true ->
  exists r,
    get_session_ekfiddle R b session_id = (200, Some r)
    /\ er_raw_session r = s
    /\ er_ekfiddle_comments r = Py.dget_default s "ekfiddleComments" (VStr "")
    /\ er_analysis r
       = parse_ekfiddle_comments (Py.dget_default s "ekfiddleComments" (VStr ""))
    /\ er_threat_assessment r
       = assess_ekfiddle_threat (Py.dget_default s "ekfiddleComments" (VStr "")).
Proof.
  intros Hlive Hold Hs Ht. unfold get_session_ekfiddle.
  rewrite Hlive, (find_after_misses _ _ _ _ Hold Hs), Ht. cbn [negb].
  eexists. split; [reflexivity|]. repeat split.
Qed.

Lemma annotation_is_text (ekfiddle_data : pyval) :
  has_annotation ekfiddle_data = Ok true ->
  exists text, ekfiddle_data = VStr text /\ String.eqb text "" = false.
Proof.
  unfold has_annotation. destruct (Py.truthy ekfiddle_data) eqn:Ht; [|discriminate].
  destruct ekfiddle_data; try discriminate.
  intros _. eexists. split; [reflexivity|].
  cbn [Py.truthy] in Ht. now apply negb_true_iff in Ht.
Qed.

Lemma severity_known (text : string) :
  String.eqb text "" = false ->
  In (ea_severity (parse_ekfiddle_comments (VStr text))) ["high"; "medium"; "low"].
Proof.
  intros H. unfold parse_ekfiddle_comments. cbn [Py.truthy]. rewrite H. cbn [negb].
  destruct (any_in ["exploit"; "malware"; "trojan"] (PyStr.lower text));
    destruct (any_in ["phishing"; "fake"; "scam"] (PyStr.lower text));
    destruct (any_in ["suspicious"; "anomaly"; "unusual"] (PyStr.lower text));
    cbn; tauto.
Qed.




Lemma ekfiddle_scan_low (sessions : list pydict) :
  ekfiddle_scan "low" sessions = ekfiddle_scan "all" sessions.
Proof.
  induction sessions as [|s rest IH]; [reflexivity|].
  cbn [ekfiddle_scan]. rewrite IH.
  destruct (has_annotation (Py.dget_default s "ekfiddleComments" (VStr "")))
    as [[|]|e] eqn:Ha; cbn [bind]; try reflexivity.
  destruct (ekfiddle_scan "all" rest) as [found|e]; cbn [bind]; [|reflexivity].
  destruct (annotation_is_text _ Ha) as (text & -> & Hne).
  pose proof (severity_known text Hne) as Hsev.
  change (String.eqb "low" "all") with false.
  change (String.eqb "all" "all") with true. cbn [negb andb].
  unfold level_skips.
  change (String.eqb "low" "high") with false.
  change (String.eqb "low" "medium") with false.
  change (String.eqb "low" "low") with true. cbn [andb].
  destruct Hsev as [<- | [<- | [<- | []]]]; reflexivity.
Qed.

(** X23.  Asking the EKFiddle listing for the level "low" filters nothing: the
    records returned are those returned for "all". *)
Theorem ekfiddle_low_is_all (q : query) (b : bridge) :
  qget q "threat_level" = Some "low" ->
  fst (get_ekfiddle_analysis R q b)
  = fst (get_ekfiddle_analysis R (("threat_level", "all") :: q) b)
  /\ option_map ek_results (snd (get_ekfiddle_analysis R q b))
     = option_map ek_results
         (snd (get_ekfiddle_analysis R (("threat_level", "all") :: q) b)).
Proof.
  intros Hq. unfold get_ekfiddle_analysis, qint_default.
  cbn [qget]. rewrite Hq.
  change (String.eqb "limit" "threat_level") with false.
  change (String.eqb "time_range" "threat_level") with false.
  change (String.eqb "threat_level" "threat_level") with true.
  cbv iota. rewrite ekfiddle_scan_low.
  destruct (match qget q "limit" with
            | Some s => match int_of_str R s with
                        | Some z => Ok z | None => Raise ValueError end
            | None => Ok 50 end) as [lim|e]; cbn [bind]; [|split; reflexivity].
  destruct (match qget q "time_range" with
            | Some s => match int_of_str R s with
                        | Some z => Ok z | None => Raise ValueError end
            | None => Ok 60 end) as [tr|e]; cbn [bind]; [|split; reflexivity].
  destruct (ekfiddle_scan "all" (live_sessions b)) as [found|e]; cbn [bind];
    split; reflexivity.
Qed.

Lemma count_up_total (k : string) (c : counter) :
  count_total (count_up k c) = count_total c + 1.
Proof.
  unfold count_total.
  induction c as [|[k' n] c IH]; cbn [count_up fold_right snd]; [lia|].
  destruct (String.eqb k k'); cbn [fold_right snd]; lia.
Qed.

Lemma severity_fold_total (l : list analysed_session) :
  forall c,
    count_total (fold_left (fun c session => count_up (ea_severity (snd session)) c) l c)
    = count_total c + Z.of_nat (List.length l).
Proof.
  induction l as [|sa l IH]; intros c; cbn [fold_left List.length].
  - lia.
  - rewrite IH, count_up_total. lia.
Qed.

(** X24.  The summary counts every listed record under exactly one severity:
    the counts of its severity distribution add up to the number of
    records.  It says that no analysis data is available exactly when the
    list is empty. *)
Theorem summary_counts_every_session (l : list analysed_session) :
  count_total (es_severity_distribution (summarize_ekfiddle_findings l))
  = Z.of_nat (List.length l)
  /\ es_total_sessions (summarize_ekfiddle_findings l) = Z.of_nat (List.length l)
  /\ (In "No EKFiddle analysis data available"
         (es_recommendations (summarize_ekfiddle_findings l)) <-> l = []).
Proof.
  unfold summarize_ekfiddle_findings.
  cbn [es_severity_distribution es_total_sessions es_recommendations].
  split; [rewrite severity_fold_total; reflexivity|]. split; [reflexivity|].
  split.
  - intros Hin. apply in_app_or in Hin. destruct Hin as [Hin | Hin].
    { destruct (0 <? _); [|destruct Hin].
      destruct Hin as [Hin | []]. cbn in Hin. discriminate Hin. }
    apply in_app_or in Hin. destruct Hin as [Hin | Hin].
    { destruct (0 <? _); [|destruct Hin].
      destruct Hin as [Hin | []]. cbn in Hin. discriminate Hin. }
    destruct l; [reflexivity|]. cbn [List.length] in Hin.
    rewrite Nat2Z.inj_succ in Hin.
    destruct (Z.eqb_spec (Z.succ (Z.of_nat (List.length l))) 0); [lia | destruct Hin].
  - intros ->. cbn. now left.
Qed.

Lemma py_tail_cases {A : Type} (n : Z) (l : list A) :
  (1 <= n -> py_tail n l = lastn (Z.to_nat n) l)
  /\ (n = 0 -> py_tail n l = l)
  /\ (n < 0 -> py_tail n l = skipn (Z.to_nat (- n)) l).
Proof.
  unfold py_tail, lastn. repeat split; intros H.
  - destruct (Z.ltb_spec (- n) 0); [|lia]. f_equal. lia.
  - subst n. change (- 0 <? 0) with false. cbv iota.
    rewrite Z.min_l by lia. reflexivity.
  - destruct (Z.ltb_spec (- n) 0); [lia|].
    destruct (Z.le_gt_cases (- n) (Z.of_nat (List.length l))) as [Hle | Hgt].
    + rewrite Z.min_l by lia. reflexivity.
    + rewrite Z.min_r by lia. rewrite Nat2Z.id.
      rewrite !skipn_all2; [reflexivity | lia | lia].
Qed.

(** X27.  The records chosen for an export without host filter.  With a limit of
    at least 1 they are the newest records, at most 1000 of them; a limit
    of 0 chooses the whole buffer, beyond that cap; a negative limit only
    leaves out that many of the oldest records. *)
Theorem export_limit (q : query) (b : bridge) (lim : Z) :
  is_ok (qint_default R q "time_range_minutes" 60) = true ->
  qint_default R q "limit" 100 = Ok lim ->
  qget q "filter_host" = None \/ qget q "filter_host" = Some "" ->
  exists out,
    export_selection R q b = Ok out
    /\ (1 <= lim ->
        out = lastn (Z.to_nat (Z.min lim 1000)) (live_sessions b)
        /\ (List.length out <= 1000)%nat)
    /\ (lim = 0 -> out = live_sessions b)
    /\ (lim < 0 -> out = skipn (Z.to_nat (- lim)) (live_sessions b)).
Proof.
  intros Htr Hlim Hhost. unfold export_selection. rewrite Hlim.
  destruct (qint_default R q "time_range_minutes" 60) as [tr|e]; [|discriminate Htr].
  cbn [bind].
  assert (Hs : match qget q "filter_host" with
               | Some (String c r) => host_filtered (String c r) (live_sessions b)
               | _ => Ok (live_sessions b)
               end = Ok (live_sessions b))
    by (destruct Hhost as [-> | ->]; reflexivity).
  rewrite Hs. cbn [bind].
  destruct (py_tail_cases (Z.min lim 1000) (live_sessions b)) as (P1 & P2 & P3).
  destruct (live_sessions b) as [|s rest] eqn:Hl.
  - exists []. split; [reflexivity|].
    unfold lastn. rewrite !skipn_nil.
    split; [intros _; split; [reflexivity | cbn; lia] | split; intros _; reflexivity].
  - rewrite <- Hl in *. eexists. split; [reflexivity|].
    split; [|split].
    + intros H1. split; [apply P1; lia|].
      rewrite P1 by lia. rewrite lastn_length. lia.
    + intros ->. apply P2. reflexivity.
    + intros H1. replace (Z.min lim 1000) with lim in * by lia. apply P3. lia.
Qed.

End EkfiddleRequests.
(** ** The properties above on the example buffers *)

Lemma flagged_only_suspicious_witness :
  In (Demo.stored Demo.failed_request)
     (suspicious_sessions (run Ref.runtime Demo.ingest_then_clear))
  /\ is_immediately_suspicious Ref.runtime (Demo.stored Demo.failed_request) = true.
Proof.
  assert (H : In (Demo.stored Demo.failed_request)
                 (suspicious_sessions (run Ref.runtime Demo.ingest_then_clear)))
    by (vm_compute; left; reflexivity).
  split; [exact H|].
  exact (flagged_only_suspicious Ref.runtime _ _ H).
Defined.

Lemma unreadable_annotation_record_witness :
  accepted Ref.runtime Ref.clk (Some Scenarios.numeric_annotation)
  = Some (Demo.stored Scenarios.numeric_annotation)
  /\ Py.truthy (Py.dget (Demo.stored Scenarios.numeric_annotation) "ekfiddleComments")
     = true
  /\ is_text (Py.dget (Demo.stored Scenarios.numeric_annotation) "ekfiddleComments")
     = false
  /\ exists sid,
       snd (receive_session Ref.runtime Ref.clk (Some Scenarios.numeric_annotation)
              Demo.after_three) = (201, Some (VStr sid))
       /\ suspicious_sessions
            (fst (receive_session Ref.runtime Ref.clk (Some Scenarios.numeric_annotation)
                    Demo.after_three))
          = suspicious_sessions Demo.after_three
       /\ get_session_details Ref.runtime Demo.vclk
            (fst (receive_session Ref.runtime Ref.clk (Some Scenarios.numeric_annotation)
                    Demo.after_three)) sid
          = (500, None).
Proof.
  assert (H1 : accepted Ref.runtime Ref.clk (Some Scenarios.numeric_annotation)
               = Some (Demo.stored Scenarios.numeric_annotation))
    by (vm_compute; reflexivity).
  assert (H2 : Py.truthy (Py.dget (Demo.stored Scenarios.numeric_annotation)
                            "ekfiddleComments") = true)
    by (vm_compute; reflexivity).
  assert (H3 : is_text (Py.dget (Demo.stored Scenarios.numeric_annotation)
                          "ekfiddleComments") = false)
    by (vm_compute; reflexivity).
  split; [exact H1 | split; [exact H2 | split; [exact H3|]]].
  exact (unreadable_annotation_record Ref.runtime Ref.clk Demo.vclk _ Demo.after_three _
           H1 H2 H3).
Defined.


Lemma text_bodies_are_served_witness :
  Py.dget Scenarios.text_record "responseBody" = VStr "<html></html>"
  /\ Py.dget_default Scenarios.text_record "requestBody" (VStr "") = VStr "a=1"
  /\ exists r,
       body_of_session Ref.runtime [("raw", "true")] Scenarios.text_record = Ok r
       /\ br_found r = true
       /\ br_full_size r = (PyStr.len "<html></html>", PyStr.len "a=1")
       /\ (qflag [("raw", "true")] "raw" = true
           \/ PyStr.len "<html></html>" <= MAX_BODY_PREVIEW_BYTES ->
           br_response_body r = VStr "<html></html>" /\ br_response_truncated r = false)
       /\ (qflag [("raw", "true")] "raw" = false ->
           MAX_BODY_PREVIEW_BYTES < PyStr.len "<html></html>" ->
           br_response_body r
           = VStr (PyStr.take (Z.to_nat MAX_BODY_PREVIEW_BYTES) "<html></html>"
                   ++ truncation_note "Response" (PyStr.len "<html></html>"))
           /\ br_response_truncated r = true)
       /\ (qflag [("raw", "true")] "raw" = true
           \/ PyStr.len "a=1" <= MAX_BODY_PREVIEW_BYTES ->
           br_request_body r = VStr "a=1" /\ br_request_truncated r = false)
       /\ (qflag [("raw", "true")] "raw" = false ->
           MAX_BODY_PREVIEW_BYTES < PyStr.len "a=1" ->
           br_request_body r
           = VStr (PyStr.take (Z.to_nat MAX_BODY_PREVIEW_BYTES) "a=1"
                   ++ truncation_note "Request" (PyStr.len "a=1"))
           /\ br_request_truncated r = true).
Proof.
  assert (H1 : Py.dget Scenarios.text_record "responseBody" = VStr "<html></html>")
    by reflexivity.
  assert (H2 : Py.dget_default Scenarios.text_record "requestBody" (VStr "") = VStr "a=1")
    by reflexivity.
  split; [exact H1 | split; [exact H2|]].
  exact (text_bodies_are_served Ref.runtime [("raw", "true")] _ _ _ H1 H2).
Defined.

Lemma ekfiddle_lookup_oldest_witness :
  live_sessions Scenarios.annotated_buffer
  = ([Scenarios.annotated "1" "Low: tracking pixel"]
       ++ Scenarios.annotated "2" "High: malware dropper, obfuscated payload"
       :: [Scenarios.annotated "3" "";
           Scenarios.annotated "2" "suspicious redirect chain"])%list
  /\ (forall x, In x [Scenarios.annotated "1" "Low: tracking pixel"] ->
                ekfiddle_id_matches Ref.runtime "2" x = false)
  /\ ekfiddle_id_matches Ref.runtime "2"
       (Scenarios.annotated "2" "High: malware dropper, obfuscated payload") = true
  /\ Py.truthy (VDict (Scenarios.annotated "2" "High: malware dropper, obfuscated payload"))
     = true
  /\ exists r,
       get_session_ekfiddle Ref.runtime Scenarios.annotated_buffer "2" = (200, Some r)
       /\ er_raw_session r
          = Scenarios.annotated "2" "High: malware dropper, obfuscated payload"
       /\ er_ekfiddle_comments r
          = Py.dget_default
              (Scenarios.annotated "2" "High: malware dropper, obfuscated payload")
              "ekfiddleComments" (VStr "")
       /\ er_analysis r
          = parse_ekfiddle_comments
              (Py.dget_default
                 (Scenarios.annotated "2" "High: malware dropper, obfuscated payload")
                 "ekfiddleComments" (VStr ""))
       /\ er_threat_assessment r
          = assess_ekfiddle_threat
              (Py.dget_default
                 (Scenarios.annotated "2" "High: malware dropper, obfuscated payload")
                 "ekfiddleComments" (VStr "")).
Proof.
  assert (H1 : live_sessions Scenarios.annotated_buffer
               = ([Scenarios.annotated "1" "Low: tracking pixel"]
                    ++ Scenarios.annotated "2" "High: malware dropper, obfuscated payload"
                    :: [Scenarios.annotated "3" "";
                        Scenarios.annotated "2" "suspicious redirect chain"])%list)
    by reflexivity.
  assert (H2 : forall x, In x [Scenarios.annotated "1" "Low: tracking pixel"] ->
                         ekfiddle_id_matches Ref.runtime "2" x = false).
  { intros x [<- | []]. vm_compute. reflexivity. }
  assert (H3 : ekfiddle_id_matches Ref.runtime "2"
                 (Scenarios.annotated "2" "High: malware dropper, obfuscated payload")
               = true) by (vm_compute; reflexivity).
  assert (H4 : Py.truthy
                 (VDict (Scenarios.annotated "2"
                           "High: malware dropper, obfuscated payload")) = true)
    by reflexivity.
  split; [exact H1 | split; [exact H2 | split; [exact H3 | split; [exact H4|]]]].
  exact (ekfiddle_lookup_oldest Ref.runtime Scenarios.annotated_buffer "2" _ _ _
           H1 H2 H3 H4).
Defined.


Lemma ekfiddle_low_is_all_witness :
  qget [("threat_level", "low"); ("limit", "2")] "threat_level" = Some "low"
  /\ fst (get_ekfiddle_analysis Ref.runtime [("threat_level", "low"); ("limit", "2")]
            Scenarios.annotated_buffer)
     = fst (get_ekfiddle_analysis Ref.runtime
              (("threat_level", "all") :: [("threat_level", "low"); ("limit", "2")])
              Scenarios.annotated_buffer)
  /\ option_map ek_results
       (snd (get_ekfiddle_analysis Ref.runtime [("threat_level", "low"); ("limit", "2")]
               Scenarios.annotated_buffer))
     = option_map ek_results
         (snd (get_ekfiddle_analysis Ref.runtime
                 (("threat_level", "all") :: [("threat_level", "low"); ("limit", "2")])
                 Scenarios.annotated_buffer)).
Proof.
  assert (H : qget [("threat_level", "low"); ("limit", "2")] "threat_level" = Some "low")
    by reflexivity.
  split; [exact H|].
  exact (ekfiddle_low_is_all Ref.runtime _ Scenarios.annotated_buffer H).
Defined.

Lemma export_limit_witness :
  is_ok (qint_default Ref.runtime [("limit", "0")] "time_range_minutes" 60) = true
  /\ qint_default Ref.runtime [("limit", "0")] "limit" 100 = Ok 0
  /\ (qget [("limit", "0")] "filter_host" = None
      \/ qget [("limit", "0")] "filter_host" = Some "")
  /\ exists out,
       export_selection Ref.runtime [("limit", "0")] Demo.after_three = Ok out
       /\ (1 <= 0 ->
           out = lastn (Z.to_nat (Z.min 0 1000)) (live_sessions Demo.after_three)
           /\ (List.length out <= 1000)%nat)
       /\ (0 = 0 -> out = live_sessions Demo.after_three)
       /\ (0 < 0 -> out = skipn (Z.to_nat (- 0)) (live_sessions Demo.after_three)).
Proof.
  assert (H1 : is_ok (qint_default Ref.runtime [("limit", "0")] "time_range_minutes" 60)
               = true) by reflexivity.
  assert (H2 : qint_default Ref.runtime [("limit", "0")] "limit" 100 = Ok 0)
    by (vm_compute; reflexivity).
  assert (H3 : qget [("limit", "0")] "filter_host" = None
               \/ qget [("limit", "0")] "filter_host" = Some "")
    by (left; reflexivity).
  split; [exact H1 | split; [exact H2 | split; [exact H3|]]].
  exact (export_limit Ref.runtime _ Demo.after_three 0 H1 H2 H3).
Defined.
(** ** The threat hunt and the threat listing *)

Section Hunting.

Variable R : Runtime.
Variable vc : view_clock.

Local Open Scope list_scope.

Lemma overview_id (session overview : pydict) :
  _format_session_overview R vc session = Ok overview ->
  Py.dget overview "id" = Py.dget session "id".
Proof.
  intros H. unfold _format_session_overview in H. bind_inv H.
  injection H as <-. reflexivity.
Qed.

Lemma hunt_one_spec (hunt_type : string) (include_analysis : bool) (session : pydict)
  (here : list finding) :
  hunt_one R vc hunt_type include_analysis session = Ok here ->
  (List.length here <= 3)%nat
  /\ (existsb (String.eqb hunt_type)
              ["fake_updates"; "malware_downloads"; "c2_communication"; "all"] = false ->
      here = [])
  /\ forall f, In f here ->
       In (fd_type f) ["fake_update"; "malware_download"; "c2_communication"]
       /\ fd_session_id f = Py.dget session "id"
       /\ fd_url f = Py.dget session "url"
       /\ fd_host f = Py.dget session "host".
Proof.
  intros H. unfold hunt_one in H.
  apply bind_ok_inv in H. destruct H as (url & _ & H).
  apply bind_ok_inv in H. destruct H as (host & _ & H).
  apply bind_ok_inv in H. destruct H as (overview & Ho & H).
  injection H as <-. rewrite (overview_id _ _ Ho).
  split; [|split].
  - repeat match goal with
           | |- context [if ?c then _ else _] => destruct c
           end; cbn; lia.
  - intros Hk. cbn [existsb] in Hk.
    repeat match goal with
           | H : orb _ _ = false |- _ => apply orb_false_elim in H; destruct H
           end.
    repeat match goal with
           | H : String.eqb hunt_type _ = false |- _ => rewrite H; clear H
           end.
    reflexivity.
  - intros f Hin.
    repeat (apply in_app_or in Hin; destruct Hin as [Hin | Hin]);
      match type of Hin with
      | In _ (if ?c then _ else _) => destruct c; [|destruct Hin]
      end;
      destruct Hin as [<- | []]; cbn; repeat split; auto.
Qed.

Lemma hunt_loop_spec (hunt_type : string) (include_analysis : bool)
  (sessions : list pydict) :
  forall findings,
    hunt_loop R vc hunt_type include_analysis sessions = Ok findings ->
    (List.length findings <= 3 * List.length sessions)%nat
    /\ (existsb (String.eqb hunt_type)
                ["fake_updates"; "malware_downloads"; "c2_communication"; "all"] = false ->
        findings = [])
    /\ forall f, In f findings ->
         In (fd_type f) ["fake_update"; "malware_download"; "c2_communication"]
         /\ exists s, In s sessions
                      /\ fd_session_id f = Py.dget s "id"
                      /\ fd_url f = Py.dget s "url"
                      /\ fd_host f = Py.dget s "host".
Proof.
  induction sessions as [|s rest IH]; intros findings H; cbn [hunt_loop] in H.
  - injection H as <-. split; [cbn; lia|]. split; [reflexivity | intros f []].
  - apply bind_ok_inv in H. destruct H as (here & Hh & H).
    apply bind_ok_inv in H. destruct H as (later & Hl & H).
    injection H as <-.
    destruct (hunt_one_spec _ _ _ _ Hh) as (A1 & A2 & A3).
    destruct (IH _ Hl) as (B1 & B2 & B3).
    split; [rewrite length_app; cbn [List.length]; lia|]. split.
    + intros Hk. rewrite (A2 Hk), (B2 Hk). reflexivity.
    + intros f Hin. apply in_app_or in Hin. destruct Hin as [Hin | Hin].
      * destruct (A3 f Hin) as (T & I & U & H0).
        split; [exact T|]. exists s. split; [now left | auto].
      * destruct (B3 f Hin) as (T & s' & Hs' & I).
        split; [exact T|]. exists s'. split; [now right | exact I].
Qed.

Lemma subseq_length {A : Type} (picked l : list A) :
  subseq picked l -> (List.length picked <= List.length l)%nat.
Proof. induction 1; cbn [List.length]; lia. Qed.

(** X28.  A threat hunt that is answered looks no further back than 360
    minutes, reports at most three findings for each record it analysed,
    and every finding is of one of the three kinds and carries the id, the
    URL and the host of a buffered record. *)
Theorem hunt_findings_bounded (q : query) (b : bridge) (r : hunt_reply) :
  api_threat_hunt R vc q b = (200, Some r) ->
  hr_time_range_minutes r <= 360
  /\ hr_findings_count r = Z.of_nat (List.length (hr_findings r))
  /\ hr_findings_count r <= 3 * hr_sessions_analyzed r
  /\ hr_sessions_analyzed r <= Z.of_nat (List.length (live_sessions b))
  /\ forall f, In f (hr_findings r) ->
       In (fd_type f) ["fake_update"; "malware_download"; "c2_communication"]
       /\ exists s, In s (live_sessions b)
                    /\ fd_session_id f = Py.dget s "id"
                    /\ fd_url f = Py.dget s "url"
                    /\ fd_host f = Py.dget s "host".
Proof.
  intros H. unfold api_threat_hunt in H.
  match type of H with
  | context [bind ?m _] => destruct m as [tr|e]; cbn [bind] in H; [|discriminate]
  end.
  destruct (_filter_sessions R (v_now vc) (live_sessions b) None None _)
    as [recent|e] eqn:Hf; cbn [bind] in H; [|discriminate].
  destruct (hunt_loop R vc _ _ recent) as [findings|e] eqn:Hl; cbn [bind] in H;
    [|discriminate].
  injection H as <-.
  cbn [hr_time_range_minutes hr_findings_count hr_findings hr_sessions_analyzed].
  destruct (hunt_loop_spec _ _ _ _ Hl) as (A & _ & C).
  assert (Hsub : subseq recent (live_sessions b)).
  { unfold _filter_sessions in Hf.
    apply bind_ok_inv in Hf. destruct Hf as (cutoff & _ & Hf).
    exact (proj1 (filter_loop_selects R _ _ _ _ _ Hf)). }
  pose proof (subseq_length _ _ Hsub) as Hlen.
  split; [destruct (Z.ltb_spec 360 tr); lia|]. split; [reflexivity|].
  split; [lia|]. split; [lia|].
  intros f Hin. destruct (C f Hin) as (T & s & Hs & I).
  split; [exact T|]. exists s. split; [eapply subseq_in; eassumption | exact I].
Qed.

(** X29.  A hunt of a kind that the bridge does not know is not refused: it is
    answered like any other, with no finding. *)
Theorem unknown_hunt_finds_nothing (q : query) (b : bridge) (r : hunt_reply) :
  existsb (String.eqb (match qget q "hunt_type" with Some h => h | None => "all" end))
          ["fake_updates"; "malware_downloads"; "c2_communication"; "all"] = false ->
  api_threat_hunt R vc q b = (200, Some r) ->
  hr_findings r = [] /\ hr_findings_count r = 0.
Proof.
  intros Hk H. unfold api_threat_hunt in H.
  match type of H with
  | context [bind ?m _] => destruct m as [tr|e]; cbn [bind] in H; [|discriminate]
  end.
  destruct (_filter_sessions R (v_now vc) (live_sessions b) None None _)
    as [recent|e]; cbn [bind] in H; [|discriminate].
  destruct (hunt_loop R vc _ _ recent) as [findings|e] eqn:Hl; cbn [bind] in H;
    [|discriminate].
  injection H as <-. cbn [hr_findings hr_findings_count].
  destruct (hunt_loop_spec _ _ _ _ Hl) as (_ & B & _).
  rewrite (B Hk). split; reflexivity.
Qed.






End Hunting.
Lemma hunt_findings_bounded_witness :
  api_threat_hunt Ref.runtime Demo.vclk [] Scenarios.hunted_buffer
  = (200, Some (Scenarios.hunt []))
  /\ hr_time_range_minutes (Scenarios.hunt []) <= 360
  /\ hr_findings_count (Scenarios.hunt [])
     = Z.of_nat (List.length (hr_findings (Scenarios.hunt [])))
  /\ hr_findings_count (Scenarios.hunt []) <= 3 * hr_sessions_analyzed (Scenarios.hunt [])
  /\ hr_sessions_analyzed (Scenarios.hunt [])
     <= Z.of_nat (List.length (live_sessions Scenarios.hunted_buffer))
  /\ forall f, In f (hr_findings (Scenarios.hunt [])) ->
       In (fd_type f) ["fake_update"; "malware_download"; "c2_communication"]
       /\ exists s, In s (live_sessions Scenarios.hunted_buffer)
                    /\ fd_session_id f = Py.dget s "id"
                    /\ fd_url f = Py.dget s "url"
                    /\ fd_host f = Py.dget s "host".
Proof.
  assert (H : api_threat_hunt Ref.runtime Demo.vclk [] Scenarios.hunted_buffer
              = (200, Some (Scenarios.hunt []))) by (vm_compute; reflexivity).
  split; [exact H|].
  exact (hunt_findings_bounded Ref.runtime Demo.vclk _ _ _ H).
Defined.

Lemma unknown_hunt_finds_nothing_witness :
  existsb (String.eqb (match qget [("hunt_type", "ransomware")] "hunt_type" with
                       | Some h => h
                       | None => "all"
                       end))
          ["fake_updates"; "malware_downloads"; "c2_communication"; "all"] = false
  /\ api_threat_hunt Ref.runtime Demo.vclk [("hunt_type", "ransomware")]
       Scenarios.hunted_buffer
     = (200, Some (Scenarios.hunt [("hunt_type", "ransomware")]))
  /\ hr_findings (Scenarios.hunt [("hunt_type", "ransomware")]) = []
  /\ hr_findings_count (Scenarios.hunt [("hunt_type", "ransomware")]) = 0.
Proof.
  assert (H1 : existsb (String.eqb (match qget [("hunt_type", "ransomware")] "hunt_type"
                                    with
                                    | Some h => h
                                    | None => "all"
                                    end))
                 ["fake_updates"; "malware_downloads"; "c2_communication"; "all"]
               = false) by reflexivity.
  assert (H2 : api_threat_hunt Ref.runtime Demo.vclk [("hunt_type", "ransomware")]
                 Scenarios.hunted_buffer
               = (200, Some (Scenarios.hunt [("hunt_type", "ransomware")])))
    by (vm_compute; reflexivity).
  split; [exact H1 | split; [exact H2|]].
  exact (unknown_hunt_finds_nothing Ref.runtime Demo.vclk [("hunt_type", "ransomware")]
           Scenarios.hunted_buffer _ H1 H2).
Defined.



(** The new functions on the example buffers. *)
Example assess_ex :
  ta_threat_level (assess_ekfiddle_threat (VStr "High: malware dropper, obfuscated payload"))
  = "CRITICAL"
  /\ ta_risk_score
       (assess_ekfiddle_threat (VStr "High: malware dropper, obfuscated payload"))
     = s_1_0
  /\ ta_threat_level (assess_ekfiddle_threat (VStr "Low: tracking pixel")) = "MINIMAL"
  /\ ta_threat_level (assess_ekfiddle_threat (VStr "packed script")) = "MEDIUM"
  /\ ta_threat_level (assess_ekfiddle_threat (VInt 7)) = "NONE"
  /\ ta_error (assess_ekfiddle_threat (VInt 7)) = Some AttributeError.
Proof. repeat split; vm_compute; reflexivity. Qed.

Example parse_ex :
  ea_threat_types
    (parse_ekfiddle_comments (VStr "High: malware dropper, obfuscated payload"))
  = ["malware"]
  /\ ea_patterns_detected
       (parse_ekfiddle_comments (VStr "High: malware dropper, obfuscated payload"))
     = ["Payload detected"; "Obfuscated content"]
  /\ ea_severity (parse_ekfiddle_comments (VStr "Fake login, unusual form")) = "high"
  /\ ea_threat_types (parse_ekfiddle_comments (VStr "Fake login, unusual form"))
     = ["phishing"; "suspicious"]
  /\ ea_severity (parse_ekfiddle_comments (VStr "")) = "unknown".
Proof. repeat split; vm_compute; reflexivity. Qed.

Example hunt_ex :
  map fd_type (hr_findings (Scenarios.hunt []))
  = ["fake_update"; "malware_download"; "c2_communication"; "malware_download"]
  /\ map fd_session_id (hr_findings (Scenarios.hunt []))
     = [VStr "51"; VStr "51"; VStr "51"; VStr "52"]
  /\ map fd_description (hr_findings (Scenarios.hunt [("hunt_type", "malware_downloads")]))
     = ["Suspicious download chrome-update.exe"; "Suspicious download archive.zip"]
  /\ hr_sessions_analyzed (Scenarios.hunt []) = 3
  /\ fst (api_threat_hunt Ref.runtime Demo.vclk [("time_range", "soon")]
            Scenarios.hunted_buffer) = 500.
Proof. repeat split; vm_compute; reflexivity. Qed.

Example ekfiddle_listing_ex :
  map (fun sa => lookup "id" (fst sa)) (ek_results (Scenarios.listed []))
  = [Some (VStr "1"); Some (VStr "2"); Some (VStr "2")]
  /\ map (fun sa => ea_severity (snd sa)) (ek_results (Scenarios.listed []))
     = ["low"; "high"; "medium"]
  /\ es_severity_distribution (ek_summary (Scenarios.listed []))
     = [("low", 1); ("high", 1); ("medium", 1)]
  /\ map (fun sa => lookup "id" (fst sa)) (ek_results (Scenarios.listed [("limit", "1")]))
     = [Some (VStr "2")]
  /\ List.length (ek_results (Scenarios.listed [("limit", "0")])) = 3%nat
  /\ List.length (ek_results (Scenarios.listed [("limit", "-1")])) = 2%nat.
Proof. repeat split; vm_compute; reflexivity. Qed.

Example export_ex :
  (match export_selection Ref.runtime [("limit", "2")] Demo.after_three with
   | Ok out => map (lookup "id") out | Raise _ => [] end)
  = [Some (VStr "7"); Some (VStr "8")]
  /\ (match export_selection Ref.runtime [("limit", "-2")] Demo.after_three with
      | Ok out => map (lookup "id") out | Raise _ => [] end)
     = [Some (VStr "8")]
  /\ (match export_selection Ref.runtime [("filter_host", "OLD")] Demo.after_three with
      | Ok out => map (lookup "host") out | Raise _ => [] end)
     = [Some (VStr "old.example")]
  /\ is_ok (export_selection Ref.runtime [("limit", "many")] Demo.after_three) = false.
Proof. repeat split; vm_compute; reflexivity. Qed.
